(** * Epiclock: GEO inspector and Illumina 450k annotation extractor

    A shallow embedding of the two command-line scripts
    [s00005_geo_inspector.py] and [s00007_extract_annotation.py], and the
    properties of their step runner, resource monitor, cache short-circuits,
    phenotype flattening and archive extraction guard.

    Conventions of the embedding.
    - A Python [str] is a Rocq [string]: the UTF-8 bytes of the text, so
      that the literals below are the literals of the scripts.  The
      methods of [str] that follow the Unicode database are written out
      for ASCII text in [PyStr].  [summarize_phenotypes] applies
      [str.strip] and [str.lower] to the entries it reads: there the two
      methods are parameters of the embedding ([str_strip], [str_lower]),
      known on ASCII text only.  The annotation script lower-cases its
      tag and the file names it compares with two ASCII names; for these
      the ASCII function stands.
    - A Python [int] is a [Z]; a [float] is the rational [Q] it denotes.
    - Exceptions are values of [exn]; a computation that may raise runs in
      the monad [M], which threads the [world] (file system, network trace,
      log records, clock, object store) and keeps it when an exception is
      raised. *)

From Stdlib Require Import ZArith QArith String Ascii List Bool Lia DecimalString.
From stdpp Require Import gmap strings list.

Open Scope string_scope.

(** ** Python strings *)

Module PyStr.

(** [str(n)] and [%d] for an [int]. *)
Definition str_of_int (z : Z) : string := NilZero.string_of_int (Z.to_int z).

(** [s.zfill(w)] for a string of digits. *)
Fixpoint zeros (n : nat) : string :=
  match n with
  | O => EmptyString
  | S n' => String "0" (zeros n')
  end.

Definition zfill (w : nat) (s : string) : string :=
  zeros (w - String.length s) +:+ s.

(** [%0wd]: the sign, if any, counts in the width [w]. *)
Definition pad_int (w : nat) (z : Z) : string :=
  if (z <? 0)%Z then "-" +:+ zfill (w - 1) (str_of_int (Z.abs z))
  else zfill w (str_of_int z).

(** [%02d] *)
Definition pad2 (z : Z) : string := pad_int 2 z.

(** [c.isspace()] on the ASCII range: TAB, LF, VT, FF, CR, the four
    separators FS GS RS US, and the space. *)
Definition isspace (c : ascii) : bool :=
  let n := nat_of_ascii c in
  ((9 <=? n) && (n <=? 13) || (28 <=? n) && (n <=? 32))%nat.

(** [c.lower()] on the ASCII range. *)
Definition lower_char (c : ascii) : ascii :=
  let n := nat_of_ascii c in
  if ((65 <=? n) && (n <=? 90))%nat then ascii_of_nat (n + 32) else c.

Fixpoint lower (s : string) : string :=
  match s with
  | EmptyString => EmptyString
  | String c s' => String (lower_char c) (lower s')
  end.

Fixpoint lstrip (s : string) : string :=
  match s with
  | EmptyString => EmptyString
  | String c s' => if isspace c then lstrip s' else s
  end.

(** Strips trailing whitespace: a character is kept when something
    that is kept follows it, or when it is not whitespace. *)
Fixpoint rstrip (s : string) : string :=
  match s with
  | EmptyString => EmptyString
  | String c s' =>
      match rstrip s' with
      | EmptyString => if isspace c then EmptyString else String c EmptyString
      | r => String c r
      end
  end.

(** [s.strip()] *)
Definition strip (s : string) : string := rstrip (lstrip s).

(** [ch in s] for a one-character [ch]. *)
Fixpoint contains (ch : ascii) (s : string) : bool :=
  match s with
  | EmptyString => false
  | String c s' => if Ascii.eqb c ch then true else contains ch s'
  end.

(** [s.split(ch, 1)]: the text before the first [ch] and the text after
    it; [None] stands for the one-element list Python returns when [ch]
    does not occur. *)
Fixpoint split_once (ch : ascii) (s : string) : option (string * string) :=
  match s with
  | EmptyString => None
  | String c s' =>
      if Ascii.eqb c ch then Some (EmptyString, s')
      else match split_once ch s' with
           | Some (a, b) => Some (String c a, b)
           | None => None
           end
  end.

(** [s.startswith(p)] *)
Fixpoint startswith (p s : string) : bool :=
  match p, s with
  | EmptyString, _ => true
  | String a p', String b s' => Ascii.eqb a b && startswith p' s'
  | String _ _, EmptyString => false
  end.

(** [s.endswith(p)] *)
Definition endswith (p s : string) : bool :=
  (String.length p <=? String.length s)%nat
  && String.eqb (substring (String.length s - String.length p) (String.length p) s) p.

(** [s.split(ch)]: all the fields between occurrences of [ch]. *)
Fixpoint split_all (ch : ascii) (s : string) : list string :=
  match s with
  | EmptyString => [EmptyString]
  | String c s' =>
      match split_all ch s' with
      | [] => [EmptyString]
      | f :: fs => if Ascii.eqb c ch then EmptyString :: f :: fs
                   else String c f :: fs
      end
  end.

(** [sep.join(parts)] *)
Fixpoint join (sep : string) (parts : list string) : string :=
  match parts with
  | [] => EmptyString
  | [p] => p
  | p :: ps => p +:+ sep +:+ join sep ps
  end.

(** [s.isascii()] *)
Fixpoint is_ascii (s : string) : bool :=
  match s with
  | EmptyString => true
  | String c s' => (nat_of_ascii c <? 128)%nat && is_ascii s'
  end.

(** The characters of [repr(s)]. *)
Definition squote : ascii := ascii_of_nat 39.
Definition dquote : ascii := ascii_of_nat 34.
Definition backslash : ascii := ascii_of_nat 92.

Definition hex_digit (n : nat) : ascii :=
  if (n <? 10)%nat then ascii_of_nat (48 + n) else ascii_of_nat (87 + n).

(** One character inside [repr(s)], [quote] being the quote in use: the
    quote and the backslash get a backslash, TAB, LF and CR are written
    with their letter, the other control characters as two hexadecimal
    digits, and everything else is kept. *)
Definition repr_char (quote c : ascii) : string :=
  let n := nat_of_ascii c in
  if Ascii.eqb c quote || Ascii.eqb c backslash then String backslash (String c EmptyString)
  else if (n =? 9)%nat then String backslash "t"
  else if (n =? 10)%nat then String backslash "n"
  else if (n =? 13)%nat then String backslash "r"
  else if (n <? 32)%nat || (n =? 127)%nat
       then String backslash (String "x" (String (hex_digit (n / 16))
                                             (String (hex_digit (n mod 16)) EmptyString)))
  else String c EmptyString.

Fixpoint repr_chars (quote : ascii) (s : string) : string :=
  match s with
  | EmptyString => EmptyString
  | String c s' => repr_char quote c +:+ repr_chars quote s'
  end.

(** [repr(s)], as [str(l)] writes the elements of a list and as the text
    of an [OSError] writes the file name: between single quotes, or
    between double quotes when [s] has a single quote and no double
    quote.  This is [repr] on ASCII text; a character above 127 is kept,
    as [repr] keeps those that are printable. *)
Definition repr (s : string) : string :=
  let quote := if contains squote s && negb (contains dquote s) then dquote else squote in
  String quote (repr_chars quote s) +:+ String quote EmptyString.

End PyStr.

(** ** Exceptions *)

(** Instances of the subclasses of [Exception] that the scripts raise or
    catch.  [ValueError] stands for the class and its subclasses, which is
    what [except ValueError] selects; [Exception_] is a plain
    [Exception(msg)]; [OtherException] is any further subclass of
    [Exception] that is not a [ValueError].  An instance is true, as
    objects are by default; [FalsyInstance e] is an instance like [e] of
    a subclass that defines [__bool__] or [__len__] so that the instance
    is false. *)
Inductive exn : Type :=
| ValueError (msg : string)
| AssertionError (msg : string)
| AttributeError (msg : string)
| OverflowError (msg : string)
| FileNotFoundError (msg : string)
| Exception_ (msg : string)
| OtherException (cls msg : string)
| FalsyInstance (e : exn).

(** [str(e)], as interpolated by [f"... ({e})"]. *)
Fixpoint exn_str (e : exn) : string :=
  match e with
  | ValueError m | AssertionError m | AttributeError m | OverflowError m
  | FileNotFoundError m | Exception_ m | OtherException _ m => m
  | FalsyInstance e' => exn_str e'
  end.

(** [isinstance(e, ValueError)] *)
Fixpoint is_ValueError (e : exn) : bool :=
  match e with
  | ValueError _ => true
  | FalsyInstance e' => is_ValueError e'
  | _ => false
  end.

(** [bool(e)], the test of [if e:]. *)
Definition exn_bool (e : exn) : bool :=
  match e with FalsyInstance _ => false | _ => true end.

(** The outcome of a call: a value or a raised exception. *)
Inductive result (A : Type) : Type :=
| Ok (a : A)
| Raise (e : exn).
Arguments Ok {A} a.
Arguments Raise {A} e.

(** ** Floating-point arithmetic *)

Module PyFloat.
Import PyStr.

(** Rounding of a rational to the nearest integer, ties to even. *)
Definition round_half_even (n d : Z) : Z :=
  let q := (n / d)%Z in
  let r := (n mod d)%Z in
  match (2 * r ?= d)%Z with
  | Lt => q
  | Gt => (q + 1)%Z
  | Eq => if Z.even q then q else (q + 1)%Z
  end.

(** The binary64 number nearest to [x] (53 significant bits, ties to
    even).  The exponent is not bounded: the quotients formed below are
    far from the overflow and subnormal ranges. *)
Definition binary64_round (x : Q) : Q :=
  let n := Qnum x in
  let d := Zpos (Qden x) in
  if (n =? 0)%Z then 0%Q
  else
    let a := Z.abs n in
    let e0 := (Z.log2 a - Z.log2 d - 52)%Z in
    let num e := if (0 <=? e)%Z then a else (a * 2 ^ (- e))%Z in
    let den e := if (0 <=? e)%Z then (d * 2 ^ e)%Z else d in
    let e := if (num e0 / den e0 <? 2 ^ 52)%Z then (e0 - 1)%Z else e0 in
    let m := (Z.sgn n * round_half_even (num e) (den e))%Z in
    if (0 <=? e)%Z then inject_Z (m * 2 ^ e)
    else Qred (Qmake m (Z.to_pos (2 ^ (- e)))).

(** [n / d] for two [int]s, [d] positive: the correctly rounded
    quotient. *)
Definition truediv (n : Z) (d : positive) : Q := binary64_round (Qmake n d).

(** [f"{x:.{prec}f}"], and [f"{x:+.{prec}f}"] when [plus] is set: the
    decimal expansion of [x] rounded to [prec] places, ties to even. *)
Definition format_f (plus : bool) (prec : nat) (x : Q) : string :=
  let scale := (10 ^ Z.of_nat prec)%Z in
  let scaled := round_half_even (Z.abs (Qnum x) * scale) (Zpos (Qden x)) in
  let sign := if (Qnum x <? 0)%Z then "-" else if plus then "+" else "" in
  let whole := str_of_int (scaled / scale) in
  match prec with
  | O => sign +:+ whole
  | _ => sign +:+ whole +:+ "." +:+ zfill prec (str_of_int (scaled mod scale))
  end.

(** [round(x)] of a float: the nearest integer, ties to the even one. *)
Definition py_round (x : Q) : Z := round_half_even (Qnum x) (Zpos (Qden x)).

End PyFloat.

(** ** Duration formatting *)

Module Timedelta.
Import PyStr.

(** [datetime.timedelta], normalised: [0 <= seconds < 86400] and
    [0 <= microseconds < 1000000]. *)
Record timedelta : Type := {
  td_days : Z;
  td_seconds : Z;
  td_microseconds : Z
}.

(** [timedelta(seconds=n)] for an [int] n: the days are carried out of the
    seconds, and a day count beyond 999999999 in magnitude is refused. *)
Definition timedelta_of_seconds (n : Z) : result timedelta :=
  let d := (n / 86400)%Z in
  let s := (n mod 86400)%Z in
  if (Z.abs d >? 999999999)%Z
  then Raise (OverflowError ("days=" +:+ str_of_int d +:+ "; must have magnitude <= 999999999"))
  else Ok {| td_days := d; td_seconds := s; td_microseconds := 0 |}.

(** [timedelta.__str__] *)
Definition timedelta_str (t : timedelta) : string :=
  let mm := (td_seconds t / 60)%Z in
  let ss := (td_seconds t mod 60)%Z in
  let hh := (mm / 60)%Z in
  let mm := (mm mod 60)%Z in
  let s := str_of_int hh +:+ ":" +:+ pad2 mm +:+ ":" +:+ pad2 ss in
  let s :=
    if (td_days t =? 0)%Z then s
    else str_of_int (td_days t) +:+ " day"
         +:+ (if (Z.abs (td_days t) =? 1)%Z then "" else "s") +:+ ", " +:+ s in
  if (td_microseconds t =? 0)%Z then s
  else s +:+ "." +:+ pad_int 6 (td_microseconds t).

End Timedelta.

(** [format_duration(seconds)]:
    [str(timedelta(seconds=round(seconds)))] *)
Definition format_duration (seconds : Q) : result string :=
  match Timedelta.timedelta_of_seconds (PyFloat.py_round seconds) with
  | Ok t => Ok (Timedelta.timedelta_str t)
  | Raise e => Raise e
  end.

(** ** POSIX paths ([os.path] on a POSIX system) *)

Module PosixPath.
Import PyStr.

Definition sep : ascii := "/"%char.

(** [os.path.isabs(p)] *)
Definition isabs (p : string) : bool := startswith "/" p.

(** [os.path.join(a, b)] *)
Definition join (a b : string) : string :=
  if startswith "/" b then b
  else if String.eqb a "" || endswith "/" a then a +:+ b
  else a +:+ "/" +:+ b.

(** The loop of [normpath] over the components: empty and [.] components
    are skipped; [..] removes the component before it, except at the
    start of a relative path and after another [..]. *)
Fixpoint normpath_comps (initial_slashes : nat) (comps new_comps : list string)
  : list string :=
  match comps with
  | [] => new_comps
  | comp :: rest =>
      if String.eqb comp "" || String.eqb comp "." then
        normpath_comps initial_slashes rest new_comps
      else if negb (String.eqb comp "..")
              || (Nat.eqb initial_slashes 0 && Nat.eqb (List.length new_comps) 0)
              || (negb (Nat.eqb (List.length new_comps) 0)
                  && String.eqb (List.last new_comps "") "..")
      then normpath_comps initial_slashes rest (new_comps ++ [comp])%list
      else normpath_comps initial_slashes rest (List.removelast new_comps)
  end.

(** [os.path.normpath(path)] *)
Definition normpath (path : string) : string :=
  if String.eqb path "" then "."
  else
    let initial_slashes :=
      if startswith "/" path then
        if startswith "//" path && negb (startswith "///" path) then 2%nat
        else 1%nat
      else 0%nat in
    let comps := normpath_comps initial_slashes (split_all sep path) [] in
    let path := PyStr.join "/" comps in
    let path :=
      match initial_slashes with
      | O => path
      | 1%nat => "/" +:+ path
      | _ => "//" +:+ path
      end in
    if String.eqb path "" then "." else path.

(** [os.path.abspath(path)], with [cwd] the value of [os.getcwd()]. *)
Definition abspath (cwd path : string) : string :=
  if isabs path then normpath path else normpath (join cwd path).

(** [os.path.dirname(p)]: the text before the last slash, without its
    trailing slashes unless it is made of slashes only. *)
Fixpoint last_slash (s : string) : option nat :=
  match s with
  | EmptyString => None
  | String c s' =>
      match last_slash s' with
      | Some i => Some (S i)
      | None => if Ascii.eqb c sep then Some O else None
      end
  end.

Fixpoint all_slashes (s : string) : bool :=
  match s with
  | EmptyString => true
  | String c s' => Ascii.eqb c sep && all_slashes s'
  end.

Fixpoint rstrip_slashes (s : string) : string :=
  match s with
  | EmptyString => EmptyString
  | String c s' =>
      match rstrip_slashes s' with
      | EmptyString => if Ascii.eqb c sep then EmptyString else String c EmptyString
      | r => String c r
      end
  end.

Definition dirname (p : string) : string :=
  match last_slash p with
  | None => ""
  | Some i =>
      let head := substring 0 (S i) p in
      if all_slashes head then head else rstrip_slashes head
  end.

(** Lexicographic order of [str], by code point. *)
Definition str_le (a b : string) : bool :=
  match String.compare a b with Gt => false | _ => true end.

Definition str_min (a b : string) : string := if str_le a b then a else b.
Definition str_max (a b : string) : string := if str_le a b then b else a.

(** The loop of [commonprefix]: [s1] up to its first disagreement with
    [s2].  With [s1 <= s2], [s2] does not end before that point. *)
Fixpoint common_loop (s1 s2 : string) : string :=
  match s1, s2 with
  | String c r1, String d r2 =>
      if Ascii.eqb c d then String c (common_loop r1 r2) else EmptyString
  | _, _ => EmptyString
  end.

(** [os.path.commonprefix(m)]: character by character, on the least and
    the greatest string of [m]. *)
Definition commonprefix (m : list string) : string :=
  match m with
  | [] => ""
  | x :: xs =>
      let s1 := fold_left str_min xs x in
      let s2 := fold_left str_max xs x in
      common_loop s1 s2
  end.

End PosixPath.

(** ** Snapshots of the system counters and their difference *)

(** The dictionary returned by [SystemMonitor.snapshot]: a fixed set of
    keys, the byte counts being [int]s and the CPU load a [float]. *)
Record Snapshot : Type := {
  cpu_percent : Q;
  mem_used : Z;
  mem_total : Z;
  disk_used : Z;
  disk_total : Z
}.

(** The dictionary returned by [SystemMonitor.delta]. *)
Record Delta : Type := {
  rss_delta : Q;
  disk_delta : Q;
  cpu_after : Q
}.


(** ** The world the scripts run in *)

(** Levels of the [logging] module. *)
Inductive level : Type := DEBUG | INFO | WARNING | ERROR.

Definition level_rank (l : level) : nat :=
  match l with DEBUG => 10 | INFO => 20 | WARNING => 30 | ERROR => 40 end.

(** A record handed to the root logger; [exc_info] is the exception whose
    traceback [logging.exception] attaches. *)
Record log_record : Type := {
  lvl : level;
  msg : string;
  exc_info : option exn
}.

(** The records a root logger configured at [threshold] passes on to its
    file and console handlers. *)
Definition emitted (threshold : level) (records : list log_record) : list log_record :=
  List.filter (fun r => (level_rank threshold <=? level_rank (lvl r))%nat) records.

(** Row labels of a data frame and their coercion by [astype(str)]. *)
Inductive label : Type :=
| LInt (z : Z)
| LStr (s : string).

Definition label_astype_str (l : label) : label :=
  match l with
  | LInt z => LStr (PyStr.str_of_int z)
  | LStr s => LStr s
  end.

(** A [pandas.DataFrame] object: its index and its named columns. *)
Record DataFrame : Type := {
  df_index : list label;
  df_columns : list (string * list string)
}.

(** The state threaded through the scripts: regular files by absolute
    path, the requests sent to the network so far, the log records issued
    so far, the wall clock read by [time.time()], the system counters read
    by [psutil] and [shutil.disk_usage], and the store of data-frame
    objects, addressed by reference. *)
Record world : Type := {
  fs : gmap string (list Byte.byte);
  net : list string;
  log_records : list log_record;
  now : Q;
  counters : Snapshot;
  frames : gmap nat DataFrame
}.

Definition set_fs (f : gmap string (list Byte.byte) → gmap string (list Byte.byte))
    (w : world) : world :=
  {| fs := f (fs w); net := net w; log_records := log_records w;
     now := now w; counters := counters w; frames := frames w |}.

Definition set_net (f : list string → list string) (w : world) : world :=
  {| fs := fs w; net := f (net w); log_records := log_records w;
     now := now w; counters := counters w; frames := frames w |}.

Definition set_log_records (f : list log_record → list log_record) (w : world) : world :=
  {| fs := fs w; net := net w; log_records := f (log_records w);
     now := now w; counters := counters w; frames := frames w |}.

Definition set_frames (f : gmap nat DataFrame → gmap nat DataFrame) (w : world) : world :=
  {| fs := fs w; net := net w; log_records := log_records w;
     now := now w; counters := counters w; frames := f (frames w) |}.

(** *** Computations that may raise *)

Definition M (A : Type) : Type := world → result A * world.

#[global] Instance M_ret : MRet M := λ A (a : A) w, (Ok a, w).

#[global] Instance M_bind : MBind M := λ A B (f : A → M B) (m : M A) w,
  match m w with
  | (Ok a, w') => f a w'
  | (Raise e, w') => (Raise e, w')
  end.

Definition raise {A : Type} (e : exn) : M A := λ w, (Raise e, w).

Definition gets {A : Type} (f : world → A) : M A := λ w, (Ok (f w), w).

Definition modify (f : world → world) : M unit := λ w, (Ok tt, f w).

Definition lift_result {A : Type} (r : result A) : M A := λ w, (r, w).

(** [try: body / except C as e: handler e], where [catches] tells the
    instances of [C]. *)
Definition try_except {A : Type} (body : M A) (catches : exn → bool)
    (handler : exn → M A) : M A := λ w,
  match body w with
  | (Ok a, w') => (Ok a, w')
  | (Raise e, w') => if catches e then handler e w' else (Raise e, w')
  end.

(** [except Exception]: every instance of [exn]. *)
Definition any_Exception (e : exn) : bool := true.

(** *** Files *)

(** [os.path.exists(p)] *)
Definition os_path_exists (p : string) : M bool :=
  gets (λ w, bool_decide (is_Some (fs w !! p))).

(** The [FileNotFoundError] of the operating system for the path [p]:
    [str(e)] is the error number, its text and [repr(p)]. *)
Definition no_such_file (p : string) : exn :=
  FileNotFoundError ("[Errno 2] No such file or directory: " +:+ PyStr.repr p).

(** [os.path.getsize(p)] *)
Definition os_path_getsize (p : string) : M Z := λ w,
  match fs w !! p with
  | Some content => (Ok (Z.of_nat (List.length content)), w)
  | None => (Raise (no_such_file p), w)
  end.

(** Reading a whole file. *)
Definition read_file (p : string) : M (list Byte.byte) := λ w,
  match fs w !! p with
  | Some content => (Ok content, w)
  | None => (Raise (no_such_file p), w)
  end.

(** [open(p, "wb").write(content)] *)
Definition write_file (p : string) (content : list Byte.byte) : M unit :=
  modify (set_fs (λ f, <[p := content]> f)).

(** [shutil.copy(src, dst)] *)
Definition shutil_copy (src dst : string) : M unit :=
  content ← read_file src;
  write_file dst content.

(** [shutil.move(src, dst)] *)
Definition shutil_move (src dst : string) : M unit :=
  content ← read_file src;
  modify (set_fs (λ f, <[dst := content]> (delete src f))).

(** *** Logging *)

(** [logging.info(msg)] *)
Definition logging_info (message : string) : M unit :=
  modify (set_log_records
            (λ l, (l ++ [ {| lvl := INFO; msg := message; exc_info := None |} ])%list)).

(** [logging.exception(msg)] while [exc] is being handled. *)
Definition logging_exception (message : string) (exc : option exn) : M unit :=
  modify (set_log_records
            (λ l, (l ++ [ {| lvl := ERROR; msg := message; exc_info := exc |} ])%list)).

(** The [Logger] interface: one method, [log]. *)
Record Logger : Type := { log : string → M unit }.

(** The base class, whose [log] is not implemented. *)
Definition AbstractLogger : Logger :=
  {| log := λ _, raise (OtherException "NotImplementedError" "") |}.

(** [FileLogger] *)
Definition FileLogger : Logger := {| log := logging_info |}.

(** *** The resource monitor *)

Module SystemMonitor.

(** The object: it holds the logger it reports to. *)
Record t : Type := { logger : Logger }.

(** [SystemMonitor.snapshot(self)]: the counters as they are now. *)
Definition snapshot (self : t) : M Snapshot := gets counters.

(** [SystemMonitor.delta(before, after)] *)
Definition delta (before after : Snapshot) : Delta :=
  {| rss_delta := PyFloat.truediv (mem_used after - mem_used before) (1024 ^ 2);
     disk_delta := PyFloat.truediv (disk_used after - disk_used before) (1024 ^ 2);
     cpu_after := cpu_percent after |}.

End SystemMonitor.

(** [time.time()] *)
Definition time_time : M Q := gets now.

(** ** Step timing context *)

Module StepTimer.
Import PyFloat.

(** The object: [before] is the empty dictionary until [__enter__]
    stores a snapshot. *)
Record t : Type := {
  title : string;
  monitor : SystemMonitor.t;
  logger : Logger;
  t0 : Q;
  before : option Snapshot
}.

(** [StepTimer.__init__]: [before] starts as the empty dictionary. *)
Definition __init__ (title : string) (monitor : SystemMonitor.t) (logger : Logger) : t :=
  {| title := title; monitor := monitor; logger := logger;
     t0 := 0; before := None |}.

(** [StepTimer.__enter__]: returns [self], with [t0] and [before] set. *)
Definition __enter__ (self : t) : M t :=
  log (logger self) ("🔍 START: " +:+ title self) ;;
  t ← time_time;
  b ← SystemMonitor.snapshot (monitor self);
  mret {| title := title self; monitor := monitor self; logger := logger self;
          t0 := t; before := Some b |}.

(** [self.monitor.delta(self.before, after)]; the keys are missing from
    a [before] that is still the empty dictionary. *)
Definition monitor_delta (before : option Snapshot) (after : Snapshot) : M Delta :=
  match before with
  | Some b => mret (SystemMonitor.delta b after)
  | None => raise (OtherException "KeyError" "'mem_used'")
  end.

(** The test [if exc:] on the third argument of [__exit__]: [None] is
    false, and an exception instance has the truth value of [bool(exc)]. *)
Definition exc_truth (exc : option exn) : bool :=
  match exc with
  | Some e => exn_bool e
  | None => false
  end.

(** [StepTimer.__exit__(self, exc_type, exc, tb)].  [exc] is [None] or
    the exception instance.  The value returned is [Some false] for
    [return False] and [None] when the body runs to its end. *)
Definition __exit__ (self : t) (exc : option exn) : M (option bool) :=
  after ← SystemMonitor.snapshot (monitor self);
  t ← time_time;
  dt ← lift_result (format_duration (binary64_round (t - t0 self)));
  if exc_truth exc then
      logging_exception ("❌ FAIL: " +:+ title self +:+ " (duration " +:+ dt +:+ ")") exc ;;
      mret (Some false)
  else
      delta ← monitor_delta (before self) after;
      log (logger self)
          ("🔢 RSS Δ: " +:+ format_f true 2 (rss_delta delta)
           +:+ " MB | 💽 Disk Δ: " +:+ format_f true 2 (disk_delta delta)
           +:+ " MB | ⚙️ CPU: " +:+ format_f false 0 (cpu_after delta) +:+ "%") ;;
      log (logger self) ("✅ DONE: " +:+ title self +:+ " in " +:+ dt +:+ String "010" "") ;;
      mret None.

(** Truth value of what [__exit__] returned. *)
Definition truthy (r : option bool) : bool :=
  match r with Some b => b | None => false end.

(** [with StepTimer(title, monitor, logger): body].  The statement ends
    normally with the body's value, ends normally without one when
    [__exit__] swallows the body's exception, or raises. *)
Definition with_ {A : Type} (title : string) (monitor : SystemMonitor.t)
    (logger : Logger) (body : M A) : M (option A) := λ w,
  match __enter__ (__init__ title monitor logger) w with
  | (Raise e, w1) => (Raise e, w1)
  | (Ok self, w1) =>
      match body w1 with
      | (Ok a, w2) =>
          match __exit__ self None w2 with
          | (Ok _, w3) => (Ok (Some a), w3)
          | (Raise e, w3) => (Raise e, w3)
          end
      | (Raise e, w2) =>
          match __exit__ self (Some e) w2 with
          | (Ok r, w3) => if truthy r then (Ok None, w3) else (Raise e, w3)
          | (Raise e', w3) => (Raise e', w3)
          end
      end
  end.

End StepTimer.

(** ** Python dictionaries that keep insertion order *)

Module PyDict.

Section Dict.
Context {V : Type}.

(** [d.get(k)] *)
Fixpoint get (k : string) (d : list (string * V)) : option V :=
  match d with
  | [] => None
  | (k', v) :: d' => if String.eqb k' k then Some v else get k d'
  end.

(** [d[k] = v]: the value is replaced where the key already is, and
    the pair is added at the end otherwise. *)
Fixpoint set (k : string) (v : V) (d : list (string * V)) : list (string * V) :=
  match d with
  | [] => [(k, v)]
  | (k', v') :: d' =>
      if String.eqb k' k then (k', v) :: d' else (k', v') :: set k v d'
  end.

(** [list(d.keys())] *)
Definition keys (d : list (string * V)) : list string := List.map fst d.

End Dict.

(** [Counter(values)]: each value with the number of times it occurs,
    in the order of first occurrence. *)
Definition counter_add (c : list (string * Z)) (x : string) : list (string * Z) :=
  match get x c with
  | Some n => set x (n + 1)%Z c
  | None => set x 1%Z c
  end.

Definition Counter (values : list string) : list (string * Z) :=
  fold_left counter_add values [].

End PyDict.

(** ** Parsed GEO objects *)

(** A [GSM] sub-record: its metadata maps a field name to a list of
    strings. *)
Record GSM : Type := { gsm_metadata : list (string * list string) }.

(** What [joblib.load] or the parser hands back: an object whose
    attributes [gsms] and [metadata] may or may not be there. *)
Record pyobj : Type := {
  obj_gsms : option (list (string * GSM));
  obj_metadata : option (list (string * list string))
}.

(** [obj.gsms] and [obj.metadata] *)
Definition getattr_gsms (o : pyobj) : M (list (string * GSM)) :=
  match obj_gsms o with
  | Some g => mret g
  | None => raise (AttributeError "object has no attribute 'gsms'")
  end.

Definition getattr_metadata (o : pyobj) : M (list (string * list string)) :=
  match obj_metadata o with
  | Some m => mret m
  | None => raise (AttributeError "object has no attribute 'metadata'")
  end.

(** [hasattr(o, "gsms")] *)
Definition hasattr_gsms (o : pyobj) : bool :=
  match obj_gsms o with Some _ => true | None => false end.

(** [str(l)] for a list of strings, as interpolated in a log line: the
    [repr] of the elements between brackets. *)
Definition repr_list (l : list string) : string :=
  "[" +:+ PyStr.join ", " (List.map PyStr.repr l) +:+ "]".

(** A call [f(k1=..., k2=...)] of a function [fname] whose parameters are
    [parameters] and which takes no [**kwargs]: a keyword that is not a
    parameter raises [TypeError] before the body runs. *)
Definition call_with_keywords {A : Type} (fname : string) (parameters keywords : list string)
    (body : M A) : M A :=
  match List.find (λ k, negb (existsb (String.eqb k) parameters)) keywords with
  | Some k =>
      raise (OtherException "TypeError"
               (fname +:+ "() got an unexpected keyword argument " +:+ PyStr.repr k))
  | None => body
  end.

(** ** GEO dataset fetcher ([s00005_geo_inspector.py]) *)

Module GeoDatasetFetcher.

(** The object and its derived paths. *)
Record t : Type := {
  geo_id : string;
  logger : Logger;
  soft_path : string;
  gse_object_path : string;
  pheno_csv : string;
  log_file : string
}.

Section Environment.

(** The module-level directories. *)
Variable data_dir results_dir : string.

(** [GEOparse.get_GEO(geo=..., destdir=..., how="full")]: the download
    by the library's own client. *)
Variable GEOparse_download : string → string → M unit.

(** The body of [GEOparse.get_GEO] when it parses a file: what the
    library does with the keyword arguments it is given. *)
Variable GEOparse_parse : list (string * string) → M pyobj.

(** [str.strip] and [str.lower] of the interpreter, on the UTF-8 text. *)
Variable str_strip str_lower : string → string.

(** [os.listdir(d)]: the names in a directory, in the system's order. *)
Variable os_listdir : string → M (list string).

(** The serialisation of [joblib]. *)
Variable joblib_decode : list Byte.byte → result pyobj.
Variable joblib_encode : pyobj → list Byte.byte.

(** [pd.DataFrame(rows).to_csv(index=False)] as bytes. *)
Variable rows_to_csv : list (list (string * string)) → list Byte.byte.

(** [joblib.load(path)] *)
Definition joblib_load (path : string) : M pyobj :=
  content ← read_file path;
  lift_result (joblib_decode content).

(** [joblib.dump(obj, path, compress=("zlib", 3))] *)
Definition joblib_dump (obj : pyobj) (path : string) : M unit :=
  write_file path (joblib_encode obj).

(** [GeoDatasetFetcher.__init__] *)
Definition __init__ (geo_id : string) (logger : Logger) : t :=
  {| geo_id := geo_id;
     logger := logger;
     soft_path := PosixPath.join data_dir ("s00005_" +:+ geo_id +:+ "_family.soft.gz");
     gse_object_path := PosixPath.join data_dir ("s00005_" +:+ geo_id +:+ "_gse_object.joblib");
     pheno_csv := PosixPath.join results_dir ("s00005_" +:+ geo_id +:+ "_phenotypes.csv");
     log_file := PosixPath.join results_dir ("s00005_download_dataset_" +:+ geo_id +:+ ".txt") |}.

(** The [for fn in os.listdir(data_dir)] loop of [download_soft]: the
    first name that starts with the identifier and ends in [.soft.gz]
    is moved to [soft_path], unless it is there already, and the loop
    stops. *)
Fixpoint rename_first_match (self : t) (names : list string) : M unit :=
  match names with
  | [] => mret tt
  | fn :: rest =>
      if PyStr.startswith (geo_id self) fn && PyStr.endswith ".soft.gz" fn then
        let src := PosixPath.join data_dir fn in
        if negb (String.eqb src (soft_path self))
        then shutil_move src (soft_path self)
        else mret tt
      else rename_first_match self rest
  end.

(** [GeoDatasetFetcher.download_soft] *)
Definition download_soft (self : t) : M unit :=
  ex ← os_path_exists (soft_path self);
  nonempty ← (if ex : bool
              then sz ← os_path_getsize (soft_path self); mret (0 <? sz)%Z
              else mret false);
  if nonempty : bool then
    log (logger self) ("✅ SOFT already present: " +:+ soft_path self)
  else
    log (logger self)
        ("📥 Downloading " +:+ geo_id self +:+ " ➜ " +:+ soft_path self) ;;
    GEOparse_download (geo_id self) data_dir ;;
    names ← os_listdir data_dir;
    rename_first_match self names ;;
    log (logger self) "✅ Download complete.".

(** The [try] block of [load_or_parse_gse]: load the cached object and
    check that it has a non-empty [gsms].  The [assert] statement is
    executed, as it is when the interpreter runs without [-O]. *)
Definition load_cached (self : t) : M pyobj :=
  log (logger self) "📦 Attempting to load cached GSE object..." ;;
  gse ← joblib_load (gse_object_path self);
  checked ← (if hasattr_gsms gse
             then g ← getattr_gsms gse; mret (0 <? Z.of_nat (List.length g))%Z
             else mret false);
  (if checked : bool then mret tt else raise (AssertionError "")) ;;
  g ← getattr_gsms gse;
  log (logger self)
      ("⚡ Using cached GSE object — "
       +:+ PyStr.str_of_int (Z.of_nat (List.length g)) +:+ " samples.") ;;
  mret gse.

(** The path under which the parser recognises the file by its name. *)
Definition friendly_path (self : t) : string :=
  let dir_name := PosixPath.dirname (soft_path self) in
  let friendly_name := geo_id self +:+ "_family.soft.gz" in
  PosixPath.join dir_name friendly_name.

(** First block after the [try]: make sure the friendly copy exists. *)
Definition ensure_friendly_copy (self : t) : M unit :=
  ex ← os_path_exists (friendly_path self);
  if ex : bool then mret tt
  else
    shutil_copy (soft_path self) (friendly_path self) ;;
    log (logger self) ("📄 Created GEOparse-friendly copy: " +:+ friendly_path self).

(** The parameters of [GEOparse.get_GEO], which takes no [**kwargs]. *)
Definition get_GEO_parameters : list string :=
  ["geo"; "filepath"; "destdir"; "how"; "annotate_gpl"; "geotype"; "include_data";
   "silent"; "aspera"; "partial"; "open_kwargs"].

(** [GEOparse.get_GEO] called with the keyword arguments [kwargs]. *)
Definition get_GEO (kwargs : list (string * string)) : M pyobj :=
  call_with_keywords "get_GEO" get_GEO_parameters (PyDict.keys kwargs)
    (GEOparse_parse kwargs).

(** Second block: parse by the file name, and with the keyword [GEO]
    added when that is refused with a [ValueError]. *)
Definition parse_with_fallback (self : t) : M pyobj :=
  try_except
    (get_GEO [("filepath", friendly_path self)])
    is_ValueError
    (λ ve,
       log (logger self)
           ("🧯 Filename-based parse failed, trying explicit GEO: " +:+ exn_str ve) ;;
       get_GEO [("filepath", soft_path self); ("GEO", geo_id self)]).

(** Last block: save the parsed object and return it. *)
Definition save_parsed (self : t) (gse : pyobj) : M pyobj :=
  joblib_dump gse (gse_object_path self) ;;
  log (logger self) ("💾 Re-saved parsed GSE object to " +:+ gse_object_path self) ;;
  mret gse.

(** What follows the [try] block of [load_or_parse_gse], in its three
    blocks. *)
Definition parse_from_soft (self : t) : M pyobj :=
  ensure_friendly_copy self ;;
  gse ← parse_with_fallback self;
  save_parsed self gse.

(** [GeoDatasetFetcher.load_or_parse_gse]: the [return] inside the
    [try] ends the method; the handler only logs, after which the
    method goes on to parse. *)
Definition load_or_parse_gse (self : t) : M pyobj :=
  cached ← try_except
             (gse ← load_cached self; mret (Some gse))
             any_Exception
             (λ e,
                log (logger self)
                    ("⚠️ Failed to load GSE object, will parse from SOFT... ("
                     +:+ exn_str e +:+ ")") ;;
                mret None);
  match cached with
  | Some gse => mret gse
  | None => parse_from_soft self
  end.

(** The inner loop of [summarize_phenotypes] over the entries of one
    metadata field: an entry with a colon is split at its first colon
    and stored under the stripped, lower-cased key. *)
Fixpoint add_items (record : list (string * string)) (meta : list string)
  : list (string * string) :=
  match meta with
  | [] => record
  | item :: rest =>
      if PyStr.contains ":" item then
        match PyStr.split_once ":" item with
        | Some (k, v) =>
            add_items (PyDict.set (str_lower (str_strip k)) (str_strip v) record) rest
        | None => add_items record rest
        end
      else add_items record rest
  end.

(** One turn of the outer loop: the row of a sample, and what it adds
    to [values]. *)
Definition sample_row (field : string) (sample_id : string) (gsm : GSM)
  : list (string * string) * list string :=
  let record := [("sample_id", sample_id)] in
  match PyDict.get field (gsm_metadata gsm) with
  | Some (item :: rest) => (add_items record (item :: rest), item :: rest)
  | Some [] | None => (record, [])
  end.

(** The outer loop: [rows] and [values] after all samples. *)
Fixpoint collect (field : string) (gsms : list (string * GSM))
  : list (list (string * string)) * list string :=
  match gsms with
  | [] => ([], [])
  | (sample_id, gsm) :: rest =>
      let '(record, vals) := sample_row field sample_id gsm in
      let '(rows, values) := collect field rest in
      (record :: rows, (vals ++ values)%list)
  end.

(** The loop that logs the counts. *)
Fixpoint log_counts (logger : Logger) (items : list (string * Z)) : M unit :=
  match items with
  | [] => mret tt
  | (label, count) :: rest =>
      log logger ("  " +:+ label +:+ ": " +:+ PyStr.str_of_int count) ;;
      log_counts logger rest
  end.

(** [GeoDatasetFetcher.summarize_phenotypes] *)
Definition summarize_phenotypes (self : t) (gse : pyobj)
    (field : string) : M unit :=
  gsms ← getattr_gsms gse;
  let '(rows, values) := collect field gsms in
  let counter := PyDict.Counter values in
  log (logger self) ("📊 Metadata summary: " +:+ field) ;;
  log_counts (logger self) counter ;;
  log (logger self) "" ;;
  write_file (pheno_csv self) (rows_to_csv rows) ;;
  log (logger self)
      ("📄 Parsed phenotype CSV saved to: " +:+ pheno_csv self +:+ String "010" "").

(** [GeoDatasetFetcher.verify_gse_object] *)
Definition verify_gse_object (self : t) : M unit :=
  log (logger self) "🔍 Final verification of parsed GSE object" ;;
  ex ← os_path_exists (gse_object_path self);
  (if ex : bool then
     log (logger self) ("✅ File exists: " +:+ gse_object_path self) ;;
     try_except
       (gse ← joblib_load (gse_object_path self);
        log (logger self) "✅ GSE object loaded." ;;
        g ← getattr_gsms gse;
        log (logger self)
            ("🔢 Samples loaded: " +:+ PyStr.str_of_int (Z.of_nat (List.length g))) ;;
        md ← getattr_metadata gse;
        log (logger self)
            ("📑 Metadata keys: " +:+ repr_list (List.firstn 5 (PyDict.keys md))))
       any_Exception
       (λ e, log (logger self) ("❌ Failed to load GSE object: " +:+ exn_str e))
   else
     log (logger self) "❌ Parsed GSE object not found.") ;;
  log (logger self) ("✅ Dataset inspection complete." +:+ String "010" "").

End Environment.

End GeoDatasetFetcher.
(** ** HTTP requests *)

(** The reply of the HTTP server: the status code with its reason
    phrase, the URL that answered and the body. *)
Record Response : Type := {
  status_code : Z;
  reason : string;
  response_url : string;
  content : list Byte.byte
}.

Module Requests.

Section Network.

(** What the network answers to a GET of a URL within a timeout: a
    reply, or a connection error. *)
Variable remote : string → Z → result Response.

(** [requests.get(url, timeout=timeout)]: the request goes out, then
    the reply or the error comes back. *)
Definition get (url : string) (timeout : Z) : M Response :=
  modify (set_net (λ n, (n ++ [url])%list)) ;;
  lift_result (remote url timeout).

End Network.

(** [resp.raise_for_status()]: a client error from 400 and a server
    error from 500, below 600. *)
Definition raise_for_status (resp : Response) : M unit :=
  let text (kind : string) :=
    PyStr.str_of_int (status_code resp) +:+ " " +:+ kind +:+ " Error: " +:+ reason resp
    +:+ " for url: " +:+ response_url resp in
  if ((400 <=? status_code resp) && (status_code resp <? 500))%Z
  then raise (OtherException "HTTPError" (text "Client"))
  else if ((500 <=? status_code resp) && (status_code resp <? 600))%Z
  then raise (OtherException "HTTPError" (text "Server"))
  else mret tt.

End Requests.

(** ** Data frames in the object store *)

Module Pandas.

(** A new object holding [f]. *)
Definition alloc (f : DataFrame) : M nat := λ w,
  let r := fresh (dom (frames w)) in
  (Ok r, set_frames (λ h, <[r := f]> h) w).

(** The frame a reference points to. *)
Definition read (r : nat) : M DataFrame := λ w,
  match frames w !! r with
  | Some f => (Ok f, w)
  | None => (Raise (OtherException "ReferenceError" ""), w)
  end.

(** [df.copy()]: a new object with the same index and data. *)
Definition copy (r : nat) : M nat :=
  f ← read r;
  alloc f.

(** [df.index.astype(str)] *)
Definition index_astype_str (r : nat) : M (list label) :=
  f ← read r;
  mret (List.map label_astype_str (df_index f)).

(** [df.index = idx]: the object itself is changed. *)
Definition set_index (r : nat) (idx : list label) : M unit :=
  f ← read r;
  modify (set_frames (λ h, <[r := {| df_index := idx; df_columns := df_columns f |}]> h)).

Section Library.

(** [DataFrame.join(other, how="inner")] and
    [DataFrame.reset_index().rename(columns={"index": "CpG"})] on the
    values of frames. *)
Variable pd_join_inner : DataFrame → DataFrame → result DataFrame.
Variable pd_reset_index_rename : DataFrame → DataFrame.

(** [a.join(b, how="inner")]: a new object. *)
Definition join_inner (a b : nat) : M nat :=
  fa ← read a;
  fb ← read b;
  joined ← lift_result (pd_join_inner fa fb);
  alloc joined.

(** [df.reset_index().rename(columns={"index": "CpG"})]: a new object. *)
Definition reset_index_rename (r : nat) : M nat :=
  f ← read r;
  alloc (pd_reset_index_rename f).

End Library.

End Pandas.

(** ** Annotation inspector ([s00007_extract_annotation.py]) *)

(** A member of a tar archive: a regular file with its name as stored. *)
Record TarInfo : Type := {
  ti_name : string;
  ti_data : list Byte.byte
}.

Module AnnotationInspector.

Section Environment.

(** The network, as [Requests.get] sees it. *)
Variable remote : string → Z → result Response.

(** The members of a [.tar.gz] file, or the error of [tarfile.open]. *)
Variable tar_decode : list Byte.byte → result (list TarInfo).

(** The working directory of the process, [os.getcwd()]. *)
Variable cwd : string.

(** The two operations of the data-frame library on values. *)
Variable pd_join_inner : DataFrame → DataFrame → result DataFrame.
Variable pd_reset_index_rename : DataFrame → DataFrame.

(** [AnnotationInspector._download_if_needed(url, out_path, timeout)] *)
Definition _download_if_needed (url out_path : string) (timeout : Z) : M unit :=
  ex ← os_path_exists out_path;
  nonempty ← (if ex : bool
              then sz ← os_path_getsize out_path; mret (0 <? sz)%Z
              else mret false);
  if nonempty : bool then mret tt
  else
    resp ← Requests.get remote url timeout;
    Requests.raise_for_status resp ;;
    write_file out_path (content resp).

(** The helper [is_within_directory] of [_safe_extract]. *)
Definition is_within_directory (directory target : string) : bool :=
  let abs_directory := PosixPath.abspath cwd directory in
  let abs_target := PosixPath.abspath cwd target in
  String.eqb (PosixPath.commonprefix [abs_directory; abs_target]) abs_directory.

(** The loop over [tar.getmembers()]: the first member that fails the
    check raises. *)
Fixpoint check_members (extract_dir : string) (members : list TarInfo) : M unit :=
  match members with
  | [] => mret tt
  | member :: rest =>
      let member_path := PosixPath.join extract_dir (ti_name member) in
      if negb (is_within_directory extract_dir member_path)
      then raise (Exception_ "Potential path traversal detected in tar file")
      else check_members extract_dir rest
  end.

(** Where [extractall] writes a member: its name joined to the
    destination, as the file system resolves it. *)
Definition extraction_target (extract_dir : string) (member : TarInfo) : string :=
  PosixPath.abspath cwd (PosixPath.join extract_dir (ti_name member)).

(** [tar.extractall(path=extract_dir)]: every member is written, the
    archive being trusted at this point (no extraction filter). *)
Fixpoint extractall (extract_dir : string) (members : list TarInfo) : M unit :=
  match members with
  | [] => mret tt
  | member :: rest =>
      write_file (extraction_target extract_dir member) (ti_data member) ;;
      extractall extract_dir rest
  end.

(** [AnnotationInspector._safe_extract(tar_path, extract_dir)] *)
Definition _safe_extract (tar_path extract_dir : string) : M unit :=
  archive ← read_file tar_path;
  members ← lift_result (tar_decode archive);
  check_members extract_dir members ;;
  extractall extract_dir members.

(** [AnnotationInspector._merge_annotation_frames(locations_df, other_df)];
    the first two lines rebind the local names to the copies. *)
Definition _merge_annotation_frames (locations_df other_df : nat) : M nat :=
  locations_df ← Pandas.copy locations_df;
  other_df ← Pandas.copy other_df;
  idx ← Pandas.index_astype_str locations_df;
  Pandas.set_index locations_df idx ;;
  idx ← Pandas.index_astype_str other_df;
  Pandas.set_index other_df idx ;;
  merged ← Pandas.join_inner pd_join_inner locations_df other_df;
  merged ← Pandas.reset_index_rename pd_reset_index_rename merged;
  mret merged.

End Environment.

End AnnotationInspector.

(** ** What the spec calls inside and outside a directory *)

Module SpecPath.

(** The non-empty components of an absolute path. *)
Definition components (p : string) : list string :=
  List.filter (λ c, negb (String.eqb c "")) (PyStr.split_all "/" p).

Fixpoint list_prefix (a b : list string) : bool :=
  match a, b with
  | [], _ => true
  | x :: a', y :: b' => String.eqb x y && list_prefix a' b'
  | _ :: _, [] => false
  end.

(** [p] is the directory [d] or lies below it. *)
Definition inside (d p : string) : bool :=
  list_prefix (components d) (components p).

End SpecPath.

(** ** Names for the worlds and records the properties speak of *)

Module Outcomes.

(** A message logged at level INFO, as [FileLogger.log] issues it. *)
Definition info (message : string) : log_record :=
  {| lvl := INFO; msg := message; exc_info := None |}.

Definition log_append (records : list log_record) (w : world) : world :=
  set_log_records (λ l, (l ++ records)%list) w.

(** The world once [__enter__] has logged the start of the step. *)
Definition after_enter (title : string) (w : world) : world :=
  set_log_records
    (λ l, (l ++ [ {| lvl := INFO; msg := "🔍 START: " +:+ title; exc_info := None |} ])%list) w.

(** The timer as [__enter__] returns it in the world [w]. *)
Definition entered (title : string) (mon : SystemMonitor.t) (w : world) : StepTimer.t :=
  {| StepTimer.title := title; StepTimer.monitor := mon; StepTimer.logger := FileLogger;
     StepTimer.t0 := now w; StepTimer.before := Some (counters w) |}.

(** The record of a failed step. *)
Definition fail_record (title dt : string) (e : exn) : log_record :=
  {| lvl := ERROR;
     msg := "❌ FAIL: " +:+ title +:+ " (duration " +:+ dt +:+ ")";
     exc_info := Some e |}.

(** The two records of a completed step. *)
Definition delta_record (d : Delta) : log_record :=
  {| lvl := INFO;
     msg := "🔢 RSS Δ: " +:+ PyFloat.format_f true 2 (rss_delta d)
            +:+ " MB | 💽 Disk Δ: " +:+ PyFloat.format_f true 2 (disk_delta d)
            +:+ " MB | ⚙️ CPU: " +:+ PyFloat.format_f false 0 (cpu_after d) +:+ "%";
     exc_info := None |}.

Definition done_record (title dt : string) : log_record :=
  {| lvl := INFO;
     msg := "✅ DONE: " +:+ title +:+ " in " +:+ dt +:+ String "010" "";
     exc_info := None |}.

(** The spec's reading of H:MM:SS, written independently of the code:
    the hours in decimal, then minutes and seconds as two digits each. *)
Definition digit (z : Z) : ascii := ascii_of_nat (48 + Z.to_nat z).

Definition two_digits (z : Z) : string :=
  String (digit (z / 10)) (String (digit (z mod 10)) EmptyString).

Definition H_MM_SS (h m s : Z) : string :=
  PyStr.str_of_int h +:+ ":" +:+ two_digits m +:+ ":" +:+ two_digits s.

(** The spec's conversion of a byte count to megabytes, as an exact
    rational. *)
Definition MB : Z := 1048576.

Definition bytes_to_mb (bytes : Z) : Q := Qmake bytes 1048576.

(** The records of the [try] block of [GeoDatasetFetcher.load_or_parse_gse], of its
    handler, and of the handler of the refused parse. *)
Definition attempt_record : log_record :=
  info "📦 Attempting to load cached GSE object...".

Definition miss_record (e : exn) : log_record :=
  info ("⚠️ Failed to load GSE object, will parse from SOFT... (" +:+ exn_str e +:+ ")").

Definition fallback_record (ve : exn) : log_record :=
  info ("🧯 Filename-based parse failed, trying explicit GEO: " +:+ exn_str ve).

(** The spec's reading of one "key: value" entry: split at the first
    colon, the key stripped and lower-cased, the value stripped; nothing
    for an entry without a colon. *)
Definition parse_entry (str_strip str_lower : string → string) (item : string)
  : option (string * string) :=
  match PyStr.split_once ":" item with
  | Some (k, v) => Some (str_lower (str_strip k), str_strip v)
  | None => None
  end.

(** One turn of the inner loop of [GeoDatasetFetcher.summarize_phenotypes], in the spec's
    terms. *)
Definition add_item (str_strip str_lower : string → string)
    (record : list (string * string)) (item : string) : list (string * string) :=
  match parse_entry str_strip str_lower item with
  | Some (k, v) => PyDict.set k v record
  | None => record
  end.

(** The spec's reading of "whitespace-trimmed", written independently
    of the code: [t] is [s] without the blanks at its two ends. *)
Fixpoint blank (s : string) : bool :=
  match s with
  | EmptyString => true
  | String c s' => PyStr.isspace c && blank s'
  end.

Fixpoint last_is_blank (s : string) : bool :=
  match s with
  | EmptyString => false
  | String c EmptyString => PyStr.isspace c
  | String _ s' => last_is_blank s'
  end.

Definition tight (t : string) : bool :=
  match t with
  | EmptyString => true
  | String c _ => negb (PyStr.isspace c) && negb (last_is_blank t)
  end.

Definition trimmed (s t : string) : Prop :=
  ∃ a b, s = a +:+ t +:+ b ∧ blank a = true ∧ blank b = true ∧ tight t = true.

(** The records of [GeoDatasetFetcher.verify_gse_object]. *)
Definition verify_start : log_record := info "🔍 Final verification of parsed GSE object".

Definition verify_end : log_record :=
  info ("✅ Dataset inspection complete." +:+ String "010" "").

Definition file_exists_record (path : string) : log_record :=
  info ("✅ File exists: " +:+ path).

Definition load_failed_record (text : string) : log_record :=
  info ("❌ Failed to load GSE object: " +:+ text).

(** The count a tally holds for [x], zero when [x] is not a key. *)
Definition tally (c : list (string * Z)) (x : string) : Z :=
  match PyDict.get x c with Some n => n | None => 0%Z end.

(** How many times [x] occurs in [values]. *)
Fixpoint count (x : string) (values : list string) : Z :=
  match values with
  | [] => 0
  | y :: rest => ((if String.eqb y x then 1 else 0) + count x rest)%Z
  end.

(** The line logged for one entry of the tally. *)
Definition count_line (item : string * Z) : log_record :=
  info ("  " +:+ fst item +:+ ": " +:+ PyStr.str_of_int (snd item)).

(** The sum of the counts of a tally. *)
Definition total (c : list (string * Z)) : Z :=
  fold_right (λ item acc, (snd item + acc)%Z) 0%Z c.

(** A frame with its index coerced to strings. *)
Definition index_as_str (f : DataFrame) : DataFrame :=
  {| df_index := List.map label_astype_str (df_index f);
     df_columns := df_columns f |}.

(** The store after the two copies and the two index assignments. *)
Definition copied (h : gmap nat DataFrame) (fl fo : DataFrame) : gmap nat DataFrame :=
  let r1 := fresh (dom h) in
  let h1 := <[r1 := fl]> h in
  let r2 := fresh (dom h1) in
  <[r2 := index_as_str fo]> (<[r1 := index_as_str fl]> (<[r2 := fo]> h1)).

(** The extraction guard as a test on one member: the absolute
    destination is a prefix, character by character, of the absolute
    target. *)
Definition passes (cwd extract_dir : string) (member : TarInfo) : bool :=
  PyStr.startswith (PosixPath.abspath cwd extract_dir)
    (PosixPath.abspath cwd (PosixPath.join extract_dir (ti_name member))).

End Outcomes.

Import Outcomes.

(** Unfolding of the monad of computations. *)
Ltac unfold_M :=
  unfold mbind, M_bind, mret, M_ret, try_except, logging_info,
    logging_exception, raise, gets, modify, lift_result in *;
  cbn beta iota in *.


(** ** Sample inputs *)

Module Samples.

Definition snap_before : Snapshot :=
  {| cpu_percent := 3; mem_used := 100 * 1048576; mem_total := 8192 * 1048576;
     disk_used := 7000; disk_total := 90000 |}.

Definition snap_after : Snapshot :=
  {| cpu_percent := 12 # 5; mem_used := 150 * 1048576; mem_total := 8192 * 1048576;
     disk_used := 7000 + 3 * 524288; disk_total := 90000 |}.

(** A world with no file, no request sent and nothing logged. *)
Definition w0 : world :=
  {| fs := ∅; net := []; log_records := []; now := 1700000000;
     counters := snap_before; frames := ∅ |}.

(** A step that lasts 3661.4 seconds and raises. *)
Definition failing_step : M unit := λ w,
  (Raise (ValueError "boom"),
   {| fs := fs w; net := net w; log_records := log_records w;
      now := now w + (36614 # 10); counters := snap_after; frames := frames w |}).

(** The same step raising an instance that is false, such as an error
    that collects sub-errors, has a [__len__] and holds none. *)
Definition empty_errors : exn := FalsyInstance (OtherException "ValidationErrors" "").

Definition falsy_step : M unit := λ w,
  (Raise empty_errors,
   {| fs := fs w; net := net w; log_records := log_records w;
      now := now w + (36614 # 10); counters := snap_after; frames := frames w |}).

Definition mon : SystemMonitor.t := {| SystemMonitor.logger := FileLogger |}.

(** No network: every request and every download fails. *)
Definition remote_down : string → Z → result Response :=
  λ _ _, Raise (OtherException "ConnectionError" "network is unreachable").

Definition geo_download_down : string → string → M unit :=
  λ _ _, raise (OtherException "URLError" "network is unreachable").

Definition listdir_files : string → M (list string) := λ _, mret [].

Definition one_byte : list Byte.byte := [Byte.x1f].

(** A world where both archives are already on disk, one byte each. *)
Definition w_cached : world :=
  {| fs := <["/data/s00005_GSE40279_family.soft.gz" := one_byte]>
             (<["/data/Illumina450k_annotation.tar.gz" := one_byte]> ∅);
     net := []; log_records := []; now := 1700000000;
     counters := snap_before; frames := ∅ |}.

(** A parsed series with two samples. *)
Definition gsm1 : GSM :=
  {| gsm_metadata := [("title", ["Sample 1"]);
                      ("characteristics_ch1", ["age: 45"; "sex: female"])] |}.

Definition gsm2 : GSM :=
  {| gsm_metadata := [("characteristics_ch1",
                       ["Age: 45"; "tissue whole blood"; "age: 50"])] |}.

Definition gsms : list (string * GSM) := [("GSM1", gsm1); ("GSM2", gsm2)].

(** Entries that carry blanks (spaces, a TAB, a line feed) and capitals. *)
Definition untidy_entries : list string :=
  ["  Age" +:+ String "009" ":  45 "; "SEX:female  " +:+ String "010" ""].

Definition gsm_untidy : GSM :=
  {| gsm_metadata := [("characteristics_ch1", untidy_entries)] |}.

Definition gsms_untidy : list (string * GSM) := [("GSM1", gsm1); ("GSM3", gsm_untidy)].

Definition gse_untidy : pyobj :=
  {| obj_gsms := Some gsms_untidy; obj_metadata := Some [("title", ["Series"])] |}.

Definition gse : pyobj :=
  {| obj_gsms := Some gsms;
     obj_metadata := Some [("title", ["Series"]); ("geo_accession", ["GSE40279"])] |}.

(** A parser that cannot tell the type of the file from its name. *)
Definition parse_strict : list (string * string) → M pyobj :=
  λ _, raise (ValueError "Unknown GEO type").

Definition decode_fail : list Byte.byte → result pyobj :=
  λ _, Raise (OtherException "UnpicklingError" "invalid load key").

Definition encode_any : pyobj → list Byte.byte := λ _, [Byte.x80; Byte.x04].

Definition rows_to_csv_any : list (list (string * string)) → list Byte.byte :=
  λ rows, List.repeat Byte.x0a (List.length rows).

(** Two annotation tables, one indexed by numbers. *)
Definition locations : DataFrame :=
  {| df_index := [LStr "cg00000029"; LStr "cg00000108"];
     df_columns := [("chr", ["chr16"; "chr3"]); ("pos", ["53468112"; "37459206"])] |}.

Definition other : DataFrame :=
  {| df_index := [LInt 7; LStr "cg00000029"];
     df_columns := [("Probe_rs", ["NA"; "rs1"])] |}.

Definition w_frames : world :=
  {| fs := ∅; net := []; log_records := []; now := 1700000000;
     counters := snap_before;
     frames := <[1%nat := other]> (<[0%nat := locations]> ∅) |}.

Definition join_left : DataFrame → DataFrame → result DataFrame := λ a _, Ok a.

Definition reset_same : DataFrame → DataFrame := λ f, f.

(** An archive with one honest member and one member named so as to
    land in a sibling of the destination. *)
Definition honest_member : TarInfo :=
  {| ti_name := "pkg/data/Locations.rda"; ti_data := [Byte.x52; Byte.x44] |}.

Definition sibling_member : TarInfo :=
  {| ti_name := "../out_evil/x"; ti_data := [Byte.x21] |}.

Definition climbing_member : TarInfo :=
  {| ti_name := "../../evil"; ti_data := [Byte.x21] |}.

Definition tar_with_sibling : list Byte.byte → result (list TarInfo) :=
  λ _, Ok [honest_member; sibling_member].

Definition tar_with_climber : list Byte.byte → result (list TarInfo) :=
  λ _, Ok [honest_member; climbing_member].

End Samples.

(** ** Further parts of the scripts *)

(** [l[i]] for a list and an [int]: the index is first converted to a
    machine index (of 64 bits), which fails for an [int] that does not
    fit; a negative index counts from the end, and an index outside the
    list raises [IndexError]. *)
Definition py_getitem {A : Type} (l : list A) (i : Z) : result A :=
  if ((i <? - 2 ^ 63) || (2 ^ 63 <=? i))%Z then
    Raise (OtherException "IndexError" "cannot fit 'int' into an index-sized integer")
  else
    let n := Z.of_nat (List.length l) in
    let j := if (i <? 0)%Z then (n + i)%Z else i in
    if ((0 <=? j) && (j <? n))%Z then
      match List.nth_error l (Z.to_nat j) with
      | Some x => Ok x
      | None => Raise (OtherException "IndexError" "list index out of range")
      end
    else Raise (OtherException "IndexError" "list index out of range").

(** [d[k]] for a dictionary: a missing key raises [KeyError]. *)
Definition py_dict_getitem {V : Type} (d : list (string * V)) (k : string) : result V :=
  match PyDict.get k d with
  | Some v => Ok v
  | None => Raise (OtherException "KeyError" (PyStr.repr k))
  end.

(** [str(b)] for a [bool]. *)
Definition bool_str (b : bool) : string := if b then "True" else "False".

(** [SystemMonitor.report(self)] *)
Definition report (self : SystemMonitor.t) : M unit :=
  snap ← SystemMonitor.snapshot self;
  log (SystemMonitor.logger self) "🖥️ System Resource Usage:" ;;
  log (SystemMonitor.logger self)
      ("  ⚙️ CPU: " +:+ PyFloat.format_f false 0 (cpu_percent snap) +:+ "%") ;;
  log (SystemMonitor.logger self)
      ("  🧠 Memory: "
       +:+ PyFloat.format_f false 2 (PyFloat.truediv (mem_used snap) (1024 ^ 3))
       +:+ "/" +:+ PyFloat.format_f false 2 (PyFloat.truediv (mem_total snap) (1024 ^ 3))
       +:+ " GB") ;;
  log (SystemMonitor.logger self)
      ("  💽 Disk: "
       +:+ PyFloat.format_f false 2 (PyFloat.truediv (disk_used snap) (1024 ^ 3))
       +:+ "/" +:+ PyFloat.format_f false 2 (PyFloat.truediv (disk_total snap) (1024 ^ 3))
       +:+ " GB" +:+ String "010" "").

(** *** The rest of the GEO script *)

Module GeoScript.

(** The loop of [inspect_sample] over the first metadata keys. *)
Fixpoint log_metadata (logger : Logger) (metadata : list (string * list string))
    (keys : list string) : M unit :=
  match keys with
  | [] => mret tt
  | key :: rest =>
      value ← lift_result (py_dict_getitem metadata key);
      log logger ("  " +:+ key +:+ ": " +:+ repr_list value) ;;
      log_metadata logger metadata rest
  end.

(** [GeoDatasetFetcher.inspect_sample(self, gse, sample_index)] *)
Definition inspect_sample (self : GeoDatasetFetcher.t) (gse : pyobj) (sample_index : Z)
  : M unit :=
  gsms ← getattr_gsms gse;
  sample_id ← lift_result (py_getitem (PyDict.keys gsms) sample_index);
  gsm ← lift_result (py_dict_getitem gsms sample_id);
  log (GeoDatasetFetcher.logger self)
      ("🔬 Sample " +:+ PyStr.str_of_int sample_index +:+ ": " +:+ sample_id) ;;
  log_metadata (GeoDatasetFetcher.logger self) (gsm_metadata gsm)
    (List.firstn 5 (PyDict.keys (gsm_metadata gsm))) ;;
  log (GeoDatasetFetcher.logger self) "".

(** The command line of the GEO script, parsed. *)
Record Args : Type := {
  arg_geo_id : string;
  arg_sample_index : Z;
  arg_no_monitor : bool
}.

(** The value a [with] block binds, or the [UnboundLocalError] of a name
    the block did not bind because its exception was swallowed. *)
Definition bound {A : Type} (name : string) (v : option A) : M A :=
  match v with
  | Some a => mret a
  | None => raise (OtherException "UnboundLocalError" name)
  end.

Section Environment.

Variable data_dir results_dir : string.
Variable GEOparse_download : string → string → M unit.
Variable GEOparse_parse : list (string * string) → M pyobj.
Variable str_strip str_lower : string → string.
Variable os_listdir : string → M (list string).
Variable joblib_decode : list Byte.byte → result pyobj.
Variable joblib_encode : pyobj → list Byte.byte.
Variable rows_to_csv : list (list (string * string)) → list Byte.byte.

(** [datetime.now().isoformat(timespec="seconds")] for a clock reading. *)
Variable isoformat : Q → string.

(** The [try] block of [main]: the five steps in their order. *)
Definition steps (fetcher : GeoDatasetFetcher.t) (monitor : SystemMonitor.t)
    (logger : Logger) (args : Args) : M unit :=
  StepTimer.with_ "Download SOFT file" monitor logger
    (GeoDatasetFetcher.download_soft data_dir GEOparse_download os_listdir fetcher) ;;
  gse ← StepTimer.with_ "Parse or load GSE object" monitor logger
          (GeoDatasetFetcher.load_or_parse_gse GEOparse_parse joblib_decode joblib_encode
             fetcher);
  StepTimer.with_ "Inspect one sample" monitor logger
    (gse ← bound "gse" gse; inspect_sample fetcher gse (arg_sample_index args)) ;;
  StepTimer.with_ "Summarize phenotype field" monitor logger
    (gse ← bound "gse" gse;
     GeoDatasetFetcher.summarize_phenotypes str_strip str_lower rows_to_csv fetcher gse
       "characteristics_ch1") ;;
  StepTimer.with_ "Verify GSE object" monitor logger
    (GeoDatasetFetcher.verify_gse_object joblib_decode fetcher) ;;
  mret tt.

(** [main()] once the arguments are parsed and logging is configured. *)
Definition main (args : Args) : M unit :=
  let log_path :=
    PosixPath.join results_dir
      ("s00005_download_dataset_" +:+ arg_geo_id args +:+ ".txt") in
  let logger := FileLogger in
  let monitor := {| SystemMonitor.logger := logger |} in
  t ← time_time;
  log logger ("🕒 Run started: " +:+ isoformat t) ;;
  log logger ("📝 Log file: " +:+ log_path +:+ String "010" "") ;;
  (if negb (arg_no_monitor args) then report monitor else mret tt) ;;
  let fetcher := GeoDatasetFetcher.__init__ data_dir results_dir (arg_geo_id args) logger in
  try_except
    (steps fetcher monitor logger args)
    any_Exception
    (λ e, log logger ("❌ Execution failed: " +:+ exn_str e) ;; raise e) ;;
  log logger "🏁 Completed all steps.".

End Environment.

End GeoScript.

(** *** The rest of the annotation script *)

Module AnnotationScript.

(** Truth value of a candidate path: [None] and the empty string are
    false. *)
Definition found (cand : option string) : bool :=
  match cand with
  | Some s => negb (String.eqb s "")
  | None => false
  end.

(** The inner loop of [_discover_rda] over the file names of one
    directory. *)
Fixpoint scan_files (dirpath : string) (filenames : list string)
    (cands : option string * option string) : option string * option string :=
  match filenames with
  | [] => cands
  | fn :: rest =>
      let low := PyStr.lower fn in
      let '(cand_loc, cand_other) := cands in
      if String.eqb low "locations.rda"
      then scan_files dirpath rest (Some (PosixPath.join dirpath fn), cand_other)
      else if String.eqb low "other.rda"
      then scan_files dirpath rest (cand_loc, Some (PosixPath.join dirpath fn))
      else scan_files dirpath rest cands
  end.

(** The outer loop over [os.walk(root)], which stops after the directory
    in which both candidates are set. *)
Fixpoint scan_walk (walk : list (string * list string * list string))
    (cands : option string * option string) : option string * option string :=
  match walk with
  | [] => cands
  | (dirpath, _, filenames) :: rest =>
      let cands' := scan_files dirpath filenames cands in
      if found (fst cands') && found (snd cands') then cands'
      else scan_walk rest cands'
  end.

(** The object, with its derived paths. *)
Record t : Type := {
  url : string;
  data_dir : string;
  results_dir : string;
  process_rda : bool;
  tag : string;
  timeout : Z;
  logger : Logger;
  monitor : SystemMonitor.t;
  tar_path : string;
  extract_dir : string;
  output_csv : string;
  rpy2_ok : bool
}.

(** The command line of the annotation script, parsed. *)
Record Args : Type := {
  arg_url : string;
  arg_data_dir : string;
  arg_results_dir : string;
  arg_tag : string;
  arg_geo_id : option string;
  arg_timeout : Z;
  arg_process_rda : bool;
  arg_log_level : level
}.

Section Environment.

Variable remote : string → Z → result Response.
Variable tar_decode : list Byte.byte → result (list TarInfo).
Variable cwd : string.
Variable pd_join_inner : DataFrame → DataFrame → result DataFrame.
Variable pd_reset_index_rename : DataFrame → DataFrame.

(** [os.walk(root)]: the directories below [root], each with the names
    of its sub-directories and of its files. *)
Variable os_walk : string → M (list (string * list string * list string)).

(** [_load_rda_to_dfs(locations_path, other_path)]: the two tables loaded
    through the R bridge, as references to data frames. *)
Variable _load_rda_to_dfs : string → string → M (nat * nat).

(** [df.to_csv(index=False)] as bytes. *)
Variable frame_to_csv : DataFrame → list Byte.byte.

(** The module-level flag set when [rpy2] was imported. *)
Variable _RPY2_AVAILABLE : bool.

(** [datetime.now().strftime("%Y-%m-%d %H:%M:%S")] for a clock reading. *)
Variable strftime : Q → string.

(** [AnnotationInspector._discover_rda(root)] *)
Definition _discover_rda (root : string) : M (string * string) :=
  walk ← os_walk root;
  let '(cand_loc, cand_other) := scan_walk walk (None, None) in
  if negb (found cand_loc && found cand_other)
  then raise (FileNotFoundError
                "Could not locate Locations.rda and Other.rda in extracted archive.")
  else
    match cand_loc, cand_other with
    | Some l, Some o => mret (l, o)
    | _, _ => raise (FileNotFoundError
                       "Could not locate Locations.rda and Other.rda in extracted archive.")
    end.

(** [AnnotationInspector._log_startup_env(self)] *)
Definition _log_startup_env (self : t) : M unit :=
  log (logger self) ("📂 data_dir: " +:+ data_dir self) ;;
  log (logger self) ("📂 results_dir: " +:+ results_dir self) ;;
  log (logger self) ("🌐 URL: " +:+ url self) ;;
  log (logger self) ("🧪 process_rda: " +:+ bool_str (process_rda self)) ;;
  log (logger self) ("🧩 rpy2_available: " +:+ bool_str (rpy2_ok self)) ;;
  report {| SystemMonitor.logger := logger self |}.

(** [AnnotationInspector.__init__]; the directories it creates are not
    part of the file system of regular files. *)
Definition __init__ (url data_dir results_dir : string) (process_rda : bool)
    (tag : string) (timeout : Z) (logger : Logger) (monitor : SystemMonitor.t) : M t :=
  let self :=
    {| url := url; data_dir := data_dir; results_dir := results_dir;
       process_rda := process_rda; tag := tag; timeout := timeout;
       logger := logger; monitor := monitor;
       tar_path := PosixPath.join data_dir "Illumina450k_annotation.tar.gz";
       extract_dir :=
         PosixPath.join data_dir ("s00007_" +:+ PyStr.lower tag +:+ "_annotation");
       output_csv :=
         PosixPath.join data_dir ("s00007_" +:+ PyStr.lower tag +:+ "_annotation_merged.csv");
       rpy2_ok := _RPY2_AVAILABLE |} in
  log logger "🚀 Script started" ;;
  _log_startup_env self ;;
  mret self.

(** Steps 3 to 5 of [run]. *)
Definition rda_steps (self : t) : M unit :=
  frames_ ← StepTimer.with_ "Step 3 - Load and convert RDA files" (monitor self) (logger self)
              (paths ← _discover_rda (extract_dir self);
               _load_rda_to_dfs (fst paths) (snd paths));
  merged ← StepTimer.with_ "Step 4 - Merge Locations and Other" (monitor self) (logger self)
             (dfs ← GeoScript.bound "locations_df" frames_;
              AnnotationInspector._merge_annotation_frames pd_join_inner
                pd_reset_index_rename (fst dfs) (snd dfs));
  StepTimer.with_ "Step 5 - Export annotation CSV" (monitor self) (logger self)
    (merged ← GeoScript.bound "merged" merged;
     f ← Pandas.read merged;
     write_file (output_csv self) (frame_to_csv f) ;;
     log (logger self) ("📄 Saved: " +:+ output_csv self)) ;;
  mret tt.

(** [AnnotationInspector.run(self)] *)
Definition run (self : t) : M unit :=
  StepTimer.with_ "Step 1 - Download annotation archive" (monitor self) (logger self)
    (AnnotationInspector._download_if_needed remote (url self) (tar_path self)
       (timeout self)) ;;
  StepTimer.with_ "Step 2 - Extract .tar.gz archive" (monitor self) (logger self)
    (AnnotationInspector._safe_extract tar_decode cwd (tar_path self) (extract_dir self)) ;;
  (if process_rda self && rpy2_ok self then rda_steps self
   else if process_rda self && negb (rpy2_ok self) then
     log (logger self) "⚠️ rpy2 not available. Skipping RDA processing/CSV export."
   else mret tt) ;;
  log (logger self) "🎉 Finished successfully".

(** [try: body / finally: cleanup]: the clean-up runs on both ways out,
    and an exception of the clean-up replaces the one of the body. *)
Definition try_finally {A : Type} (body : M A) (cleanup : M unit) : M A := λ w,
  match body w with
  | (r, w1) =>
      match cleanup w1 with
      | (Ok _, w2) => (r, w2)
      | (Raise e, w2) => (Raise e, w2)
      end
  end.

(** [logging.basicConfig(level=threshold, ...)] ahead of [body]: the
    root logger passes on the calls at or above the threshold and drops
    the others.  The level is set once, so the records of the run are
    those of its calls that pass the threshold, after what was logged
    before. *)
Definition with_root_level {A : Type} (threshold : level) (body : M A) : M A := λ w,
  match body (set_log_records (λ _, []) w) with
  | (r, w') =>
      (r, set_log_records (λ calls, (log_records w ++ emitted threshold calls)%list) w')
  end.

(** What [main()] does once logging is configured. *)
Definition main_body (args : Args) : M unit :=
  let file_logger := FileLogger in
  let monitor := {| SystemMonitor.logger := file_logger |} in
  t ← time_time;
  log file_logger ("🕓 Started at " +:+ strftime t) ;;
  report monitor ;;
  try_finally
    (try_except
       (inspector ← __init__ (arg_url args) (arg_data_dir args) (arg_results_dir args)
                      (arg_process_rda args) (arg_tag args) (arg_timeout args)
                      file_logger monitor;
        run inspector)
       any_Exception
       (λ e, logging_exception ("💥 Unhandled error: " +:+ exn_str e) (Some e) ;; raise e))
    (t ← time_time; log file_logger ("🕓 Completed at " +:+ strftime t)).

(** [main()] once the arguments are parsed: the root logger is set to
    the level of [--log-level], then the script runs. *)
Definition main (args : Args) : M unit :=
  with_root_level (arg_log_level args) (main_body args).

End Environment.

End AnnotationScript.

(** *** Names for the outcomes the further properties speak of *)

Module MoreOutcomes.

(** [path] is a file of the walk whose lower-cased name is [target]. *)
Definition named (walk : list (string * list string * list string))
    (target path : string) : Prop :=
  ∃ dirpath dirs filenames fn,
    In (dirpath, dirs, filenames) walk
    ∧ In fn filenames
    ∧ PyStr.lower fn = target
    ∧ path = PosixPath.join dirpath fn.

(** The line [inspect_sample] logs for one metadata key. *)
Definition metadata_line (metadata : list (string * list string)) (key : string)
  : log_record :=
  info ("  " +:+ key +:+ ": "
        +:+ repr_list (match PyDict.get key metadata with Some v => v | None => [] end)).

(** The position a Python index denotes in a list of [n] elements. *)
Definition position (n i : Z) : Z := if (i <? 0)%Z then (n + i)%Z else i.

(** What [str(timedelta)] puts in front of H:MM:SS for [d] whole days. *)
Definition day_prefix (d : Z) : string :=
  if (d =? 0)%Z then ""
  else if (Z.abs d =? 1)%Z then PyStr.str_of_int d +:+ " day, "
  else PyStr.str_of_int d +:+ " days, ".

(** The record of a cache hit in [load_or_parse_gse]. *)
Definition hit_record (n : nat) : log_record :=
  info ("⚡ Using cached GSE object — "
        +:+ PyStr.str_of_int (Z.of_nat n) +:+ " samples.").

(** The test of the renaming loop of [download_soft] on one name. *)
Definition matches (self : GeoDatasetFetcher.t) (fn : string) : bool :=
  PyStr.startswith (GeoDatasetFetcher.geo_id self) fn && PyStr.endswith ".soft.gz" fn.

(** The last character of a string. *)
Fixpoint last_char (s : string) : option ascii :=
  match s with
  | EmptyString => None
  | String c EmptyString => Some c
  | String _ s' => last_char s'
  end.

(** The four records of [SystemMonitor.report] for given counters. *)
Definition report_records (snap : Snapshot) : list log_record :=
  [info "🖥️ System Resource Usage:";
   info ("  ⚙️ CPU: " +:+ PyFloat.format_f false 0 (cpu_percent snap) +:+ "%");
   info ("  🧠 Memory: "
         +:+ PyFloat.format_f false 2 (PyFloat.truediv (mem_used snap) (1024 ^ 3))
         +:+ "/" +:+ PyFloat.format_f false 2 (PyFloat.truediv (mem_total snap) (1024 ^ 3))
         +:+ " GB");
   info ("  💽 Disk: "
         +:+ PyFloat.format_f false 2 (PyFloat.truediv (disk_used snap) (1024 ^ 3))
         +:+ "/" +:+ PyFloat.format_f false 2 (PyFloat.truediv (disk_total snap) (1024 ^ 3))
         +:+ " GB" +:+ String "010" "")].

(** The records with which the GEO script's [main] starts. *)
Definition geo_prelude (isoformat : Q → string) (results_dir : string)
    (args : GeoScript.Args) (w : world) : list log_record :=
  [info ("🕒 Run started: " +:+ isoformat (now w));
   info ("📝 Log file: "
         +:+ PosixPath.join results_dir
               ("s00005_download_dataset_" +:+ GeoScript.arg_geo_id args +:+ ".txt")
         +:+ String "010" "")]
  ++ (if GeoScript.arg_no_monitor args then [] else report_records (counters w)).

(** The object [AnnotationInspector.__init__] builds, [rpy2] telling
    whether the R bridge was imported. *)
Definition built_inspector (rpy2 : bool) (url data_dir results_dir : string)
    (process_rda : bool) (tag : string) (timeout : Z) (logger : Logger)
    (monitor : SystemMonitor.t) : AnnotationScript.t :=
  {| AnnotationScript.url := url;
     AnnotationScript.data_dir := data_dir;
     AnnotationScript.results_dir := results_dir;
     AnnotationScript.process_rda := process_rda;
     AnnotationScript.tag := tag;
     AnnotationScript.timeout := timeout;
     AnnotationScript.logger := logger;
     AnnotationScript.monitor := monitor;
     AnnotationScript.tar_path := PosixPath.join data_dir "Illumina450k_annotation.tar.gz";
     AnnotationScript.extract_dir :=
       PosixPath.join data_dir ("s00007_" +:+ PyStr.lower tag +:+ "_annotation");
     AnnotationScript.output_csv :=
       PosixPath.join data_dir ("s00007_" +:+ PyStr.lower tag +:+ "_annotation_merged.csv");
     AnnotationScript.rpy2_ok := rpy2 |}.

(** The entries of [field] over all samples, in the order of the
    samples. *)
Definition field_entries (field : string) (gsms : list (string * GSM)) : list string :=
  concat (List.map (λ sample : string * GSM,
                      match PyDict.get field (gsm_metadata (snd sample)) with
                      | Some meta => meta
                      | None => []
                      end) gsms).

End MoreOutcomes.

Import MoreOutcomes.

(** ** Sample inputs for the further properties *)

Module MoreSamples.

(** A server that answers every request with an archive of two bytes. *)
Definition remote_ok : string → Z → result Response :=
  λ url _, Ok {| status_code := 200; reason := "OK"; response_url := url;
                 content := [Byte.x1f; Byte.x8b] |}.

(** A server that answers with an empty body. *)
Definition remote_empty : string → Z → result Response :=
  λ url _, Ok {| status_code := 200; reason := "OK"; response_url := url; content := [] |}.

(** A server that does not have the file. *)
Definition remote_404 : string → Z → result Response :=
  λ url _, Ok {| status_code := 404; reason := "Not Found"; response_url := url;
                 content := [Byte.x3c] |}.

Definition anno_url : string := "https://bioconductor.org/anno.tar.gz".

Definition anno_path : string := "/data/Illumina450k_annotation.tar.gz".

(** An archive with two honest members. *)
Definition second_member : TarInfo :=
  {| ti_name := "pkg/data/Other.rda"; ti_data := [Byte.x52; Byte.x58] |}.

Definition tar_honest : list Byte.byte → result (list TarInfo) :=
  λ _, Ok [Samples.honest_member; second_member].

(** The extracted package: the two tables lie two levels down, one of
    them with an upper-case name. *)
Definition walk_pkg : list (string * list string * list string) :=
  [("/data/out", ["pkg"], []);
   ("/data/out/pkg", ["data"], ["DESCRIPTION"]);
   ("/data/out/pkg/data", [], ["Locations.rda"; "Islands.UCSC.rda"; "OTHER.RDA"])].

Definition os_walk_pkg : string → M (list (string * list string * list string)) :=
  λ _, mret walk_pkg.

(** A parser that accepts every file. *)
Definition parse_ok : list (string * string) → M pyobj := λ _, mret Samples.gse.

(** A decoder that reads back the sample series. *)
Definition decode_gse : list Byte.byte → result pyobj := λ _, Ok Samples.gse.

Definition fetcher : GeoDatasetFetcher.t :=
  GeoDatasetFetcher.__init__ "/data" "/results" "GSE40279" FileLogger.

(** A world with the parsed-object cache on disk. *)
Definition w_hit : world :=
  {| fs := <["/data/s00005_GSE40279_gse_object.joblib" := Samples.one_byte]> ∅;
     net := []; log_records := []; now := 1700000000;
     counters := Samples.snap_before; frames := ∅ |}.

(** A provider that leaves the archive under its own name. *)
Definition soft_bytes : list Byte.byte := [Byte.x1f; Byte.x8b; Byte.x08].

Definition geo_download_writes : string → string → M unit :=
  λ _ _, write_file "/data/GSE40279_family.soft.gz" soft_bytes.

(** The world once that provider has run, from the empty world. *)
Definition w_downloaded : world :=
  snd (geo_download_writes "GSE40279" "/data"
         (log_append
            [info ("📥 Downloading GSE40279 ➜ /data/s00005_GSE40279_family.soft.gz")]
            Samples.w0)).

Definition listdir_after : string → M (list string) :=
  λ _, mret ["notes.txt"; "GSE40279_family.soft.gz"; "GSE40279_extra.soft.gz"].

(** A sample whose metadata has an apostrophe and a backslash. *)
Definition gsm_quoted : GSM :=
  {| gsm_metadata := [("title", ["Alzheimer's disease"; "whole blood"]);
                      ("source_name_ch1", ["a\b"])] |}.

Definition gsms_quoted : list (string * GSM) := [("GSM1", Samples.gsm1); ("GSM4", gsm_quoted)].

Definition gse_quoted : pyobj :=
  {| obj_gsms := Some gsms_quoted; obj_metadata := Some [("title", ["Series"])] |}.

(** A directory where no name has both the identifier in front and the
    ending [.soft.gz]. *)
Definition listdir_unrelated : string → M (list string) :=
  λ _, mret ["notes.txt"; "GSE40279_family.soft"; "GSE1_family.soft.gz"].

(** The clock as the scripts print it. *)
Definition isoformat_fixed : Q → string := λ _, "2023-11-14T22:13:20".

Definition strftime_fixed : Q → string := λ _, "2023-11-14 22:13:20".

Definition args_geo : GeoScript.Args :=
  {| GeoScript.arg_geo_id := "GSE40279";
     GeoScript.arg_sample_index := 0;
     GeoScript.arg_no_monitor := true |}.

(** The loader of the tables on a machine without the R bridge: the
    names it uses were never imported. *)
Definition load_rda_unbound : string → string → M (nat * nat) :=
  λ _ _, raise (OtherException "NameError" "name 'pandas2ri' is not defined").

Definition frame_to_csv_any : DataFrame → list Byte.byte := λ _, [Byte.x0a].

Definition args_anno : AnnotationScript.Args :=
  {| AnnotationScript.arg_url := anno_url;
     AnnotationScript.arg_data_dir := "/data";
     AnnotationScript.arg_results_dir := "/results";
     AnnotationScript.arg_tag := "GSE40279";
     AnnotationScript.arg_geo_id := None;
     AnnotationScript.arg_timeout := 60;
     AnnotationScript.arg_process_rda := true;
     AnnotationScript.arg_log_level := INFO |}.

(** The same command line with [--log-level WARNING]. *)
Definition args_anno_quiet : AnnotationScript.Args :=
  {| AnnotationScript.arg_url := anno_url;
     AnnotationScript.arg_data_dir := "/data";
     AnnotationScript.arg_results_dir := "/results";
     AnnotationScript.arg_tag := "GSE40279";
     AnnotationScript.arg_geo_id := None;
     AnnotationScript.arg_timeout := 60;
     AnnotationScript.arg_process_rda := true;
     AnnotationScript.arg_log_level := WARNING |}.

End MoreSamples.

(** * Properties *)

(** ** Duration formatting *)

Section DurationFacts.
Import PyStr PyFloat Timedelta.
Local Open Scope Z_scope.

Lemma round_half_even_bounds (n d : Z) :
  0 < d →
  2 * d * round_half_even n d - d <= 2 * n <= 2 * d * round_half_even n d + d.
Proof.
  intros Hd. unfold round_half_even.
  pose proof (Z.div_mod n d ltac:(lia)) as Hnd.
  pose proof (Z.mod_pos_bound n d Hd) as Hr.
  destruct (2 * (n mod d) ?= d) eqn:Hc.
  - apply Z.compare_eq in Hc. destruct (Z.even (n / d)); nia.
  - rewrite Z.compare_lt_iff in Hc. nia.
  - rewrite Z.compare_gt_iff in Hc. nia.
Qed.

Lemma round_half_even_nonneg (n d : Z) :
  0 < d → 0 <= n → 0 <= round_half_even n d.
Proof.
  intros Hd Hn. unfold round_half_even.
  assert (0 <= n / d) by (apply Z.div_pos; lia).
  destruct (2 * (n mod d) ?= d); [destruct (Z.even (n / d))| |]; lia.
Qed.

Lemma py_round_nonneg (s : Q) : (0 <= s)%Q → 0 <= py_round s.
Proof.
  intros Hs. unfold py_round. apply round_half_even_nonneg; [lia|].
  unfold Qle in Hs. simpl in Hs. lia.
Qed.

(** [round] moves its argument by at most one half. *)
Lemma py_round_nearest (s : Q) :
  (inject_Z (py_round s) - (1 # 2) <= s)%Q ∧ (s <= inject_Z (py_round s) + (1 # 2))%Q.
Proof.
  destruct s as [n d]. unfold py_round. simpl Qnum. simpl Qden.
  pose proof (round_half_even_bounds n (Zpos d) ltac:(lia)) as Hb.
  set (r := round_half_even n (Z.pos d)) in *.
  unfold Qle, Qminus, Qplus, Qopp, inject_Z. simpl. lia.
Qed.

Lemma pad2_two_digits (m : Z) : 0 <= m < 100 → pad2 m = two_digits m.
Proof.
  intros Hm.
  assert (Hall : forallb (λ n, String.eqb (pad2 (Z.of_nat n)) (two_digits (Z.of_nat n)))
                   (seq 0 100) = true) by (vm_compute; reflexivity).
  rewrite forallb_forall in Hall.
  specialize (Hall (Z.to_nat m)).
  rewrite Z2Nat.id in Hall by lia.
  apply String.eqb_eq, Hall, in_seq. lia.
Qed.

Lemma timedelta_str_below_one_day (r : Z) :
  0 <= r < 86400 →
  timedelta_of_seconds r
  = Ok {| td_days := 0; td_seconds := r; td_microseconds := 0 |}
  ∧ timedelta_str {| td_days := 0; td_seconds := r; td_microseconds := 0 |}
    = H_MM_SS (r / 3600) (r / 60 mod 60) (r mod 60).
Proof.
  intros Hr. split.
  - unfold timedelta_of_seconds.
    rewrite Z.div_small, Z.mod_small by lia. reflexivity.
  - unfold timedelta_str, H_MM_SS. simpl.
    pose proof (Z.mod_pos_bound (r / 60) 60 ltac:(lia)).
    pose proof (Z.mod_pos_bound r 60 ltac:(lia)).
    rewrite !pad2_two_digits by lia.
    rewrite Z.div_div by lia. reflexivity.
Qed.

End DurationFacts.

(** Below one day the function does what its docstring says.  For every
    non-negative number of seconds whose rounded value is below one day,
    [format_duration] returns the
    whole-second duration, rounded to the nearest integer, written as
    H:MM:SS with the hours below 24, the minutes and the seconds below 60
    on two digits each; [format_duration(0)] is "0:00:00" and
    [format_duration(3661)] is "1:01:01". *)
Theorem format_duration_below_one_day :
  (∀ s : Q,
     (0 <= s)%Q → (PyFloat.py_round s < 86400)%Z →
     ∃ h m sec : Z,
       (0 <= h < 24 ∧ 0 <= m < 60 ∧ 0 <= sec < 60)%Z
       ∧ PyFloat.py_round s = (3600 * h + 60 * m + sec)%Z
       ∧ (inject_Z (PyFloat.py_round s) - (1 # 2) <= s)%Q
       ∧ (s <= inject_Z (PyFloat.py_round s) + (1 # 2))%Q
       ∧ format_duration s = Ok (H_MM_SS h m sec))
  ∧ format_duration 0 = Ok "0:00:00"
  ∧ format_duration 3661 = Ok "1:01:01".
Proof.
  split; [| split; reflexivity].
  intros s Hs Hlt.
  pose proof (py_round_nonneg s Hs) as Hge.
  set (r := PyFloat.py_round s) in *.
  exists (r / 3600)%Z, (r / 60 mod 60)%Z, (r mod 60)%Z.
  assert (Hr : (0 <= r < 86400)%Z) by lia.
  destruct (timedelta_str_below_one_day r Hr) as [Htd Hstr].
  split; [| split; [| split; [| split]]].
  - pose proof (Z.mod_pos_bound (r / 60) 60 ltac:(lia)).
    pose proof (Z.mod_pos_bound r 60 ltac:(lia)).
    assert (0 <= r / 3600 < 24)%Z
      by (split; [apply Z.div_pos; lia | apply Z.div_lt_upper_bound; lia]).
    lia.
  - pose proof (Z.div_mod r 60 ltac:(lia)) as H1.
    pose proof (Z.div_mod (r / 60) 60 ltac:(lia)) as H2.
    rewrite Z.div_div in H2 by lia. change (60 * 60)%Z with 3600%Z in H2. lia.
  - apply py_round_nearest.
  - apply py_round_nearest.
  - unfold format_duration. fold r. rewrite Htd, Hstr. reflexivity.
Qed.

Lemma format_duration_below_one_day_witness :
  ∃ h m sec : Z,
    (0 <= h < 24 ∧ 0 <= m < 60 ∧ 0 <= sec < 60)%Z
    ∧ PyFloat.py_round (7323 # 2) = (3600 * h + 60 * m + sec)%Z
    ∧ (inject_Z (PyFloat.py_round (7323 # 2)) - (1 # 2) <= 7323 # 2)%Q
    ∧ (7323 # 2 <= inject_Z (PyFloat.py_round (7323 # 2)) + (1 # 2))%Q
    ∧ format_duration (7323 # 2) = Ok (H_MM_SS h m sec).
Proof.
  apply (proj1 format_duration_below_one_day (7323 # 2)).
  - unfold Qle; simpl; lia.
  - vm_compute; reflexivity.
Defined.

(** C6.  A duration of 90000 seconds is not written as H:MM:SS, as the
    docstring of [format_duration] has it, but with a day count in
    front: no hours, minutes and seconds make "1 day, 1:00:00" an
    H:MM:SS text, so the claim fails from one day on. *)
Theorem format_duration_day_prefix :
  format_duration 90000 = Ok "1 day, 1:00:00"
  ∧ ¬ (∀ s : Q,
         (0 <= s)%Q →
         ∃ h m sec : Z,
           (0 <= h ∧ 0 <= m < 60 ∧ 0 <= sec < 60)%Z
           ∧ PyFloat.py_round s = (3600 * h + 60 * m + sec)%Z
           ∧ format_duration s = Ok (H_MM_SS h m sec)).
Proof.
  split; [reflexivity|].
  intros H. destruct (H 90000%Q) as (h & m & sec & Hb & Hr & Hf).
  { unfold Qle; simpl; lia. }
  change (PyFloat.py_round 90000) with 90000%Z in Hr.
  assert (h = 25%Z ∧ m = 0%Z ∧ sec = 0%Z) as (-> & -> & ->) by lia.
  vm_compute in Hf. discriminate Hf.
Qed.

(** ** Resource delta *)

Section DeltaFacts.
Import PyFloat.
Local Open Scope Z_scope.

Lemma round_half_even_exact (q d : Z) : 0 < d → round_half_even (q * d) d = q.
Proof.
  intros Hd. unfold round_half_even.
  rewrite Z.div_mul, Z.mod_mul by lia.
  destruct (2 * 0 ?= d) eqn:Hc; [apply Z.compare_eq in Hc; lia | reflexivity |].
  rewrite Z.compare_gt_iff in Hc. lia.
Qed.

(** Dividing an integer of at most 53 bits by [2^20] is exact in
    binary64. *)
Lemma truediv_MB_exact (n : Z) :
  Z.abs n < 2 ^ 53 → (truediv n 1048576 == Qmake n 1048576)%Q.
Proof.
  intros Hn. unfold truediv, binary64_round.
  cbn [Qnum Qden].
  destruct (n =? 0) eqn:Hz.
  { apply Z.eqb_eq in Hz. subst n. reflexivity. }
  apply Z.eqb_neq in Hz.
  set (a := Z.abs n).
  assert (Ha : 0 < a) by (unfold a; lia).
  change (Z.log2 (Z.pos 1048576)) with 20.
  pose proof (Z.log2_spec a Ha) as [Hlo Hhi].
  assert (Hla : 0 <= Z.log2 a < 53).
  { split; [apply Z.log2_nonneg|].
    apply Z.log2_lt_pow2; [lia | unfold a; lia]. }
  set (la := Z.log2 a) in *.
  set (e0 := la - 20 - 52).
  assert (He0 : e0 < 0) by (unfold e0; lia).
  assert (Hleb : (0 <=? e0) = false) by (apply Z.leb_gt; lia).
  rewrite !Hleb.
  set (k := - e0 - 20).
  assert (Hk : 0 <= k) by (unfold k, e0; lia).
  assert (Hpow : 2 ^ (- e0) = 2 ^ k * Z.pos 1048576).
  { replace (- e0) with (k + 20) by (unfold k; lia).
    rewrite Z.pow_add_r by lia. reflexivity. }
  assert (Hdiv : a * 2 ^ (- e0) = (a * 2 ^ k) * Z.pos 1048576) by (rewrite Hpow; ring).
  rewrite Hdiv, Z.div_mul by lia.
  assert (Hbig : 2 ^ 52 <= a * 2 ^ k).
  { replace 52 with (la + k) by (unfold k, e0; lia).
    rewrite Z.pow_add_r by lia.
    apply Z.mul_le_mono_nonneg_r; [apply Z.pow_nonneg; lia | exact Hlo]. }
  assert (Hltb : (a * 2 ^ k <? 2 ^ 52) = false) by (apply Z.ltb_ge; exact Hbig).
  rewrite Hltb, Hleb, Hdiv, round_half_even_exact by lia.
  rewrite Qred_correct. unfold Qeq. cbn [Qnum Qden].
  rewrite Z2Pos.id by (rewrite Hpow; apply Z.mul_pos_pos; [apply Z.pow_pos_nonneg|]; lia).
  rewrite Hpow.
  assert (Hsgn : n = Z.sgn n * a) by (unfold a; destruct n; simpl; lia).
  rewrite Hsgn at 2. ring.
Qed.

End DeltaFacts.

(** C7.  [SystemMonitor.delta] is a function of the two snapshots alone:
    its memory and disk fields are the differences of the used byte
    counts divided by 1024^2, which is the exact quotient for differences
    of up to 53 bits, and its CPU field is the CPU load of the second
    snapshot; from 100 MB used to 150 MB used the memory delta is 50. *)
Theorem delta_is_difference_in_MB (before after : Snapshot) :
  rss_delta (SystemMonitor.delta before after)
  = PyFloat.truediv (mem_used after - mem_used before) (1024 ^ 2)
  ∧ disk_delta (SystemMonitor.delta before after)
    = PyFloat.truediv (disk_used after - disk_used before) (1024 ^ 2)
  ∧ cpu_after (SystemMonitor.delta before after) = cpu_percent after
  ∧ ((Z.abs (mem_used after - mem_used before) < 2 ^ 53)%Z →
     (rss_delta (SystemMonitor.delta before after)
      == bytes_to_mb (mem_used after - mem_used before))%Q)
  ∧ ((Z.abs (disk_used after - disk_used before) < 2 ^ 53)%Z →
     (disk_delta (SystemMonitor.delta before after)
      == bytes_to_mb (disk_used after - disk_used before))%Q)
  ∧ (mem_used before = (100 * MB)%Z →
     mem_used after = (150 * MB)%Z →
     rss_delta (SystemMonitor.delta before after) = 50%Q).
Proof.
  repeat split.
  - intros H. apply truediv_MB_exact, H.
  - intros H. apply truediv_MB_exact, H.
  - intros Hb Ha. unfold SystemMonitor.delta. cbn [rss_delta].
    rewrite Hb, Ha. vm_compute. reflexivity.
Qed.

Lemma delta_is_difference_in_MB_witness :
  rss_delta (SystemMonitor.delta Samples.snap_before Samples.snap_after) = 50%Q
  ∧ (disk_delta (SystemMonitor.delta Samples.snap_before Samples.snap_after) == 3 # 2)%Q
  ∧ cpu_after (SystemMonitor.delta Samples.snap_before Samples.snap_after) = (12 # 5)%Q.
Proof.
  destruct (delta_is_difference_in_MB Samples.snap_before Samples.snap_after)
    as (_ & _ & Hc & _ & Hd & Hm).
  split; [apply Hm; reflexivity | split; [| exact Hc]].
  rewrite Hd by (vm_compute; reflexivity).
  vm_compute. reflexivity.
Defined.
(** ** Step timer *)

Section StepTimerFacts.
Import StepTimer.

Lemma enter_FileLogger (title : string) (mon : SystemMonitor.t) (w : world) :
  __enter__ (__init__ title mon FileLogger) w
  = (Ok (entered title mon w), after_enter title w).
Proof. reflexivity. Qed.

Lemma exit_on_exception (title : string) (mon : SystemMonitor.t) (w w2 : world)
    (e : exn) (dt : string) :
  exn_bool e = true →
  format_duration (PyFloat.binary64_round (now w2 - now w)) = Ok dt →
  __exit__ (entered title mon w) (Some e) w2
  = (Ok (Some false), log_append [fail_record title dt e] w2).
Proof.
  intros He Hdt. unfold __exit__, SystemMonitor.snapshot, time_time. unfold_M.
  cbn [t0 entered exc_truth]. rewrite Hdt, He. reflexivity.
Qed.

(** Without an exception, and with one that is false, [__exit__] takes
    the same way. *)
Lemma exit_on_success (title : string) (mon : SystemMonitor.t) (w w2 : world)
    (exc : option exn) (dt : string) :
  exc_truth exc = false →
  format_duration (PyFloat.binary64_round (now w2 - now w)) = Ok dt →
  __exit__ (entered title mon w) exc w2
  = (Ok None,
     log_append [delta_record (SystemMonitor.delta (counters w) (counters w2));
                 done_record title dt] w2).
Proof.
  intros He Hdt. unfold __exit__, SystemMonitor.snapshot, time_time, monitor_delta. unfold_M.
  cbn [t0 before entered logger log FileLogger]. rewrite Hdt, He.
  unfold_M. unfold log_append, set_log_records. cbn.
  rewrite <- app_assoc. reflexivity.
Qed.

(** A failure record passes every threshold the command line offers. *)
Lemma fail_record_emitted (threshold : level) (title dt : string) (e : exn) :
  emitted threshold [fail_record title dt e] = [fail_record title dt e].
Proof. destruct threshold; reflexivity. Qed.

(** The [with] statement over a body whose outcome is known: the failure
    marker for an exception that is true, the resource delta and the
    completion line otherwise; the exception of the body leaves the
    statement in both cases. *)
Lemma with_outcome (A : Type) (title : string) (mon : SystemMonitor.t)
    (body : M A) (w w2 : world) (r : result A) (dt : string) :
  body (after_enter title w) = (r, w2) →
  format_duration (PyFloat.binary64_round (now w2 - now w)) = Ok dt →
  with_ title mon FileLogger body w
  = match r with
    | Raise e =>
        (Raise e,
         log_append
           (if exn_bool e then [fail_record title dt e]
            else [delta_record (SystemMonitor.delta (counters w) (counters w2));
                  done_record title dt])
           w2)
    | Ok a =>
        (Ok (Some a),
         log_append [delta_record (SystemMonitor.delta (counters w) (counters w2));
                     done_record title dt] w2)
    end.
Proof.
  intros Hbody Hdt.
  unfold with_. rewrite enter_FileLogger, Hbody.
  destruct r as [a | e].
  - rewrite (exit_on_success title mon w w2 None dt eq_refl Hdt). reflexivity.
  - destruct (exn_bool e) eqn:He.
    + rewrite (exit_on_exception title mon w w2 e dt He Hdt). reflexivity.
    + rewrite (exit_on_success title mon w w2 (Some e) dt He Hdt). reflexivity.
Qed.

(** A step wrapped by [StepTimer]: when the work raises an [e] that is
    true, [__exit__] logs the failure marker with the title and the
    elapsed duration, returns [False], and the [with] statement raises
    the same [e], the work having run once; when the work returns, the
    statement ends normally with the work's value after the resource
    delta and the duration have been logged. *)
Lemma step_timer_logs_and_reraises (A : Type) (title : string) (mon : SystemMonitor.t)
    (body : M A) (w w2 : world) (r : result A) (dt : string) :
  body (after_enter title w) = (r, w2) →
  format_duration (PyFloat.binary64_round (now w2 - now w)) = Ok dt →
  match r with
  | Raise e =>
      exn_bool e = true →
      __exit__ (entered title mon w) (Some e) w2
      = (Ok (Some false), log_append [fail_record title dt e] w2)
      ∧ with_ title mon FileLogger body w
        = (Raise e, log_append [fail_record title dt e] w2)
  | Ok a =>
      with_ title mon FileLogger body w
      = (Ok (Some a),
         log_append [delta_record (SystemMonitor.delta (counters w) (counters w2));
                     done_record title dt] w2)
  end.
Proof.
  intros Hbody Hdt. rewrite (with_outcome A title mon body w w2 r dt Hbody Hdt).
  destruct r as [a | e]; [reflexivity|].
  intros He. rewrite He. split; [| reflexivity].
  apply exit_on_exception; assumption.
Qed.

End StepTimerFacts.

(** C4.  A step wrapped by [StepTimer] whose work raises an exception
    instance that is false: [__exit__] tests [if exc:], finds it false
    and goes the way of a completed step.  It logs the resource delta
    and the completion line, no failure marker, and returns [None]; the
    [with] statement raises the exception of the work. *)
Theorem step_timer_logs_done_for_false_exception (A : Type) (title : string)
    (mon : SystemMonitor.t) (body : M A) (w w2 : world) (e : exn) (dt : string) :
  body (after_enter title w) = (Raise e, w2) →
  exn_bool e = false →
  format_duration (PyFloat.binary64_round (now w2 - now w)) = Ok dt →
  StepTimer.__exit__ (entered title mon w) (Some e) w2
  = (Ok None,
     log_append [delta_record (SystemMonitor.delta (counters w) (counters w2));
                 done_record title dt] w2)
  ∧ StepTimer.with_ title mon FileLogger body w
    = (Raise e,
       log_append [delta_record (SystemMonitor.delta (counters w) (counters w2));
                   done_record title dt] w2).
Proof.
  intros Hbody He Hdt.
  split; [apply exit_on_success; [exact He | exact Hdt] |].
  rewrite (with_outcome A title mon body w w2 (Raise e) dt Hbody Hdt), He.
  reflexivity.
Qed.

Lemma step_timer_logs_done_for_false_exception_witness :
  StepTimer.with_ "Download SOFT file" Samples.mon FileLogger Samples.falsy_step Samples.w0
  = (Raise Samples.empty_errors,
     log_append
       [info "🔢 RSS Δ: +50.00 MB | 💽 Disk Δ: +1.50 MB | ⚙️ CPU: 2%";
        info ("✅ DONE: Download SOFT file in 1:01:01" +:+ String "010" "")]
       (snd (Samples.falsy_step (after_enter "Download SOFT file" Samples.w0)))).
Proof.
  refine (eq_trans
            (proj2 (step_timer_logs_done_for_false_exception unit "Download SOFT file"
                      Samples.mon Samples.falsy_step Samples.w0 _ Samples.empty_errors
                      "1:01:01" eq_refl eq_refl _)) _).
  - vm_compute. reflexivity.
  - vm_compute. reflexivity.
Defined.

Lemma step_timer_logs_and_reraises_at_sample :
  StepTimer.with_ "Download SOFT file" Samples.mon FileLogger
    Samples.failing_step Samples.w0
  = (Raise (ValueError "boom"),
     log_append [fail_record "Download SOFT file" "1:01:01" (ValueError "boom")]
       (snd (Samples.failing_step (after_enter "Download SOFT file" Samples.w0)))).
Proof.
  apply (step_timer_logs_and_reraises unit "Download SOFT file" Samples.mon
           Samples.failing_step Samples.w0 _ (Raise (ValueError "boom")) "1:01:01").
  - reflexivity.
  - vm_compute. reflexivity.
  - reflexivity.
Defined.

(** ** Cache short-circuits *)

Section CacheFacts.
Import GeoDatasetFetcher AnnotationInspector.

Variable data_dir results_dir : string.
Variable GEOparse_download : string → string → M unit.
Variable os_listdir : string → M (list string).
Variable remote : string → Z → result Response.

Lemma download_soft_cached (geo : string) (w : world) (cached : list Byte.byte) :
  let self := __init__ data_dir results_dir geo FileLogger in
  fs w !! soft_path self = Some cached →
  (0 < List.length cached)%nat →
  download_soft data_dir GEOparse_download os_listdir self w
  = (Ok tt, log_append [info ("✅ SOFT already present: " +:+ soft_path self)] w).
Proof.
  intros self Hfile Hlen.
  unfold download_soft, os_path_exists, os_path_getsize. unfold_M.
  rewrite bool_decide_eq_true_2 by (rewrite Hfile; eauto).
  rewrite Hfile.
  assert (Hpos : (0 <? Z.of_nat (List.length cached))%Z = true)
    by (apply Z.ltb_lt; lia).
  rewrite Hpos. reflexivity.
Qed.

Lemma download_if_needed_cached (url out_path : string) (timeout : Z) (w : world)
    (cached : list Byte.byte) :
  fs w !! out_path = Some cached →
  (0 < List.length cached)%nat →
  _download_if_needed remote url out_path timeout w = (Ok tt, w).
Proof.
  intros Hfile Hlen.
  unfold _download_if_needed, os_path_exists, os_path_getsize. unfold_M.
  rewrite bool_decide_eq_true_2 by (rewrite Hfile; eauto).
  rewrite Hfile.
  assert (Hpos : (0 <? Z.of_nat (List.length cached))%Z = true)
    by (apply Z.ltb_lt; lia).
  rewrite Hpos. reflexivity.
Qed.

(** C2.  When the cache file exists with a size above zero, whatever its
    contents, [download_soft] only logs that the file is present and
    [_download_if_needed] does nothing: no request is sent and every file
    keeps its contents. *)
Theorem cached_file_is_trusted (geo url out_path : string) (timeout : Z) (w : world)
    (cached : list Byte.byte) :
  (0 < List.length cached)%nat →
  (fs w !! soft_path (__init__ data_dir results_dir geo FileLogger) = Some cached →
   ∃ w',
     download_soft data_dir GEOparse_download os_listdir
       (__init__ data_dir results_dir geo FileLogger) w = (Ok tt, w')
     ∧ net w' = net w ∧ fs w' = fs w)
  ∧ (fs w !! out_path = Some cached →
     ∃ w',
       _download_if_needed remote url out_path timeout w = (Ok tt, w')
       ∧ net w' = net w ∧ fs w' = fs w).
Proof.
  intros Hlen. split; intros Hfile.
  - eexists. split; [apply (download_soft_cached _ _ cached Hfile Hlen) |].
    split; reflexivity.
  - exists w. split; [apply (download_if_needed_cached _ _ _ _ cached Hfile Hlen) |].
    split; reflexivity.
Qed.

End CacheFacts.

Lemma cached_file_is_trusted_witness :
  (∃ w',
     GeoDatasetFetcher.download_soft "/data" Samples.geo_download_down Samples.listdir_files
       (GeoDatasetFetcher.__init__ "/data" "/results" "GSE40279" FileLogger)
       Samples.w_cached
     = (Ok tt, w')
     ∧ net w' = net Samples.w_cached ∧ fs w' = fs Samples.w_cached)
  ∧ (∃ w',
       AnnotationInspector._download_if_needed Samples.remote_down
         "https://bioconductor.org/anno.tar.gz"
         "/data/Illumina450k_annotation.tar.gz" 60 Samples.w_cached = (Ok tt, w')
       ∧ net w' = net Samples.w_cached ∧ fs w' = fs Samples.w_cached).
Proof.
  destruct (cached_file_is_trusted "/data" "/results" Samples.geo_download_down
              Samples.listdir_files Samples.remote_down "GSE40279"
              "https://bioconductor.org/anno.tar.gz"
              "/data/Illumina450k_annotation.tar.gz" 60 Samples.w_cached Samples.one_byte)
    as [Hsoft Htar].
  - simpl. lia.
  - split; [apply Hsoft | apply Htar]; vm_compute; reflexivity.
Defined.

(** ** Loading or parsing the GSE object *)

Section LoadOrParseFacts.
Import GeoDatasetFetcher.

Variable data_dir results_dir : string.
Variable GEOparse_parse : list (string * string) → M pyobj.
Variable joblib_decode : list Byte.byte → result pyobj.
Variable joblib_encode : pyobj → list Byte.byte.
Variable geo : string.

Let self := __init__ data_dir results_dir geo FileLogger.

(** Loading reads the file system only. *)
Lemma joblib_load_log (path : string) (records : list log_record) (w : world) :
  joblib_load joblib_decode path (log_append records w)
  = (fst (joblib_load joblib_decode path w), log_append records w).
Proof.
  unfold joblib_load, read_file. unfold_M.
  change (fs (log_append records w)) with (fs w).
  destruct (fs w !! path) as [content|]; [| reflexivity].
  destruct (joblib_decode content); reflexivity.
Qed.

Lemma joblib_load_world (path : string) (w : world) :
  snd (joblib_load joblib_decode path w) = w.
Proof.
  unfold joblib_load, read_file. unfold_M.
  destruct (fs w !! path) as [content|]; [| reflexivity].
  destruct (joblib_decode content); reflexivity.
Qed.

Lemma load_raises_is_miss (w : world) (e : exn) :
  fst (joblib_load joblib_decode (gse_object_path self) w) = Raise e →
  load_or_parse_gse GEOparse_parse joblib_decode joblib_encode self w
  = parse_from_soft GEOparse_parse joblib_encode self
      (log_append [attempt_record; miss_record e] w).
Proof.
  intros Hload.
  pose proof (joblib_load_log (gse_object_path self) [attempt_record] w) as Hl.
  rewrite Hload in Hl.
  unfold load_or_parse_gse, load_cached.
  change (log (logger self)) with logging_info. unfold_M.
  change (set_log_records _ w) with (log_append [attempt_record] w) at 1.
  rewrite Hl. cbn beta iota.
  unfold log_append, set_log_records. cbn. rewrite <- app_assoc. reflexivity.
Qed.

Lemma load_without_samples_is_miss (w : world) (obj : pyobj) :
  fst (joblib_load joblib_decode (gse_object_path self) w) = Ok obj →
  obj_gsms obj = None ∨ obj_gsms obj = Some [] →
  load_or_parse_gse GEOparse_parse joblib_decode joblib_encode self w
  = parse_from_soft GEOparse_parse joblib_encode self
      (log_append [attempt_record; miss_record (AssertionError "")] w).
Proof.
  intros Hload Hobj.
  pose proof (joblib_load_log (gse_object_path self) [attempt_record] w) as Hl.
  rewrite Hload in Hl.
  unfold load_or_parse_gse, load_cached.
  change (log (logger self)) with logging_info. unfold_M.
  change (set_log_records _ w) with (log_append [attempt_record] w) at 1.
  rewrite Hl. cbn beta iota.
  unfold hasattr_gsms, getattr_gsms. unfold_M.
  destruct Hobj as [-> | ->]; cbn;
    try change (0 <? Z.of_nat 0)%Z with false; cbn beta iota;
    unfold log_append, set_log_records; cbn; rewrite <- app_assoc; reflexivity.
Qed.

(** The call of the handler names a keyword that [get_GEO] does not
    have: it raises before the library is entered, whatever the library
    would do. *)
Lemma fallback_call_raises (w : world) :
  get_GEO GEOparse_parse [("filepath", soft_path self); ("GEO", geo_id self)] w
  = (Raise (OtherException "TypeError"
              "get_GEO() got an unexpected keyword argument 'GEO'"), w).
Proof. reflexivity. Qed.

Lemma rejected_parse_raises (w wc wp : world) (ve : exn) :
  ensure_friendly_copy self w = (Ok tt, wc) →
  GEOparse_parse [("filepath", friendly_path self)] wc = (Raise ve, wp) →
  is_ValueError ve = true →
  parse_from_soft GEOparse_parse joblib_encode self w
  = (Raise (OtherException "TypeError"
              "get_GEO() got an unexpected keyword argument 'GEO'"),
     log_append [fallback_record ve] wp).
Proof.
  intros Hcopy Hparse Hve.
  unfold parse_from_soft, parse_with_fallback. unfold_M.
  rewrite Hcopy.
  change (get_GEO GEOparse_parse [("filepath", friendly_path self)] wc)
    with (GEOparse_parse [("filepath", friendly_path self)] wc).
  rewrite Hparse, Hve.
  change (log (logger self)) with logging_info. unfold_M.
  rewrite fallback_call_raises. reflexivity.
Qed.

(** A parse that raises something else than a [ValueError] is not
    retried. *)
Lemma other_parse_error_propagates (w wc wp : world) (e : exn) :
  ensure_friendly_copy self w = (Ok tt, wc) →
  GEOparse_parse [("filepath", friendly_path self)] wc = (Raise e, wp) →
  is_ValueError e = false →
  parse_from_soft GEOparse_parse joblib_encode self w = (Raise e, wp).
Proof.
  intros Hcopy Hparse He.
  unfold parse_from_soft, parse_with_fallback. unfold_M.
  rewrite Hcopy.
  change (get_GEO GEOparse_parse [("filepath", friendly_path self)] wc)
    with (GEOparse_parse [("filepath", friendly_path self)] wc).
  rewrite Hparse, He. reflexivity.
Qed.

(** A parse by the file name that returns is saved and returned. *)
Lemma accepted_parse_is_saved (w wc wp : world) (gse : pyobj) :
  ensure_friendly_copy self w = (Ok tt, wc) →
  GEOparse_parse [("filepath", friendly_path self)] wc = (Ok gse, wp) →
  parse_from_soft GEOparse_parse joblib_encode self w
  = save_parsed joblib_encode self gse wp.
Proof.
  intros Hcopy Hparse.
  unfold parse_from_soft, parse_with_fallback. unfold_M.
  rewrite Hcopy.
  change (get_GEO GEOparse_parse [("filepath", friendly_path self)] wc)
    with (GEOparse_parse [("filepath", friendly_path self)] wc).
  rewrite Hparse. reflexivity.
Qed.

(** In [load_or_parse_gse], an exception raised by loading the cached
    object, and a loaded object without a non-empty [gsms], are cache
    misses: the method logs and goes on to parse. *)
Lemma load_or_parse_gse_miss :
  (∀ (w : world) (e : exn),
     fst (joblib_load joblib_decode (gse_object_path self) w) = Raise e →
     load_or_parse_gse GEOparse_parse joblib_decode joblib_encode self w
     = parse_from_soft GEOparse_parse joblib_encode self
         (log_append [attempt_record; miss_record e] w))
  ∧ (∀ (w : world) (obj : pyobj),
       fst (joblib_load joblib_decode (gse_object_path self) w) = Ok obj →
       obj_gsms obj = None ∨ obj_gsms obj = Some [] →
       load_or_parse_gse GEOparse_parse joblib_decode joblib_encode self w
       = parse_from_soft GEOparse_parse joblib_encode self
           (log_append [attempt_record; miss_record (AssertionError "")] w)).
Proof.
  split.
  - intros w e. apply load_raises_is_miss.
  - intros w obj. apply load_without_samples_is_miss.
Qed.

(** C5.  On a cache miss, when the parse by file name is refused with a
    [ValueError], the handler calls [get_GEO] with the keyword [GEO],
    which is not one of its parameters: [load_or_parse_gse] raises
    [TypeError] after logging that it tries the explicit identifier.  No
    second parse takes place and nothing is saved, whatever the parser
    would return. *)
Theorem load_or_parse_gse_fallback_raises (w wc wp : world) (e ve : exn) :
  fst (joblib_load joblib_decode (gse_object_path self) w) = Raise e →
  ensure_friendly_copy self (log_append [attempt_record; miss_record e] w) = (Ok tt, wc) →
  GEOparse_parse [("filepath", friendly_path self)] wc = (Raise ve, wp) →
  is_ValueError ve = true →
  ∃ text,
    load_or_parse_gse GEOparse_parse joblib_decode joblib_encode self w
    = (Raise (OtherException "TypeError" text), log_append [fallback_record ve] wp).
Proof.
  intros Hload Hcopy Hparse Hve.
  rewrite (load_raises_is_miss w e Hload).
  rewrite (rejected_parse_raises _ wc wp ve Hcopy Hparse Hve).
  eexists. reflexivity.
Qed.

(** C8.  [verify_gse_object] returns normally in every world, having
    changed nothing but the log: between its first and its last line it
    logs that the file is not there, or that it is there followed by the
    failure of the load with the text of the exception, or by what it
    found in the object. *)
Theorem verify_gse_object_never_raises (w : world) :
  ∃ w' middle,
    verify_gse_object joblib_decode self w = (Ok tt, w')
    ∧ fs w' = fs w ∧ net w' = net w
    ∧ log_records w' = (log_records w ++ verify_start :: middle ++ [verify_end])%list
    ∧ match fs w !! gse_object_path self with
      | None => middle = [info "❌ Parsed GSE object not found."]
      | Some content =>
          match joblib_decode content with
          | Raise e =>
              middle = [file_exists_record (gse_object_path self);
                        load_failed_record (exn_str e)]
          | Ok obj =>
              match obj_gsms obj with
              | None =>
                  ∃ text,
                    middle = [file_exists_record (gse_object_path self);
                              info "✅ GSE object loaded.";
                              load_failed_record text]
              | Some g =>
                  match obj_metadata obj with
                  | None =>
                      ∃ text,
                        middle = [file_exists_record (gse_object_path self);
                                  info "✅ GSE object loaded.";
                                  info ("🔢 Samples loaded: "
                                        +:+ PyStr.str_of_int (Z.of_nat (List.length g)));
                                  load_failed_record text]
                  | Some md =>
                      middle = [file_exists_record (gse_object_path self);
                                info "✅ GSE object loaded.";
                                info ("🔢 Samples loaded: "
                                      +:+ PyStr.str_of_int (Z.of_nat (List.length g)));
                                info ("📑 Metadata keys: "
                                      +:+ repr_list (List.firstn 5 (PyDict.keys md)))]
                  end
              end
          end
      end.
Proof.
  unfold verify_gse_object, os_path_exists, joblib_load, read_file,
    getattr_gsms, getattr_metadata.
  change (log (logger self)) with logging_info.
  generalize (gse_object_path self). intros p. unfold_M.
  destruct w as [f n l t c fr]. unfold set_log_records. cbn [fs net log_records].
  destruct (f !! p) as [content|] eqn:Hfile.
  - rewrite bool_decide_eq_true_2 by eauto. cbn [fs]. rewrite Hfile.
    destruct (joblib_decode content) as [obj | e].
    + destruct (obj_gsms obj) as [g|].
      * destruct (obj_metadata obj) as [md|].
        -- eexists _, _. split; [reflexivity|]. cbn [fs net log_records].
           split; [reflexivity|]. split; [reflexivity|]. split; [| reflexivity].
           rewrite <- !app_assoc. reflexivity.
        -- eexists _, _. split; [reflexivity|]. cbn [fs net log_records].
           split; [reflexivity|]. split; [reflexivity|]. split; [| eexists; reflexivity].
           rewrite <- !app_assoc. reflexivity.
      * eexists _, _. split; [reflexivity|]. cbn [fs net log_records].
        split; [reflexivity|]. split; [reflexivity|]. split; [| eexists; reflexivity].
        rewrite <- !app_assoc. reflexivity.
    + eexists _, _. split; [reflexivity|]. cbn [fs net log_records].
      split; [reflexivity|]. split; [reflexivity|]. split; [| reflexivity].
      rewrite <- !app_assoc. reflexivity.
  - rewrite bool_decide_eq_false_2 by (intros [x Hx]; discriminate).
    eexists _, _. split; [reflexivity|]. cbn [fs net log_records].
    split; [reflexivity|]. split; [reflexivity|]. split; [| reflexivity].
    rewrite <- !app_assoc. reflexivity.
Qed.

End LoadOrParseFacts.

Lemma load_or_parse_gse_fallback_raises_witness :
  ∃ text,
    fst (GeoDatasetFetcher.load_or_parse_gse Samples.parse_strict Samples.decode_fail
           Samples.encode_any
           (GeoDatasetFetcher.__init__ "/data" "/results" "GSE40279" FileLogger)
           Samples.w_cached)
    = Raise (OtherException "TypeError" text).
Proof.
  pose (wc := snd (GeoDatasetFetcher.ensure_friendly_copy
                     (GeoDatasetFetcher.__init__ "/data" "/results" "GSE40279" FileLogger)
                     (log_append
                        [attempt_record;
                         miss_record
                           (no_such_file "/data/s00005_GSE40279_gse_object.joblib")]
                        Samples.w_cached))).
  destruct (load_or_parse_gse_fallback_raises "/data" "/results" Samples.parse_strict
              Samples.decode_fail Samples.encode_any "GSE40279" Samples.w_cached wc wc
              (no_such_file "/data/s00005_GSE40279_gse_object.joblib")
              (ValueError "Unknown GEO type"))
    as [text Hrun].
  - vm_compute. reflexivity.
  - vm_compute. reflexivity.
  - reflexivity.
  - reflexivity.
  - exists text. rewrite Hrun. reflexivity.
Defined.

(** ** Phenotype rows and the frequency tally *)

Section DictFacts.
Context {V : Type}.
Implicit Types (d : list (string * V)) (k : string) (v : V).

Lemma dict_get_set_eq d k v : PyDict.get k (PyDict.set k v d) = Some v.
Proof.
  induction d as [| [k' v'] d IH]; simpl.
  - rewrite String.eqb_refl. reflexivity.
  - destruct (String.eqb k' k) eqn:E; simpl; rewrite E; [reflexivity | exact IH].
Qed.

Lemma dict_get_set_ne d k k' v :
  k ≠ k' → PyDict.get k' (PyDict.set k v d) = PyDict.get k' d.
Proof.
  intros Hne. induction d as [| [k0 v0] d IH]; simpl.
  - destruct (String.eqb k k') eqn:E; [apply String.eqb_eq in E; contradiction | reflexivity].
  - destruct (String.eqb k0 k) eqn:E; simpl.
    + apply String.eqb_eq in E. subst k0.
      destruct (String.eqb k k') eqn:E'; [apply String.eqb_eq in E'; contradiction|].
      reflexivity.
    + rewrite IH. reflexivity.
Qed.

Lemma dict_keys_set d k v :
  PyDict.keys (PyDict.set k v d)
  = match PyDict.get k d with
    | Some _ => PyDict.keys d
    | None => (PyDict.keys d ++ [k])%list
    end.
Proof.
  unfold PyDict.keys.
  induction d as [| [k' v'] d IH]; simpl; [reflexivity|].
  destruct (String.eqb k' k) eqn:E; simpl; [reflexivity|].
  rewrite IH. destruct (PyDict.get k d); reflexivity.
Qed.

Lemma dict_get_None_keys d k : PyDict.get k d = None → ¬ In k (PyDict.keys d).
Proof.
  induction d as [| [k' v'] d IH]; simpl; [tauto|].
  destruct (String.eqb k' k) eqn:E; [discriminate|].
  intros Hg [Hk | Hin]; [| exact (IH Hg Hin)].
  subst k'. rewrite String.eqb_refl in E. discriminate.
Qed.

Lemma dict_get_In d k v : PyDict.get k d = Some v → In (k, v) d.
Proof.
  induction d as [| [k' v'] d IH]; simpl; [discriminate|].
  destruct (String.eqb k' k) eqn:E.
  - apply String.eqb_eq in E. intros [= ->]. left. congruence.
  - intros Hg. right. exact (IH Hg).
Qed.

(** Assignment keeps the keys of a dictionary distinct. *)
Lemma dict_set_NoDup d k v :
  List.NoDup (PyDict.keys d) → List.NoDup (PyDict.keys (PyDict.set k v d)).
Proof.
  intros Hnd. rewrite dict_keys_set.
  destruct (PyDict.get k d) eqn:Hg; [exact Hnd|].
  apply NoDup_ListNoDup, NoDup_app. repeat split.
  - apply NoDup_ListNoDup, Hnd.
  - intros x Hx Hk. apply list_elem_of_In in Hx.
    apply list_elem_of_In in Hk. destruct Hk as [<- | []].
    exact (dict_get_None_keys d k Hg Hx).
  - apply NoDup_singleton.
Qed.

End DictFacts.

Section StringFacts.
Import PyStr.

(** [split(ch, 1)] cuts at the first occurrence of [ch]. *)
Lemma split_once_first (ch : ascii) (s a b : string) :
  split_once ch s = Some (a, b) →
  s = a +:+ String ch b ∧ contains ch a = false.
Proof.
  revert a b. induction s as [| c s IH]; intros a b; simpl; [discriminate|].
  destruct (Ascii.eqb c ch) eqn:E.
  - apply Ascii.eqb_eq in E. subst c. intros [= <- <-]. split; reflexivity.
  - destruct (split_once ch s) as [[a' b']|]; [| discriminate].
    intros [= <- <-]. destruct (IH a' b' eq_refl) as [-> Hno].
    split; [reflexivity|]. simpl. rewrite E. exact Hno.
Qed.

(** What [lstrip] returns does not start with whitespace. *)
Lemma lstrip_head (s : string) (c : ascii) (r : string) :
  lstrip s = String c r → isspace c = false.
Proof.
  induction s as [| c' s IH]; simpl; [discriminate|].
  destruct (isspace c') eqn:E; [exact IH|].
  intros [= <- <-]. exact E.
Qed.

(** What [rstrip] returns does not end with whitespace. *)
Lemma rstrip_last (s : string) :
  rstrip s = EmptyString
  ∨ ∃ (r : string) (c : ascii), rstrip s = r +:+ String c EmptyString ∧ isspace c = false.
Proof.
  induction s as [| c s IH]; simpl; [left; reflexivity|].
  destruct IH as [H | (r & c' & H & Hc')]; rewrite H.
  - destruct (isspace c) eqn:E; [left; reflexivity|].
    right. exists EmptyString, c. split; [reflexivity | exact E].
  - right. exists (String c r), c'. split; [| exact Hc'].
    destruct r; reflexivity.
Qed.

(** [rstrip] only removes from the end of what [lstrip] returns, so the
    result of [strip] does not start with whitespace either. *)
Lemma rstrip_head (s : string) (c : ascii) (r : string) :
  rstrip s = String c r → ∃ r', s = String c r'.
Proof.
  destruct s as [| c' s]; simpl; [discriminate|].
  destruct (rstrip s); [destruct (isspace c'); [discriminate|] |];
    intros [= <- <-]; eauto.
Qed.

Lemma strip_head (s : string) (c : ascii) (r : string) :
  strip s = String c r → isspace c = false.
Proof.
  unfold strip. intros H. destruct (rstrip_head _ _ _ H) as [r' Hr'].
  exact (lstrip_head _ _ _ Hr').
Qed.

Lemma lower_char_idem (c : ascii) : lower_char (lower_char c) = lower_char c.
Proof.
  destruct c as [[] [] [] [] [] [] [] []]; reflexivity.
Qed.

(** Lower-casing twice is lower-casing once. *)
Lemma lower_idem (s : string) : lower (lower s) = lower s.
Proof.
  induction s as [| c s IH]; simpl; [reflexivity|].
  rewrite lower_char_idem, IH. reflexivity.
Qed.

Lemma append_cons (c : ascii) (a b : string) : String c a +:+ b = String c (a +:+ b).
Proof. reflexivity. Qed.

Lemma append_nil (b : string) : EmptyString +:+ b = b.
Proof. reflexivity. Qed.

Lemma is_ascii_app (a b : string) :
  is_ascii (a +:+ b) = is_ascii a && is_ascii b.
Proof.
  induction a as [| c a IH]; [reflexivity|].
  rewrite append_cons. simpl. rewrite IH. apply andb_assoc.
Qed.

Lemma split_once_ascii (ch : ascii) (s a b : string) :
  split_once ch s = Some (a, b) → is_ascii s = true →
  is_ascii a = true ∧ is_ascii b = true.
Proof.
  revert a b. induction s as [| c s IH]; intros a b; simpl; [discriminate|].
  intros Hsplit Hs. apply andb_true_iff in Hs. destruct Hs as [Hc Hs].
  destruct (Ascii.eqb c ch).
  - injection Hsplit as <- <-. split; [reflexivity | exact Hs].
  - destruct (split_once ch s) as [[a' b']|]; [| discriminate].
    injection Hsplit as <- <-. destruct (IH a' b' eq_refl Hs) as [Ha Hb].
    split; [simpl; rewrite Hc, Ha; reflexivity | exact Hb].
Qed.

Lemma lstrip_ascii (s : string) : is_ascii s = true → is_ascii (lstrip s) = true.
Proof.
  induction s as [| c s IH]; simpl; [reflexivity|].
  intros Hs. destruct (isspace c); [| exact Hs].
  apply andb_true_iff in Hs. apply IH, Hs.
Qed.

Lemma rstrip_ascii (s : string) : is_ascii s = true → is_ascii (rstrip s) = true.
Proof.
  induction s as [| c s IH]; simpl; [reflexivity|].
  intros Hs. apply andb_true_iff in Hs. destruct Hs as [Hc Hs]. specialize (IH Hs).
  destruct (rstrip s) as [| d r].
  - destruct (isspace c); [reflexivity | simpl; rewrite Hc; reflexivity].
  - simpl in *. rewrite Hc, IH. reflexivity.
Qed.

Lemma strip_ascii_closed (s : string) : is_ascii s = true → is_ascii (strip s) = true.
Proof. intros Hs. apply rstrip_ascii, lstrip_ascii, Hs. Qed.

(** Cutting at the first colon of [a : b] gives [a] and [b]. *)
Lemma split_once_app (ch : ascii) (a b : string) :
  contains ch a = false → split_once ch (a +:+ String ch b) = Some (a, b).
Proof.
  induction a as [| c a IH]; intros Ha.
  - rewrite append_nil. simpl. rewrite Ascii.eqb_refl. reflexivity.
  - rewrite append_cons. simpl in *.
    destruct (Ascii.eqb c ch); [discriminate|]. rewrite (IH Ha). reflexivity.
Qed.

(** Blanks at the two ends are what [strip] removes. *)
Lemma lstrip_blank (a s : string) : blank a = true → lstrip (a +:+ s) = lstrip s.
Proof.
  induction a as [| c a IH]; intros Ha; [reflexivity|].
  rewrite append_cons. simpl in *. apply andb_true_iff in Ha. destruct Ha as [Hc Ha].
  rewrite Hc. apply IH, Ha.
Qed.

Lemma rstrip_only_blank (b : string) : blank b = true → rstrip b = EmptyString.
Proof.
  induction b as [| c b IH]; intros Hb; [reflexivity|].
  simpl in *. apply andb_true_iff in Hb. destruct Hb as [Hc Hb].
  rewrite (IH Hb), Hc. reflexivity.
Qed.

Lemma rstrip_blank (s b : string) : blank b = true → rstrip (s +:+ b) = rstrip s.
Proof.
  intros Hb. induction s as [| c s IH].
  - rewrite append_nil. apply rstrip_only_blank, Hb.
  - rewrite append_cons. simpl. rewrite IH. reflexivity.
Qed.

Lemma rstrip_tight (c : ascii) (t : string) :
  last_is_blank (String c t) = false → rstrip (String c t) = String c t.
Proof.
  revert c. induction t as [| d t IH]; intros c Hlast.
  - simpl in *. rewrite Hlast. reflexivity.
  - change (last_is_blank (String c (String d t))) with (last_is_blank (String d t)) in Hlast.
    change (rstrip (String c (String d t)))
      with (match rstrip (String d t) with
            | EmptyString => if isspace c then EmptyString else String c EmptyString
            | r => String c r
            end).
    rewrite (IH d Hlast). reflexivity.
Qed.

Lemma strip_trimmed (s t : string) : trimmed s t → strip s = t.
Proof.
  intros (a & b & -> & Ha & Hb & Ht). unfold strip.
  rewrite (lstrip_blank a _ Ha).
  destruct t as [| c t].
  - rewrite append_nil.
    assert (Hl : lstrip b = EmptyString).
    { clear Ht. induction b as [| d b IH]; [reflexivity|].
      simpl in *. apply andb_true_iff in Hb. destruct Hb as [Hd Hb].
      rewrite Hd. apply IH, Hb. }
    rewrite Hl. reflexivity.
  - unfold tight in Ht. apply andb_true_iff in Ht. destruct Ht as [Hc Hlast].
    apply negb_true_iff in Hc, Hlast.
    rewrite append_cons. simpl lstrip. rewrite Hc.
    rewrite <- append_cons, (rstrip_blank _ b Hb). apply rstrip_tight, Hlast.
Qed.

Lemma trimmed_ascii (s t : string) : trimmed s t → is_ascii s = true → is_ascii t = true.
Proof.
  intros (a & b & -> & _) Hs. rewrite !is_ascii_app in Hs.
  apply andb_true_iff in Hs. destruct Hs as [_ Hs].
  apply andb_true_iff in Hs. apply Hs.
Qed.

End StringFacts.

Section RowFacts.
Import GeoDatasetFetcher.
Import PyDict.

Variable str_strip str_lower : string → string.

Local Abbreviation add_items := (GeoDatasetFetcher.add_items str_strip str_lower).
Local Abbreviation sample_row := (GeoDatasetFetcher.sample_row str_strip str_lower).
Local Abbreviation collect := (GeoDatasetFetcher.collect str_strip str_lower).
Local Abbreviation parse_entry := (Outcomes.parse_entry str_strip str_lower).
Local Abbreviation add_item := (Outcomes.add_item str_strip str_lower).

Lemma contains_split_once (ch : ascii) (s : string) :
  PyStr.contains ch s = match PyStr.split_once ch s with Some _ => true | None => false end.
Proof.
  induction s as [| c s IH]; simpl; [reflexivity|].
  destruct (Ascii.eqb c ch); [reflexivity|].
  rewrite IH. destruct (PyStr.split_once ch s) as [[a b]|]; reflexivity.
Qed.

Lemma add_items_fold (meta : list string) (record : list (string * string)) :
  add_items record meta = fold_left add_item meta record.
Proof.
  revert record. induction meta as [| item meta IH]; intros record; simpl; [reflexivity|].
  rewrite contains_split_once. unfold Outcomes.add_item at 2, Outcomes.parse_entry.
  destruct (PyStr.split_once ":" item) as [[k v]|]; apply IH.
Qed.

Lemma add_items_app (a b : list string) (record : list (string * string)) :
  add_items record (a ++ b) = add_items (add_items record a) b.
Proof. rewrite !add_items_fold. apply fold_left_app. Qed.

(** Entries without a colon leave the row as it is. *)
Lemma add_items_filter (meta : list string) (record : list (string * string)) :
  add_items record meta = add_items record (List.filter (PyStr.contains ":") meta).
Proof.
  revert record. induction meta as [| item meta IH]; intros record; simpl; [reflexivity|].
  destruct (PyStr.contains ":" item) eqn:E; simpl; rewrite ?E; [| apply IH].
  destruct (PyStr.split_once ":" item) as [[k v]|]; apply IH.
Qed.

Lemma add_items_NoDup (meta : list string) (record : list (string * string)) :
  List.NoDup (keys record) → List.NoDup (keys (add_items record meta)).
Proof.
  rewrite add_items_fold. revert record.
  induction meta as [| item meta IH]; intros record Hnd; simpl; [exact Hnd|].
  apply IH. unfold Outcomes.add_item. destruct (parse_entry item) as [[k v]|]; [| exact Hnd].
  apply dict_set_NoDup, Hnd.
Qed.

(** Entries with other keys leave the value under [k] as it is. *)
Lemma add_items_other_keys (meta : list string) (record : list (string * string))
    (k : string) :
  (∀ x v, In x meta → parse_entry x ≠ Some (k, v)) →
  get k (add_items record meta) = get k record.
Proof.
  rewrite add_items_fold. revert record.
  induction meta as [| item meta IH]; intros record Hno; simpl; [reflexivity|].
  rewrite IH by (intros x v Hx; apply Hno; right; exact Hx).
  unfold Outcomes.add_item. destruct (parse_entry item) as [[k' v']|] eqn:E; [| reflexivity].
  apply dict_get_set_ne. intros ->. exact (Hno item v' (or_introl eq_refl) E).
Qed.

(** The last entry with key [k] decides the value under [k]. *)
Lemma add_items_last_wins (pre post : list string) (item k v : string)
    (record : list (string * string)) :
  parse_entry item = Some (k, v) →
  (∀ x v', In x post → parse_entry x ≠ Some (k, v')) →
  get k (add_items record (pre ++ item :: post)) = Some v.
Proof.
  intros Hitem Hpost.
  rewrite add_items_app. change (item :: post) with ([item] ++ post)%list.
  rewrite add_items_app, add_items_other_keys by exact Hpost.
  rewrite (add_items_fold [item]). simpl. unfold Outcomes.add_item. rewrite Hitem.
  apply dict_get_set_eq.
Qed.

(** The row of the [i]-th sample. *)
Lemma collect_rows (field : string) (gsms : list (string * GSM)) (i : nat)
    (sid : string) (gsm : GSM) :
  gsms !! i = Some (sid, gsm) →
  (collect field gsms).1 !! i = Some (sample_row field sid gsm).1.
Proof.
  revert i. induction gsms as [| [sid' gsm'] gsms IH]; intros i Hi; [discriminate|].
  simpl. destruct (sample_row field sid' gsm') as [record vals] eqn:Hrow.
  destruct (collect field gsms) as [rows values] eqn:Hcol.
  destruct i as [| i]; simpl in *.
  - injection Hi as -> ->. rewrite Hrow. reflexivity.
  - apply IH, Hi.
Qed.

(** The entries of every sample's field are among [values]. *)
Lemma collect_values (field : string) (gsms : list (string * GSM)) (i : nat)
    (sid : string) (gsm : GSM) (x : string) :
  gsms !! i = Some (sid, gsm) →
  In x (sample_row field sid gsm).2 →
  In x (collect field gsms).2.
Proof.
  revert i. induction gsms as [| [sid' gsm'] gsms IH]; intros i Hi Hx; [discriminate|].
  simpl. destruct (sample_row field sid' gsm') as [record vals] eqn:Hrow.
  destruct (collect field gsms) as [rows values] eqn:Hcol.
  simpl. apply in_or_app.
  destruct i as [| i]; simpl in *.
  - injection Hi as -> ->. rewrite Hrow in Hx. left. exact Hx.
  - right. exact (IH i Hi Hx).
Qed.

Lemma sample_row_meta (field sid : string) (gsm : GSM) (meta : list string) :
  get field (gsm_metadata gsm) = Some meta →
  sample_row field sid gsm = (add_items [("sample_id", sid)] meta, meta).
Proof.
  intros Hm. unfold GeoDatasetFetcher.sample_row. rewrite Hm. destruct meta; reflexivity.
Qed.

End RowFacts.

Section CounterFacts.
Import GeoDatasetFetcher.
Import PyDict.
Local Open Scope Z_scope.

Lemma tally_counter_add (c : list (string * Z)) (x y : string) :
  tally (counter_add c y) x = tally c x + (if String.eqb y x then 1 else 0).
Proof.
  unfold tally, counter_add.
  destruct (String.eqb y x) eqn:E.
  - apply String.eqb_eq in E. subst y.
    destruct (get x c) as [n|]; rewrite dict_get_set_eq; lia.
  - assert (y ≠ x) by (intros ->; rewrite String.eqb_refl in E; discriminate).
    destruct (get y c) as [n|]; rewrite dict_get_set_ne by assumption; lia.
Qed.

Lemma tally_fold (values : list string) (c : list (string * Z)) (x : string) :
  tally (fold_left counter_add values c) x = tally c x + count x values.
Proof.
  revert c. induction values as [| y values IH]; intros c; simpl; [lia|].
  rewrite IH, tally_counter_add. lia.
Qed.

Lemma counter_add_keeps (c : list (string * Z)) (x y : string) :
  is_Some (get x c) → is_Some (get x (counter_add c y)).
Proof.
  intros Hx. unfold counter_add.
  destruct (String.eqb y x) eqn:E.
  - apply String.eqb_eq in E. subst y.
    destruct (get x c); rewrite dict_get_set_eq; eauto.
  - assert (y ≠ x) by (intros ->; rewrite String.eqb_refl in E; discriminate).
    destruct (get y c); rewrite dict_get_set_ne by assumption; exact Hx.
Qed.

Lemma fold_keeps (values : list string) (c : list (string * Z)) (x : string) :
  is_Some (get x c) → is_Some (get x (fold_left counter_add values c)).
Proof.
  revert c. induction values as [| y values IH]; intros c Hx; simpl; [exact Hx|].
  apply IH, counter_add_keeps, Hx.
Qed.

Lemma fold_counts_member (values : list string) (c : list (string * Z)) (x : string) :
  In x values → is_Some (get x (fold_left counter_add values c)).
Proof.
  revert c. induction values as [| y values IH]; intros c Hin; simpl; [destruct Hin|].
  destruct Hin as [-> | Hin]; [| apply IH, Hin].
  apply fold_keeps. unfold counter_add.
  destruct (get x c); rewrite dict_get_set_eq; eauto.
Qed.

Lemma count_member (x : string) (values : list string) : In x values → 1 <= count x values.
Proof.
  assert (Hnn : ∀ l, 0 <= count x l).
  { induction l as [| y l IH]; simpl; [lia|]. destruct (String.eqb y x); lia. }
  induction values as [| y values IH]; simpl; [tauto|].
  intros [-> | Hin].
  - rewrite String.eqb_refl. specialize (Hnn values). lia.
  - specialize (IH Hin). destruct (String.eqb y x); lia.
Qed.

(** The tally holds, for every value that occurs, the number of its
    occurrences. *)
Lemma Counter_get (values : list string) (x : string) :
  In x values → get x (Counter values) = Some (count x values).
Proof.
  intros Hin. unfold Counter.
  pose proof (tally_fold values [] x) as Ht.
  destruct (fold_counts_member values [] x Hin) as [n Hn].
  unfold tally in Ht. rewrite Hn in Ht. simpl in Ht. rewrite Hn. f_equal. lia.
Qed.

Lemma total_set_present (c : list (string * Z)) (x : string) (n m : Z) :
  get x c = Some n → total (set x m c) = total c - n + m.
Proof.
  induction c as [| [k v] c IH]; simpl; [discriminate|].
  destruct (String.eqb k x) eqn:E; simpl.
  - intros [= ->]. lia.
  - intros Hg. rewrite (IH Hg). lia.
Qed.

Lemma total_set_absent (c : list (string * Z)) (x : string) (m : Z) :
  get x c = None → total (set x m c) = total c + m.
Proof.
  induction c as [| [k v] c IH]; simpl; [lia|].
  destruct (String.eqb k x) eqn:E; simpl; [discriminate|].
  intros Hg. rewrite (IH Hg). lia.
Qed.

Lemma count_app (x : string) (a b : list string) :
  count x (a ++ b) = count x a + count x b.
Proof. induction a as [| y a IH]; simpl; [reflexivity | rewrite IH; lia]. Qed.

Lemma count_nonneg (x : string) (l : list string) : 0 <= count x l.
Proof. induction l as [| y l IH]; simpl; [lia|]. destruct (String.eqb y x); lia. Qed.

(** Every entry adds one to the tally. *)
Lemma Counter_total (values : list string) :
  total (Counter values) = Z.of_nat (List.length values).
Proof.
  unfold Counter.
  assert (H : ∀ c, total (fold_left counter_add values c)
                   = total c + Z.of_nat (List.length values)).
  { induction values as [| y values IH]; intros c; simpl List.length; simpl fold_left; [lia|].
    rewrite IH. unfold counter_add.
    destruct (get y c) as [n|] eqn:Hg.
    - rewrite (total_set_present c y n _ Hg). lia.
    - rewrite (total_set_absent c y _ Hg). lia. }
  rewrite H. simpl. lia.
Qed.

End CounterFacts.

Section SampleCountFacts.
Import GeoDatasetFetcher.
Import PyDict.
Local Open Scope Z_scope.

Variable str_strip str_lower : string → string.

Local Abbreviation collect := (GeoDatasetFetcher.collect str_strip str_lower).
Local Abbreviation sample_row := (GeoDatasetFetcher.sample_row str_strip str_lower).

(** The entries of one sample's field are counted among all values. *)
Lemma count_sample_le (field : string) (gsms : list (string * GSM)) (i : nat)
    (sid : string) (gsm : GSM) (meta : list string) (x : string) :
  gsms !! i = Some (sid, gsm) →
  get field (gsm_metadata gsm) = Some meta →
  count x meta <= count x (collect field gsms).2.
Proof.
  revert i. induction gsms as [| [sid' gsm'] gsms IH]; intros i Hi Hm; [discriminate|].
  simpl. destruct (sample_row field sid' gsm') as [record vals] eqn:Hrow.
  destruct (collect field gsms) as [rows values] eqn:Hcol.
  simpl. rewrite count_app.
  pose proof (count_nonneg x vals). pose proof (count_nonneg x values).
  destruct i as [| i]; simpl in *.
  - injection Hi as -> ->. rewrite (sample_row_meta _ _ _ _ _ _ Hm) in Hrow.
    injection Hrow as _ <-. lia.
  - specialize (IH i Hi Hm). lia.
Qed.

End SampleCountFacts.

Section SummarizeFacts.
Import GeoDatasetFetcher.

Variable data_dir results_dir : string.
Variable rows_to_csv : list (list (string * string)) → list Byte.byte.
Variable geo : string.

(** [str.strip] and [str.lower], and what is known of them: on ASCII
    text they are the functions of [PyStr]. *)
Variable str_strip str_lower : string → string.
Hypothesis strip_ascii : ∀ s, PyStr.is_ascii s = true → str_strip s = PyStr.strip s.
Hypothesis lower_ascii : ∀ s, PyStr.is_ascii s = true → str_lower s = PyStr.lower s.

Let self := __init__ data_dir results_dir geo FileLogger.

Local Abbreviation add_items := (GeoDatasetFetcher.add_items str_strip str_lower).
Local Abbreviation collect := (GeoDatasetFetcher.collect str_strip str_lower).
Local Abbreviation parse_entry := (Outcomes.parse_entry str_strip str_lower).
Local Abbreviation add_item := (Outcomes.add_item str_strip str_lower).

Lemma log_append_nil (w : world) : log_append [] w = w.
Proof. destruct w. unfold log_append, set_log_records. simpl. rewrite app_nil_r. reflexivity. Qed.

Lemma log_append_app (a b : list log_record) (w : world) :
  log_append b (log_append a w) = log_append (a ++ b) w.
Proof. unfold log_append, set_log_records. simpl. rewrite app_assoc. reflexivity. Qed.

Lemma log_counts_FileLogger (items : list (string * Z)) (w : world) :
  log_counts FileLogger items w = (Ok tt, log_append (List.map count_line items) w).
Proof.
  revert w. induction items as [| [label n] items IH]; intros w; simpl.
  - rewrite log_append_nil. reflexivity.
  - unfold_M. rewrite IH.
    change (set_log_records _ w) with (log_append [count_line (label, n)] w).
    rewrite log_append_app. reflexivity.
Qed.

(** What [summarize_phenotypes] does to the world: the header, one
    line per entry of the tally and an empty line are logged, the rows
    are written as CSV, and the path is logged. *)
Lemma summarize_phenotypes_runs (gse : pyobj) (gsms : list (string * GSM))
    (field : string) (w : world) :
  obj_gsms gse = Some gsms →
  summarize_phenotypes str_strip str_lower rows_to_csv self gse field w
  = (Ok tt,
     log_append
       [info ("📄 Parsed phenotype CSV saved to: " +:+ pheno_csv self +:+ String "010" "")]
       (set_fs (λ f, <[pheno_csv self := rows_to_csv (collect field gsms).1]> f)
          (log_append
             (info ("📊 Metadata summary: " +:+ field)
              :: List.map count_line (PyDict.Counter (collect field gsms).2) ++ [info ""])
             w))).
Proof.
  intros Hg. unfold summarize_phenotypes, getattr_gsms. rewrite Hg.
  change (log (logger self)) with logging_info.
  change (logger self) with FileLogger.
  unfold write_file. unfold_M.
  destruct (collect field gsms) as [rows values].
  unfold_M. rewrite log_counts_FileLogger. cbn beta iota.
  change (set_log_records _ w)
    with (log_append [info ("📊 Metadata summary: " +:+ field)] w).
  rewrite log_append_app.
  match goal with
  | |- context [set_log_records ?f (log_append ?l w)] =>
      change (set_log_records f (log_append l w)) with (log_append [info ""] (log_append l w))
  end.
  rewrite log_append_app. simpl fst. simpl snd.
  rewrite <- app_assoc. reflexivity.
Qed.

(** On ASCII entries the loop is the loop with the functions of
    [PyStr]. *)
Lemma add_items_ascii (meta : list string) (record : list (string * string)) :
  Forall (λ item, PyStr.is_ascii item = true) meta →
  add_items record meta = GeoDatasetFetcher.add_items PyStr.strip PyStr.lower record meta.
Proof.
  intros Hmeta. revert record.
  induction Hmeta as [| item meta Hitem Hmeta IH]; intros record; [reflexivity|].
  cbn [GeoDatasetFetcher.add_items].
  destruct (PyStr.contains ":" item); [| apply IH].
  destruct (PyStr.split_once ":" item) as [[k v]|] eqn:Hsplit; [| apply IH].
  destruct (split_once_ascii _ _ _ _ Hsplit Hitem) as [Hk Hv].
  rewrite (strip_ascii k Hk), (strip_ascii v Hv),
    (lower_ascii _ (strip_ascii_closed k Hk)).
  apply IH.
Qed.

(** An ASCII entry read in the spec's terms: the text before the first
    colon without the blanks at its ends and in lower case, and the text
    after it without the blanks at its ends. *)
Lemma parse_entry_trimmed (kraw vraw k v : string) :
  PyStr.is_ascii (kraw +:+ String ":" vraw) = true →
  PyStr.contains ":" kraw = false →
  trimmed kraw k → trimmed vraw v →
  parse_entry (kraw +:+ String ":" vraw) = Some (PyStr.lower k, v).
Proof.
  intros Hascii Hcolon Hk Hv. unfold Outcomes.parse_entry.
  rewrite (split_once_app _ _ _ Hcolon).
  rewrite is_ascii_app in Hascii. apply andb_true_iff in Hascii.
  destruct Hascii as [Hka Hva]. simpl in Hva.
  rewrite (strip_ascii kraw Hka), (strip_ascii vraw Hva).
  rewrite (strip_trimmed _ _ Hk), (strip_trimmed _ _ Hv).
  rewrite (lower_ascii k (trimmed_ascii _ _ Hk Hka)). reflexivity.
Qed.

(** C3.  [summarize_phenotypes] logs the tally and writes the rows.  The
    row of every sample whose field is ["age: 45", "sex: female"] has,
    after the identifier, the column "age" with "45" and the column "sex"
    with "female", and so has the row of a sample whose entries carry
    blanks (spaces, a TAB, a line feed) around the key and the value and
    capitals in the key.  In
    general a row is built entry by entry, each entry split at its first
    colon, the key stripped and lower-cased, the value stripped; for an
    ASCII entry the key is the text before the first colon without the
    blanks at its ends, in lower case, and the value the text after it
    without the blanks at its ends.  An entry without a colon is in the
    tally, with the number of its occurrences, and the row is what the
    entries with a colon alone produce. *)
Theorem summarize_phenotypes_rows_and_tally (field : string) (gse : pyobj)
    (gsms : list (string * GSM)) (w : world) :
  obj_gsms gse = Some gsms →
  let rows := (collect field gsms).1 in
  let values := (collect field gsms).2 in
  ∃ w',
    summarize_phenotypes str_strip str_lower rows_to_csv self gse field w = (Ok tt, w')
    ∧ fs w' = <[pheno_csv self := rows_to_csv rows]> (fs w)
    ∧ (∀ (i : nat) (sid : string) (gsm : GSM),
         gsms !! i = Some (sid, gsm) →
         PyDict.get field (gsm_metadata gsm) = Some ["age: 45"; "sex: female"] →
         rows !! i = Some [("sample_id", sid); ("age", "45"); ("sex", "female")])
    ∧ (∀ (i : nat) (sid : string) (gsm : GSM),
         gsms !! i = Some (sid, gsm) →
         PyDict.get field (gsm_metadata gsm) = Some Samples.untidy_entries →
         rows !! i = Some [("sample_id", sid); ("age", "45"); ("sex", "female")])
    ∧ (∀ (i : nat) (sid : string) (gsm : GSM) (meta : list string),
         gsms !! i = Some (sid, gsm) →
         PyDict.get field (gsm_metadata gsm) = Some meta →
         rows !! i = Some (fold_left add_item meta [("sample_id", sid)]))
    ∧ (∀ (kraw vraw k v : string),
         PyStr.is_ascii (kraw +:+ String ":" vraw) = true →
         PyStr.contains ":" kraw = false →
         trimmed kraw k → trimmed vraw v →
         ∀ record, add_item record (kraw +:+ String ":" vraw)
                   = PyDict.set (PyStr.lower k) v record)
    ∧ (∀ (i : nat) (sid : string) (gsm : GSM) (meta : list string) (item : string),
         gsms !! i = Some (sid, gsm) →
         PyDict.get field (gsm_metadata gsm) = Some meta →
         In item meta →
         PyStr.contains ":" item = false →
         (1 <= count item values)%Z
         ∧ PyDict.get item (PyDict.Counter values) = Some (count item values)
         ∧ In (count_line (item, count item values)) (log_records w')
         ∧ rows !! i
           = Some (add_items [("sample_id", sid)]
                     (List.filter (PyStr.contains ":") meta))).
Proof.
  intros Hg rows values.
  eexists. split; [apply (summarize_phenotypes_runs _ gsms _ _ Hg) |].
  split; [reflexivity|]. split; [| split; [| split; [| split]]].
  - intros i sid gsm Hi Hm. unfold rows.
    rewrite (collect_rows _ _ field gsms i sid gsm Hi), (sample_row_meta _ _ _ _ _ _ Hm).
    cbn [fst]. rewrite add_items_ascii by (repeat constructor). reflexivity.
  - intros i sid gsm Hi Hm. unfold rows.
    rewrite (collect_rows _ _ field gsms i sid gsm Hi), (sample_row_meta _ _ _ _ _ _ Hm).
    cbn [fst]. rewrite add_items_ascii by (repeat constructor). reflexivity.
  - intros i sid gsm meta Hi Hm. unfold rows.
    rewrite (collect_rows _ _ field gsms i sid gsm Hi), (sample_row_meta _ _ _ _ _ _ Hm).
    simpl fst. f_equal. apply add_items_fold.
  - intros kraw vraw k v Hascii Hcolon Hk Hv record. unfold Outcomes.add_item.
    rewrite (parse_entry_trimmed _ _ _ _ Hascii Hcolon Hk Hv). reflexivity.
  - intros i sid gsm meta item Hi Hm Hin Hcolon.
    assert (Hval : In item values).
    { unfold values. apply (collect_values _ _ field gsms i sid gsm item Hi).
      rewrite (sample_row_meta _ _ _ _ _ _ Hm). exact Hin. }
    pose proof (Counter_get values item Hval) as Hc.
    split; [apply count_member, Hval|]. split; [exact Hc|]. split.
    + unfold log_append, set_fs, set_log_records. cbn [log_records].
      apply in_or_app. left. apply in_or_app. right. right.
      apply in_or_app. left. apply in_map_iff.
      exists (item, count item values). split; [reflexivity|].
      apply dict_get_In, Hc.
    + unfold rows.
      rewrite (collect_rows _ _ field gsms i sid gsm Hi), (sample_row_meta _ _ _ _ _ _ Hm).
      simpl fst. f_equal. apply add_items_filter.
Qed.

(** C9.  When several entries of a sample's field have the same key
    after splitting, stripping and lower-casing, the row has one column
    for the key, holding the stripped value of the last of them; its keys
    are pairwise distinct; and every entry of the field is counted in the
    tally, whose counts add up to the number of entries seen.  The
    entries "Age: 45" and "age: 50" are two such entries: both have the
    key "age". *)
Theorem duplicate_key_last_entry_wins
    (field : string) (gsms : list (string * GSM)) (i : nat) (sid : string) (gsm : GSM)
    (pre post : list string) (item k v : string) :
  gsms !! i = Some (sid, gsm) →
  PyDict.get field (gsm_metadata gsm) = Some (pre ++ item :: post)%list →
  parse_entry item = Some (k, v) →
  (∀ x v', In x post → parse_entry x ≠ Some (k, v')) →
  ∃ row,
    (collect field gsms).1 !! i = Some row
    ∧ PyDict.get k row = Some v
    ∧ List.NoDup (PyDict.keys row)
    ∧ (∀ x, In x (pre ++ item :: post)%list →
         PyDict.get x (PyDict.Counter (collect field gsms).2)
         = Some (count x (collect field gsms).2)
         ∧ (count x (pre ++ item :: post)%list <= count x (collect field gsms).2)%Z)
    ∧ total (PyDict.Counter (collect field gsms).2)
      = Z.of_nat (List.length (collect field gsms).2)
    ∧ parse_entry "Age: 45" = Some ("age", "45")
    ∧ parse_entry "age: 50" = Some ("age", "50").
Proof.
  intros Hi Hm Hitem Hpost.
  exists (add_items [("sample_id", sid)] (pre ++ item :: post)).
  split; [| split; [| split; [| split; [| split]]]].
  - rewrite (collect_rows _ _ field gsms i sid gsm Hi), (sample_row_meta _ _ _ _ _ _ Hm).
    reflexivity.
  - apply add_items_last_wins; assumption.
  - apply add_items_NoDup. simpl. constructor; [simpl; tauto | constructor].
  - intros x Hx. split.
    + apply Counter_get, (collect_values _ _ field gsms i sid gsm x Hi).
      rewrite (sample_row_meta _ _ _ _ _ _ Hm). exact Hx.
    + apply (count_sample_le _ _ field gsms i sid gsm _ x Hi Hm).
  - apply Counter_total.
  - split; unfold Outcomes.parse_entry; cbn [PyStr.split_once Ascii.eqb Bool.eqb].
    + rewrite (strip_ascii "Age" eq_refl), (strip_ascii " 45" eq_refl),
        (lower_ascii (PyStr.strip "Age") eq_refl). reflexivity.
    + rewrite (strip_ascii "age" eq_refl), (strip_ascii " 50" eq_refl),
        (lower_ascii (PyStr.strip "age") eq_refl). reflexivity.
Qed.

End SummarizeFacts.

Lemma summarize_phenotypes_rows_and_tally_witness :
  ∃ w',
    GeoDatasetFetcher.summarize_phenotypes PyStr.strip PyStr.lower Samples.rows_to_csv_any
      (GeoDatasetFetcher.__init__ "/data" "/results" "GSE40279" FileLogger)
      Samples.gse "characteristics_ch1" Samples.w0 = (Ok tt, w')
    ∧ (GeoDatasetFetcher.collect PyStr.strip PyStr.lower "characteristics_ch1"
         Samples.gsms).1 !! 0%nat
      = Some [("sample_id", "GSM1"); ("age", "45"); ("sex", "female")]
    ∧ In (count_line ("tissue whole blood", 1%Z)) (log_records w').
Proof.
  destruct (summarize_phenotypes_rows_and_tally "/data" "/results" Samples.rows_to_csv_any
              "GSE40279" PyStr.strip PyStr.lower (λ s _, eq_refl) (λ s _, eq_refl)
              "characteristics_ch1" Samples.gse Samples.gsms Samples.w0 eq_refl)
    as (w' & Hrun & _ & Hrow & _ & _ & _ & Hno).
  exists w'. split; [exact Hrun|]. split.
  - apply (Hrow 0%nat "GSM1" Samples.gsm1); reflexivity.
  - destruct (Hno 1%nat "GSM2" Samples.gsm2 ["Age: 45"; "tissue whole blood"; "age: 50"]
                "tissue whole blood" eq_refl eq_refl (or_intror (or_introl eq_refl)) eq_refl)
      as (_ & _ & Hline & _).
    exact Hline.
Defined.

Lemma duplicate_key_last_entry_wins_witness :
  ∃ row,
    (GeoDatasetFetcher.collect PyStr.strip PyStr.lower "characteristics_ch1"
       Samples.gsms).1 !! 1%nat = Some row
    ∧ PyDict.get "age" row = Some "50"
    ∧ PyDict.keys row = ["sample_id"; "age"]
    ∧ PyDict.get "Age: 45"
        (PyDict.Counter
           (GeoDatasetFetcher.collect PyStr.strip PyStr.lower "characteristics_ch1"
              Samples.gsms).2)
      = Some 1%Z
    ∧ PyDict.get "age: 50"
        (PyDict.Counter
           (GeoDatasetFetcher.collect PyStr.strip PyStr.lower "characteristics_ch1"
              Samples.gsms).2)
      = Some 1%Z.
Proof.
  destruct (duplicate_key_last_entry_wins PyStr.strip PyStr.lower (λ s _, eq_refl)
              (λ s _, eq_refl) "characteristics_ch1" Samples.gsms 1%nat
              "GSM2" Samples.gsm2 ["Age: 45"; "tissue whole blood"] [] "age: 50" "age" "50"
              eq_refl eq_refl eq_refl (λ x v' (H : In x []), match H with end))
    as (row & Hrow & Hget & _ & Hcount & _).
  exists row. split; [exact Hrow|]. split; [exact Hget|]. split.
  - vm_compute in Hrow. injection Hrow as <-. reflexivity.
  - split.
    + rewrite (proj1 (Hcount "Age: 45" (or_introl eq_refl))). reflexivity.
    + rewrite (proj1 (Hcount "age: 50" (or_intror (or_intror (or_introl eq_refl))))).
      reflexivity.
Defined.

(** ** Merging the annotation frames *)

Section MergeFacts.
Import AnnotationInspector.

Variable pd_join_inner : DataFrame → DataFrame → result DataFrame.
Variable pd_reset_index_rename : DataFrame → DataFrame.

Lemma df_read_Some (r : nat) (f : DataFrame) (w : world) :
  frames w !! r = Some f → Pandas.read r w = (Ok f, w).
Proof. intros H. unfold Pandas.read. rewrite H. reflexivity. Qed.

Lemma fresh_not_allocated (h : gmap nat DataFrame) (r : nat) (f : DataFrame) :
  h !! r = Some f → r ≠ fresh (dom h).
Proof.
  intros Hr ->. apply (is_fresh (dom h)). apply elem_of_dom. eauto.
Qed.

Lemma copied_keeps (h : gmap nat DataFrame) (fl fo : DataFrame) (r : nat) (f : DataFrame) :
  h !! r = Some f → copied h fl fo !! r = Some f.
Proof.
  intros Hr. unfold copied.
  assert (H1 : r ≠ fresh (dom h)) by exact (fresh_not_allocated h r f Hr).
  assert (H2 : r ≠ fresh (dom (<[fresh (dom h) := fl]> h))).
  { apply (fresh_not_allocated _ r f). rewrite lookup_insert_ne by congruence. exact Hr. }
  rewrite !lookup_insert_ne by congruence. exact Hr.
Qed.

Lemma merge_steps (locations_df other_df : nat) (fl fo : DataFrame) (w : world) :
  frames w !! locations_df = Some fl →
  frames w !! other_df = Some fo →
  _merge_annotation_frames pd_join_inner pd_reset_index_rename locations_df other_df w
  = let h := copied (frames w) fl fo in
    match pd_join_inner (index_as_str fl) (index_as_str fo) with
    | Ok joined =>
        let r3 := fresh (dom h) in
        let h3 := <[r3 := joined]> h in
        let r4 := fresh (dom h3) in
        (Ok r4, set_frames (λ _, <[r4 := pd_reset_index_rename joined]> h3) w)
    | Raise e => (Raise e, set_frames (λ _, h) w)
    end.
Proof.
  intros Hl Ho.
  unfold _merge_annotation_frames, Pandas.copy, Pandas.index_astype_str, Pandas.set_index,
    Pandas.join_inner, Pandas.reset_index_rename, Pandas.alloc.
  unfold_M.
  rewrite (df_read_Some _ _ _ Hl).
  set (r1 := fresh (dom (frames w))).
  assert (Hr1o : other_df ≠ r1) by exact (fresh_not_allocated _ _ _ Ho).
  rewrite (df_read_Some other_df fo) by (cbn; rewrite lookup_insert_ne by congruence; exact Ho).
  cbn [frames set_frames].
  set (h1 := <[r1 := fl]> (frames w)).
  set (r2 := fresh (dom h1)).
  assert (Hr12 : r1 ≠ r2).
  { apply (fresh_not_allocated h1 r1 fl). unfold h1. apply lookup_insert_eq. }
  rewrite (df_read_Some r1 fl)
    by (cbn; rewrite lookup_insert_ne by congruence; apply lookup_insert_eq).
  rewrite (df_read_Some r1 fl)
    by (cbn; rewrite lookup_insert_ne by congruence; apply lookup_insert_eq).
  rewrite (df_read_Some r2 fo)
    by (cbn; rewrite lookup_insert_ne by congruence; apply lookup_insert_eq).
  rewrite (df_read_Some r2 fo)
    by (cbn; rewrite lookup_insert_ne by congruence; apply lookup_insert_eq).
  rewrite (df_read_Some r1 (index_as_str fl))
    by (cbn; rewrite lookup_insert_ne by congruence; apply lookup_insert_eq).
  rewrite (df_read_Some r2 (index_as_str fo)) by (cbn; apply lookup_insert_eq).
  cbn [frames set_frames].
  change (<[r2 := _]> (<[r1 := _]> (<[r2 := fo]> h1))) with (copied (frames w) fl fo).
  destruct (pd_join_inner (index_as_str fl) (index_as_str fo)) as [joined | e].
  - cbn zeta.
    rewrite (df_read_Some _ joined) by (cbn; apply lookup_insert_eq).
    reflexivity.
  - reflexivity.
Qed.

(** C10.  [_merge_annotation_frames] leaves the two frames it is given,
    and every other frame of the store, as they were: it works on two
    fresh copies, and the merged frame is a new object. *)
Theorem merge_annotation_frames_keeps_arguments
    (locations_df other_df : nat) (fl fo : DataFrame) (w : world) :
  frames w !! locations_df = Some fl →
  frames w !! other_df = Some fo →
  ∃ (r : result nat) (w' : world),
    _merge_annotation_frames pd_join_inner pd_reset_index_rename locations_df other_df w
    = (r, w')
    ∧ frames w' !! locations_df = Some fl
    ∧ frames w' !! other_df = Some fo
    ∧ (∀ (ref : nat) (f : DataFrame), frames w !! ref = Some f → frames w' !! ref = Some f)
    ∧ match r with
      | Ok merged =>
          frames w !! merged = None
          ∧ ∃ joined,
              pd_join_inner (index_as_str fl) (index_as_str fo) = Ok joined
              ∧ frames w' !! merged = Some (pd_reset_index_rename joined)
      | Raise e => pd_join_inner (index_as_str fl) (index_as_str fo) = Raise e
      end.
Proof.
  intros Hl Ho.
  rewrite (merge_steps _ _ _ _ _ Hl Ho).
  cbn zeta.
  destruct (pd_join_inner (index_as_str fl) (index_as_str fo)) as [joined | e].
  - set (h := copied (frames w) fl fo).
    set (r3 := fresh (dom h)).
    set (h3 := <[r3 := joined]> h).
    set (r4 := fresh (dom h3)).
    assert (Hkeep : ∀ ref f, frames w !! ref = Some f →
                             (<[r4 := pd_reset_index_rename joined]> h3) !! ref = Some f).
    { intros ref f Hr.
      pose proof (copied_keeps _ fl fo _ _ Hr) as Hc. fold h in Hc.
      assert (ref ≠ r3) by exact (fresh_not_allocated h ref f Hc).
      assert (Hh3 : h3 !! ref = Some f)
        by (unfold h3; rewrite lookup_insert_ne by congruence; exact Hc).
      assert (ref ≠ r4) by exact (fresh_not_allocated h3 ref f Hh3).
      rewrite lookup_insert_ne by congruence. exact Hh3. }
    eexists _, _. split; [reflexivity|]. cbn [frames set_frames].
    split; [apply Hkeep, Hl|]. split; [apply Hkeep, Ho|]. split; [exact Hkeep|].
    split.
    + destruct (frames w !! r4) as [f|] eqn:Hr4; [| reflexivity].
      pose proof (Hkeep r4 f Hr4) as Hk.
      pose proof (copied_keeps _ fl fo _ _ Hr4) as Hc. fold h in Hc.
      assert (r4 ≠ r3) by exact (fresh_not_allocated h r4 f Hc).
      assert (Hh3 : h3 !! r4 = Some f)
        by (unfold h3; rewrite lookup_insert_ne by congruence; exact Hc).
      exfalso. exact (fresh_not_allocated h3 r4 f Hh3 eq_refl).
    + exists joined. split; [reflexivity | apply lookup_insert_eq].
  - eexists _, _. split; [reflexivity|]. cbn [frames set_frames].
    split; [apply copied_keeps, Hl|]. split; [apply copied_keeps, Ho|].
    split; [intros ref f; apply copied_keeps | reflexivity].
Qed.

End MergeFacts.

Lemma merge_annotation_frames_keeps_arguments_witness :
  ∃ (r : result nat) (w' : world),
    AnnotationInspector._merge_annotation_frames Samples.join_left Samples.reset_same
      0%nat 1%nat Samples.w_frames
    = (r, w')
    ∧ frames w' !! 0%nat = Some Samples.locations
    ∧ frames w' !! 1%nat = Some Samples.other.
Proof.
  destruct (merge_annotation_frames_keeps_arguments Samples.join_left Samples.reset_same
              0%nat 1%nat Samples.locations Samples.other Samples.w_frames)
    as (r & w' & Hrun & Hl & Ho & _).
  - vm_compute. reflexivity.
  - vm_compute. reflexivity.
  - exists r, w'. split; [exact Hrun | split; [exact Hl | exact Ho]].
Defined.

(** ** The extraction guard *)

Section ExtractFacts.
Import AnnotationInspector.

Variable tar_decode : list Byte.byte → result (list TarInfo).
Variable cwd : string.

Lemma common_loop_comm (a b : string) :
  PosixPath.common_loop a b = PosixPath.common_loop b a.
Proof.
  revert b. induction a as [| c a IH]; intros [| d b]; simpl; try reflexivity.
  rewrite (Ascii.eqb_sym d c).
  destruct (Ascii.eqb c d) eqn:E; [| reflexivity].
  apply Ascii.eqb_eq in E. subst d. rewrite IH. reflexivity.
Qed.

(** On two strings [commonprefix] is their longest common prefix,
    whichever of them is the least. *)
Lemma commonprefix_pair (a b : string) :
  PosixPath.commonprefix [a; b] = PosixPath.common_loop a b.
Proof.
  unfold PosixPath.commonprefix. simpl.
  unfold PosixPath.str_min, PosixPath.str_max.
  destruct (PosixPath.str_le a b); [reflexivity | apply common_loop_comm].
Qed.

Lemma common_loop_startswith (d p : string) :
  String.eqb (PosixPath.common_loop d p) d = PyStr.startswith d p.
Proof.
  revert p. induction d as [| c d IH]; intros p; simpl.
  - destruct p; reflexivity.
  - destruct p as [| c' p]; [reflexivity|].
    destruct (Ascii.eqb c c') eqn:E; simpl.
    + rewrite Ascii.eqb_refl. apply IH.
    + reflexivity.
Qed.

(** What the guard checks: the absolute destination is a prefix, character
    by character, of the absolute target. *)
Lemma is_within_directory_prefix (directory target : string) :
  is_within_directory cwd directory target
  = PyStr.startswith (PosixPath.abspath cwd directory) (PosixPath.abspath cwd target).
Proof.
  unfold is_within_directory. rewrite commonprefix_pair. apply common_loop_startswith.
Qed.

Lemma check_members_accepts (extract_dir : string) (members : list TarInfo) (w : world) :
  forallb (passes cwd extract_dir) members = true →
  check_members cwd extract_dir members w = (Ok tt, w).
Proof.
  induction members as [| m members IH]; simpl; [reflexivity|].
  intros H. apply andb_prop in H as [Hm Hrest].
  rewrite is_within_directory_prefix. unfold passes in Hm. rewrite Hm. simpl.
  apply IH, Hrest.
Qed.

Lemma check_members_rejects (extract_dir : string) (members : list TarInfo) (w : world) :
  forallb (passes cwd extract_dir) members = false →
  check_members cwd extract_dir members w
  = (Raise (Exception_ "Potential path traversal detected in tar file"), w).
Proof.
  induction members as [| m members IH]; simpl; [discriminate|].
  intros H. rewrite is_within_directory_prefix. fold (passes cwd extract_dir m).
  destruct (passes cwd extract_dir m); simpl in *; [apply IH, H | reflexivity].
Qed.

(** A rejected archive leaves every file as it was. *)
Lemma safe_extract_rejects (tar_path extract_dir : string) (archive : list Byte.byte)
    (members : list TarInfo) (w : world) :
  fs w !! tar_path = Some archive →
  tar_decode archive = Ok members →
  forallb (passes cwd extract_dir) members = false →
  _safe_extract tar_decode cwd tar_path extract_dir w
  = (Raise (Exception_ "Potential path traversal detected in tar file"), w).
Proof.
  intros Hf Hd Hp. unfold _safe_extract, read_file. unfold_M.
  rewrite Hf, Hd, (check_members_rejects _ _ _ Hp). reflexivity.
Qed.

Lemma safe_extract_accepts (tar_path extract_dir : string) (archive : list Byte.byte)
    (members : list TarInfo) (w : world) :
  fs w !! tar_path = Some archive →
  tar_decode archive = Ok members →
  forallb (passes cwd extract_dir) members = true →
  _safe_extract tar_decode cwd tar_path extract_dir w
  = extractall cwd extract_dir members w.
Proof.
  intros Hf Hd Hp. unfold _safe_extract, read_file. unfold_M.
  rewrite Hf, Hd, (check_members_accepts _ _ _ Hp). reflexivity.
Qed.

End ExtractFacts.

Example safe_extract_rejects_climber :
  AnnotationInspector._safe_extract Samples.tar_with_climber "/w"
    "/data/Illumina450k_annotation.tar.gz" "/data/out" Samples.w_cached
  = (Raise (Exception_ "Potential path traversal detected in tar file"),
     Samples.w_cached).
Proof.
  apply (safe_extract_rejects _ _ _ _ Samples.one_byte
           [Samples.honest_member; Samples.climbing_member]); vm_compute; reflexivity.
Qed.

(** C1, at the input where the code departs from it.  With the
    destination "/data/out", the member named "../out_evil/x" resolves to
    "/data/out_evil/x", which is outside the destination; the guard lets
    it through, because "/data/out" is a prefix of that path character by
    character, and the member is written outside the destination. *)
Theorem safe_extract_admits_sibling_directory :
  SpecPath.inside "/data/out"
    (AnnotationInspector.extraction_target "/w" "/data/out" Samples.sibling_member) = false
  ∧ AnnotationInspector.extraction_target "/w" "/data/out" Samples.sibling_member
    = "/data/out_evil/x"
  ∧ AnnotationInspector.is_within_directory "/w" "/data/out"
      (PosixPath.join "/data/out" (ti_name Samples.sibling_member)) = true
  ∧ ∃ w',
      AnnotationInspector._safe_extract Samples.tar_with_sibling "/w"
        "/data/Illumina450k_annotation.tar.gz" "/data/out" Samples.w_cached = (Ok tt, w')
      ∧ fs w' !! "/data/out_evil/x" = Some (ti_data Samples.sibling_member).
Proof.
  split; [vm_compute; reflexivity|]. split; [vm_compute; reflexivity|].
  split; [vm_compute; reflexivity|].
  eexists. split.
  - rewrite (safe_extract_accepts _ _ _ _ Samples.one_byte
               [Samples.honest_member; Samples.sibling_member]) by (vm_compute; reflexivity).
    reflexivity.
  - vm_compute. reflexivity.
Qed.

(** * Further properties *)

(** ** Downloading the annotation archive *)

Section DownloadFacts.
Import AnnotationInspector.

Variable remote : string → Z → result Response.

(** [raise_for_status] on the two sides of the error range. *)
Lemma raise_for_status_passes (resp : Response) (w : world) :
  ((status_code resp < 400)%Z ∨ (600 <= status_code resp)%Z) →
  Requests.raise_for_status resp w = (Ok tt, w).
Proof.
  intros Hstatus. unfold Requests.raise_for_status.
  assert (Hc : ((400 <=? status_code resp) && (status_code resp <? 500))%Z = false).
  { apply andb_false_iff.
    destruct Hstatus; [left; apply Z.leb_gt | right; apply Z.ltb_ge]; lia. }
  assert (Hs : ((500 <=? status_code resp) && (status_code resp <? 600))%Z = false).
  { apply andb_false_iff.
    destruct Hstatus; [left; apply Z.leb_gt | right; apply Z.ltb_ge]; lia. }
  rewrite Hc, Hs. reflexivity.
Qed.

Lemma raise_for_status_raises (resp : Response) (w : world) :
  (400 <= status_code resp < 600)%Z →
  ∃ text, Requests.raise_for_status resp w = (Raise (OtherException "HTTPError" text), w).
Proof.
  intros Hstatus. unfold Requests.raise_for_status.
  destruct ((400 <=? status_code resp) && (status_code resp <? 500))%Z eqn:Hc.
  - eexists. reflexivity.
  - assert (Hs : ((500 <=? status_code resp) && (status_code resp <? 600))%Z = true).
    { apply andb_false_iff in Hc. apply andb_true_iff.
      destruct Hc as [Hc | Hc]; [apply Z.leb_gt in Hc | apply Z.ltb_ge in Hc];
        split; [apply Z.leb_le | apply Z.ltb_lt | apply Z.leb_le | apply Z.ltb_lt]; lia. }
    rewrite Hs. eexists. reflexivity.
Qed.

(** The world after one request for [url] was sent. *)
Lemma download_if_needed_requests (url out_path : string) (timeout : Z) (w : world) :
  fs w !! out_path = None ∨ fs w !! out_path = Some [] →
  _download_if_needed remote url out_path timeout w
  = (resp ← Requests.get remote url timeout;
     Requests.raise_for_status resp ;;
     write_file out_path (content resp)) w.
Proof.
  intros Hmiss.
  unfold _download_if_needed, os_path_exists, os_path_getsize. unfold_M.
  destruct Hmiss as [Hf | Hf].
  - rewrite bool_decide_eq_false_2 by (rewrite Hf; intros [x Hx]; discriminate).
    reflexivity.
  - rewrite bool_decide_eq_true_2 by (rewrite Hf; eauto).
    rewrite Hf. reflexivity.
Qed.

(** The world a successful download leaves. *)
Lemma download_if_needed_world (url out_path : string) (timeout : Z) (w : world)
    (resp : Response) :
  fs w !! out_path = None ∨ fs w !! out_path = Some [] →
  remote url timeout = Ok resp →
  ((status_code resp < 400)%Z ∨ (600 <= status_code resp)%Z) →
  _download_if_needed remote url out_path timeout w
  = (Ok tt, set_fs (λ f, <[out_path := content resp]> f)
              (set_net (λ n, (n ++ [url])%list) w)).
Proof.
  intros Hmiss Hresp Hstatus.
  rewrite (download_if_needed_requests _ _ _ _ Hmiss).
  unfold Requests.get, write_file. unfold_M.
  rewrite Hresp, (raise_for_status_passes resp _ Hstatus). reflexivity.
Qed.

(** X1.  With no file at the target path, or an empty one, and a reply
    whose status is not an error, [_download_if_needed] sends one request
    for the URL and writes the body at the target path; every other file
    is as before. *)
Theorem download_if_needed_fetches (url out_path : string) (timeout : Z) (w : world)
    (resp : Response) :
  fs w !! out_path = None ∨ fs w !! out_path = Some [] →
  remote url timeout = Ok resp →
  ((status_code resp < 400)%Z ∨ (600 <= status_code resp)%Z) →
  ∃ w',
    _download_if_needed remote url out_path timeout w = (Ok tt, w')
    ∧ net w' = (net w ++ [url])%list
    ∧ fs w' !! out_path = Some (content resp)
    ∧ (∀ p, p ≠ out_path → fs w' !! p = fs w !! p).
Proof.
  intros Hmiss Hresp Hstatus.
  rewrite (download_if_needed_world _ _ _ _ _ Hmiss Hresp Hstatus).
  eexists. split; [reflexivity|].
  cbn [net fs set_fs set_net]. split; [reflexivity|]. split.
  - apply lookup_insert_eq.
  - intros p Hp. apply lookup_insert_ne. congruence.
Qed.

(** X2.  A download that fails, by a connection error or by a reply with
    an error status, raises after the request was sent and writes no
    file. *)
Theorem download_if_needed_failure_writes_nothing (url out_path : string) (timeout : Z)
    (w : world) :
  fs w !! out_path = None ∨ fs w !! out_path = Some [] →
  match remote url timeout with
  | Raise e => True
  | Ok resp => (400 <= status_code resp < 600)%Z
  end →
  ∃ e w',
    _download_if_needed remote url out_path timeout w = (Raise e, w')
    ∧ net w' = (net w ++ [url])%list
    ∧ fs w' = fs w
    ∧ match remote url timeout with
      | Raise e' => e = e'
      | Ok resp => ∃ m, e = OtherException "HTTPError" m
      end.
Proof.
  intros Hmiss Hfail.
  rewrite (download_if_needed_requests _ _ _ _ Hmiss).
  unfold Requests.get, write_file. unfold_M.
  destruct (remote url timeout) as [resp | e].
  - destruct (raise_for_status_raises resp (set_net (λ n, (n ++ [url])%list) w) Hfail)
      as [text Hraise].
    rewrite Hraise. eexists _, _. repeat split; try reflexivity. eexists. reflexivity.
  - eexists _, _. repeat split; reflexivity.
Qed.

(** X3.  After a download that wrote a non-empty body, a second call
    changes nothing and sends nothing; after one that wrote an empty
    body, the second call sends the request again. *)
Theorem download_if_needed_rerun (url out_path : string) (timeout : Z) (w w1 : world)
    (resp : Response) :
  fs w !! out_path = None ∨ fs w !! out_path = Some [] →
  remote url timeout = Ok resp →
  ((status_code resp < 400)%Z ∨ (600 <= status_code resp)%Z) →
  _download_if_needed remote url out_path timeout w = (Ok tt, w1) →
  (content resp ≠ [] →
   _download_if_needed remote url out_path timeout w1 = (Ok tt, w1))
  ∧ (content resp = [] →
     ∃ w2, _download_if_needed remote url out_path timeout w1 = (Ok tt, w2)
           ∧ net w2 = (net w ++ [url; url])%list).
Proof.
  intros Hmiss Hresp Hstatus Hrun.
  rewrite (download_if_needed_world _ _ _ _ _ Hmiss Hresp Hstatus) in Hrun.
  injection Hrun as <-.
  assert (Hfile : fs (set_fs (λ f, <[out_path := content resp]> f)
                        (set_net (λ n, (n ++ [url])%list) w)) !! out_path
                  = Some (content resp)) by apply lookup_insert_eq.
  split.
  - intros Hne. apply (download_if_needed_cached remote _ _ _ _ (content resp) Hfile).
    destruct (content resp); [contradiction | simpl; lia].
  - intros Hempty. rewrite Hempty in Hfile |- *.
    rewrite (download_if_needed_world _ _ _ _ _ (or_intror Hfile) Hresp Hstatus).
    eexists. split; [reflexivity|].
    cbn [net set_fs set_net]. rewrite <- app_assoc. reflexivity.
Qed.

End DownloadFacts.

Lemma download_if_needed_fetches_witness :
  ∃ w',
    AnnotationInspector._download_if_needed MoreSamples.remote_ok MoreSamples.anno_url
      MoreSamples.anno_path 60 Samples.w0 = (Ok tt, w')
    ∧ net w' = [MoreSamples.anno_url]
    ∧ fs w' !! MoreSamples.anno_path = Some [Byte.x1f; Byte.x8b].
Proof.
  destruct (download_if_needed_fetches MoreSamples.remote_ok MoreSamples.anno_url
              MoreSamples.anno_path 60 Samples.w0
              {| status_code := 200; reason := "OK"; response_url := MoreSamples.anno_url;
                 content := [Byte.x1f; Byte.x8b] |})
    as (w' & Hrun & Hnet & Hfile & _).
  - left. vm_compute. reflexivity.
  - reflexivity.
  - left. simpl. lia.
  - exists w'. split; [exact Hrun | split; [exact Hnet | exact Hfile]].
Defined.

Lemma download_if_needed_failure_writes_nothing_witness :
  ∃ e w',
    AnnotationInspector._download_if_needed MoreSamples.remote_404 MoreSamples.anno_url
      MoreSamples.anno_path 60 Samples.w0 = (Raise e, w')
    ∧ fs w' = fs Samples.w0
    ∧ ∃ m, e = OtherException "HTTPError" m.
Proof.
  destruct (download_if_needed_failure_writes_nothing MoreSamples.remote_404
              MoreSamples.anno_url MoreSamples.anno_path 60 Samples.w0)
    as (e & w' & Hrun & _ & Hfs & He).
  - left. vm_compute. reflexivity.
  - simpl. lia.
  - exists e, w'. split; [exact Hrun | split; [exact Hfs | exact He]].
Defined.

Lemma download_if_needed_rerun_witness :
  AnnotationInspector._download_if_needed MoreSamples.remote_ok MoreSamples.anno_url
    MoreSamples.anno_path 60
    (snd (AnnotationInspector._download_if_needed MoreSamples.remote_ok
            MoreSamples.anno_url MoreSamples.anno_path 60 Samples.w0))
  = (Ok tt,
     snd (AnnotationInspector._download_if_needed MoreSamples.remote_ok
            MoreSamples.anno_url MoreSamples.anno_path 60 Samples.w0)).
Proof.
  apply (download_if_needed_rerun MoreSamples.remote_ok MoreSamples.anno_url
           MoreSamples.anno_path 60 Samples.w0 _
           {| status_code := 200; reason := "OK"; response_url := MoreSamples.anno_url;
                 content := [Byte.x1f; Byte.x8b] |}).
  - left. vm_compute. reflexivity.
  - reflexivity.
  - left. simpl. lia.
  - reflexivity.
  - discriminate.
Defined.

(** ** Extraction *)

Section ExtractionFacts.
Import AnnotationInspector.

Variable tar_decode : list Byte.byte → result (list TarInfo).
Variable cwd : string.

(** X4.  One member that fails the guard, wherever it stands in the
    archive, makes [_safe_extract] raise before anything is written: the
    members listed before it are not extracted either. *)
Theorem safe_extract_all_or_nothing (tar_path extract_dir : string)
    (archive : list Byte.byte) (members : list TarInfo) (bad : TarInfo) (w : world) :
  fs w !! tar_path = Some archive →
  tar_decode archive = Ok members →
  In bad members →
  is_within_directory cwd extract_dir (PosixPath.join extract_dir (ti_name bad)) = false →
  _safe_extract tar_decode cwd tar_path extract_dir w
  = (Raise (Exception_ "Potential path traversal detected in tar file"), w).
Proof.
  intros Hf Hd Hin Hbad.
  apply (safe_extract_rejects _ _ _ _ archive members w Hf Hd).
  destruct (forallb (passes cwd extract_dir) members) eqn:Hp; [| reflexivity].
  rewrite forallb_forall in Hp. specialize (Hp bad Hin).
  unfold passes in Hp. rewrite <- is_within_directory_prefix in Hp. congruence.
Qed.

End ExtractionFacts.

Lemma safe_extract_all_or_nothing_witness :
  AnnotationInspector._safe_extract Samples.tar_with_climber "/w" MoreSamples.anno_path
    "/data/out" Samples.w_cached
  = (Raise (Exception_ "Potential path traversal detected in tar file"), Samples.w_cached).
Proof.
  apply (safe_extract_all_or_nothing Samples.tar_with_climber "/w" MoreSamples.anno_path
           "/data/out" Samples.one_byte [Samples.honest_member; Samples.climbing_member]
           Samples.climbing_member Samples.w_cached).
  - vm_compute. reflexivity.
  - reflexivity.
  - right. left. reflexivity.
  - vm_compute. reflexivity.
Defined.

(** ** Locating the two data files *)

Section DiscoverFacts.
Import AnnotationScript.

Variable os_walk : string → M (list (string * list string * list string)).

Lemma join_nonempty (a b : string) : b ≠ "" → PosixPath.join a b ≠ "".
Proof.
  intros Hb. unfold PosixPath.join.
  destruct (PyStr.startswith "/" b); [exact Hb|].
  destruct (String.eqb a "" || PyStr.endswith "/" a).
  - destruct a; simpl; [exact Hb | discriminate].
  - destruct a; simpl; discriminate.
Qed.

Lemma lower_nonempty (fn target : string) :
  PyStr.lower fn = target → target ≠ "" → fn ≠ "".
Proof. intros <- H ->. apply H. reflexivity. Qed.

Lemma found_join (dirpath fn target : string) :
  PyStr.lower fn = target → target ≠ "" →
  found (Some (PosixPath.join dirpath fn)) = true.
Proof.
  intros Hl Ht. simpl. apply negb_true_iff, String.eqb_neq, join_nonempty.
  exact (lower_nonempty _ _ Hl Ht).
Qed.

(** What one directory adds to the candidates. *)
Lemma scan_files_spec (dirpath : string) (filenames : list string)
    (cands : option string * option string) :
  let cands' := scan_files dirpath filenames cands in
  (∀ l, fst cands' = Some l →
        fst cands = Some l
        ∨ ∃ fn, In fn filenames ∧ PyStr.lower fn = "locations.rda"
                ∧ l = PosixPath.join dirpath fn)
  ∧ (∀ o, snd cands' = Some o →
          snd cands = Some o
          ∨ ∃ fn, In fn filenames ∧ PyStr.lower fn = "other.rda"
                  ∧ o = PosixPath.join dirpath fn)
  ∧ (found (fst cands) = true
     ∨ (∃ fn, In fn filenames ∧ PyStr.lower fn = "locations.rda") →
     found (fst cands') = true)
  ∧ (found (snd cands) = true
     ∨ (∃ fn, In fn filenames ∧ PyStr.lower fn = "other.rda") →
     found (snd cands') = true).
Proof.
  revert cands. induction filenames as [| fn rest IH]; intros [cl co]; cbn zeta.
  - simpl. repeat split; intros; eauto.
    + destruct H as [H | (fn & [] & _)]; exact H.
    + destruct H as [H | (fn & [] & _)]; exact H.
  - simpl scan_files.
    destruct (String.eqb (PyStr.lower fn) "locations.rda") eqn:El;
      [| destruct (String.eqb (PyStr.lower fn) "other.rda") eqn:Eo].
    + apply String.eqb_eq in El.
      destruct (IH (Some (PosixPath.join dirpath fn), co)) as (S1 & S2 & C1 & C2).
      cbn zeta in *. cbn [fst snd] in *. repeat split.
      * intros l Hl. destruct (S1 l Hl) as [[= <-] | (fn' & Hin & Hlow & ->)].
        -- right. exists fn. repeat split; [left; reflexivity | exact El].
        -- right. exists fn'. repeat split; [right; exact Hin | exact Hlow].
      * intros o Ho. destruct (S2 o Ho) as [H | (fn' & Hin & Hlow & ->)]; [left; exact H|].
        right. exists fn'. repeat split; [right; exact Hin | exact Hlow].
      * intros _. apply C1. left. apply (found_join _ _ _ El). discriminate.
      * intros [H | (fn' & [<- | Hin] & Hlow)].
        -- apply C2. left. exact H.
        -- rewrite El in Hlow. discriminate.
        -- apply C2. right. exists fn'. split; assumption.
    + apply String.eqb_eq in Eo. apply String.eqb_neq in El.
      destruct (IH (cl, Some (PosixPath.join dirpath fn))) as (S1 & S2 & C1 & C2).
      cbn zeta in *. cbn [fst snd] in *. repeat split.
      * intros l Hl. destruct (S1 l Hl) as [H | (fn' & Hin & Hlow & ->)]; [left; exact H|].
        right. exists fn'. repeat split; [right; exact Hin | exact Hlow].
      * intros o Ho. destruct (S2 o Ho) as [[= <-] | (fn' & Hin & Hlow & ->)].
        -- right. exists fn. repeat split; [left; reflexivity | exact Eo].
        -- right. exists fn'. repeat split; [right; exact Hin | exact Hlow].
      * intros [H | (fn' & [<- | Hin] & Hlow)].
        -- apply C1. left. exact H.
        -- contradiction.
        -- apply C1. right. exists fn'. split; assumption.
      * intros _. apply C2. left. apply (found_join _ _ _ Eo). discriminate.
    + apply String.eqb_neq in Eo. apply String.eqb_neq in El.
      destruct (IH (cl, co)) as (S1 & S2 & C1 & C2).
      cbn zeta in *. cbn [fst snd] in *. repeat split.
      * intros l Hl. destruct (S1 l Hl) as [H | (fn' & Hin & Hlow & ->)]; [left; exact H|].
        right. exists fn'. repeat split; [right; exact Hin | exact Hlow].
      * intros o Ho. destruct (S2 o Ho) as [H | (fn' & Hin & Hlow & ->)]; [left; exact H|].
        right. exists fn'. repeat split; [right; exact Hin | exact Hlow].
      * intros [H | (fn' & [<- | Hin] & Hlow)].
        -- apply C1. left. exact H.
        -- contradiction.
        -- apply C1. right. exists fn'. split; assumption.
      * intros [H | (fn' & [<- | Hin] & Hlow)].
        -- apply C2. left. exact H.
        -- contradiction.
        -- apply C2. right. exists fn'. split; assumption.
Qed.

Lemma found_Some (cand : option string) :
  found cand = true → ∃ s, cand = Some s.
Proof. destruct cand; [eauto | discriminate]. Qed.

(** What the whole walk adds to the candidates. *)
Lemma scan_walk_spec (walk : list (string * list string * list string))
    (cands : option string * option string) :
  let final := scan_walk walk cands in
  (∀ l, fst final = Some l → fst cands = Some l ∨ named walk "locations.rda" l)
  ∧ (∀ o, snd final = Some o → snd cands = Some o ∨ named walk "other.rda" o)
  ∧ ((found (fst cands) = true ∨ ∃ p, named walk "locations.rda" p) →
     (found (snd cands) = true ∨ ∃ p, named walk "other.rda" p) →
     found (fst final) && found (snd final) = true).
Proof.
  revert cands. induction walk as [| [[dirpath dirs] filenames] rest IH]; intros cands;
    cbn zeta.
  - simpl. repeat split; intros; eauto.
    destruct H as [H | (p & d & ds & fs & fn & [] & _)].
    destruct H0 as [H0 | (p & d & ds & fs & fn & [] & _)].
    rewrite H, H0. reflexivity.
  - simpl scan_walk.
    destruct (scan_files_spec dirpath filenames cands) as (S1 & S2 & C1 & C2).
    cbn zeta in *.
    set (cands' := scan_files dirpath filenames cands) in *.
    assert (Hhere : ∀ target fn, In fn filenames → PyStr.lower fn = target →
                                 named ((dirpath, dirs, filenames) :: rest) target
                                   (PosixPath.join dirpath fn)).
    { intros target fn Hin Hlow. exists dirpath, dirs, filenames, fn.
      repeat split; [left; reflexivity | exact Hin | exact Hlow]. }
    assert (Hlater : ∀ target p, named rest target p →
                                 named ((dirpath, dirs, filenames) :: rest) target p).
    { intros target p (d & ds & fs & fn & Hin & Hfn & Hlow & ->).
      exists d, ds, fs, fn. repeat split; [right; exact Hin | exact Hfn | exact Hlow]. }
    destruct (found (fst cands') && found (snd cands')) eqn:Hboth.
    + repeat split.
      * intros l Hl. destruct (S1 l Hl) as [H | (fn & Hin & Hlow & ->)]; [left; exact H|].
        right. apply Hhere; assumption.
      * intros o Ho. destruct (S2 o Ho) as [H | (fn & Hin & Hlow & ->)]; [left; exact H|].
        right. apply Hhere; assumption.
      * intros _ _. exact Hboth.
    + destruct (IH cands') as (R1 & R2 & R3). cbn zeta in *. repeat split.
      * intros l Hl. destruct (R1 l Hl) as [H | H]; [| right; apply Hlater, H].
        destruct (S1 l H) as [H' | (fn & Hin & Hlow & ->)]; [left; exact H'|].
        right. apply Hhere; assumption.
      * intros o Ho. destruct (R2 o Ho) as [H | H]; [| right; apply Hlater, H].
        destruct (S2 o H) as [H' | (fn & Hin & Hlow & ->)]; [left; exact H'|].
        right. apply Hhere; assumption.
      * intros Hl Ho. apply R3.
        -- destruct Hl as [H | (p & d & ds & fs & fn & [Hin | Hin] & Hfn & Hlow & ->)].
           ++ left. apply C1. left. exact H.
           ++ injection Hin as <- <- <-. left. apply C1. right. exists fn. split; assumption.
           ++ right. exists (PosixPath.join d fn), d, ds, fs, fn. repeat split; assumption.
        -- destruct Ho as [H | (p & d & ds & fs & fn & [Hin | Hin] & Hfn & Hlow & ->)].
           ++ left. apply C2. left. exact H.
           ++ injection Hin as <- <- <-. left. apply C2. right. exists fn. split; assumption.
           ++ right. exists (PosixPath.join d fn), d, ds, fs, fn. repeat split; assumption.
Qed.

(** X7.  [_discover_rda] returns the paths of a file named
    [locations.rda] and of a file named [other.rda], whatever the case of
    the letters of their names, when the walk below the root has both;
    when one of them is missing it raises [FileNotFoundError]. *)
Theorem discover_rda_finds_both_or_raises (root : string) (w w1 : world)
    (walk : list (string * list string * list string)) :
  os_walk root w = (Ok walk, w1) →
  ((∃ p, named walk "locations.rda" p) → (∃ p, named walk "other.rda" p) →
   ∃ loc oth,
     _discover_rda os_walk root w = (Ok (loc, oth), w1)
     ∧ named walk "locations.rda" loc ∧ named walk "other.rda" oth)
  ∧ (¬ (∃ p, named walk "locations.rda" p) ∨ ¬ (∃ p, named walk "other.rda" p) →
     _discover_rda os_walk root w
     = (Raise (FileNotFoundError
                 "Could not locate Locations.rda and Other.rda in extracted archive."),
        w1)).
Proof.
  intros Hwalk.
  destruct (scan_walk_spec walk (None, None)) as (S1 & S2 & C).
  cbn zeta in *. cbn [fst snd] in *.
  unfold _discover_rda. unfold_M. rewrite Hwalk.
  destruct (scan_walk walk (None, None)) as [cand_loc cand_other] eqn:Hscan.
  cbn [fst snd] in *. split.
  - intros Hl Ho. rewrite (C (or_intror Hl) (or_intror Ho)). simpl negb. cbn iota.
    pose proof (C (or_intror Hl) (or_intror Ho)) as Hboth.
    apply andb_true_iff in Hboth as [Hfl Hfo].
    destruct (found_Some _ Hfl) as [l ->]. destruct (found_Some _ Hfo) as [o ->].
    exists l, o. split; [reflexivity|]. split.
    + destruct (S1 l eq_refl) as [H | H]; [discriminate | exact H].
    + destruct (S2 o eq_refl) as [H | H]; [discriminate | exact H].
  - intros Hmissing.
    destruct (found cand_loc && found cand_other) eqn:Hboth; [| reflexivity].
    exfalso. apply andb_true_iff in Hboth as [Hfl Hfo].
    destruct (found_Some _ Hfl) as [l ->]. destruct (found_Some _ Hfo) as [o ->].
    destruct Hmissing as [Hno | Hno]; apply Hno.
    + exists l. destruct (S1 l eq_refl) as [H | H]; [discriminate | exact H].
    + exists o. destruct (S2 o eq_refl) as [H | H]; [discriminate | exact H].
Qed.

End DiscoverFacts.

Lemma discover_rda_finds_both_or_raises_witness :
  ∃ loc oth,
    AnnotationScript._discover_rda MoreSamples.os_walk_pkg "/data/out" Samples.w0
    = (Ok (loc, oth), Samples.w0)
    ∧ named MoreSamples.walk_pkg "locations.rda" loc
    ∧ named MoreSamples.walk_pkg "other.rda" oth.
Proof.
  apply (discover_rda_finds_both_or_raises MoreSamples.os_walk_pkg "/data/out" Samples.w0
           Samples.w0 MoreSamples.walk_pkg eq_refl).
  - exists "/data/out/pkg/data/Locations.rda", "/data/out/pkg/data", [],
      ["Locations.rda"; "Islands.UCSC.rda"; "OTHER.RDA"], "Locations.rda".
    repeat split. right. right. left. reflexivity. left. reflexivity.
  - exists "/data/out/pkg/data/OTHER.RDA", "/data/out/pkg/data", [],
      ["Locations.rda"; "Islands.UCSC.rda"; "OTHER.RDA"], "OTHER.RDA".
    repeat split. right. right. left. reflexivity. right. right. left. reflexivity.
Defined.

(** ** Inspecting one sample *)

Section InspectFacts.
Import GeoScript.

Variable data_dir results_dir geo : string.

Let self := GeoDatasetFetcher.__init__ data_dir results_dir geo FileLogger.

Lemma nth_error_is_lookup {A : Type} (l : list A) (j : nat) :
  List.nth_error l j = l !! j.
Proof.
  revert j. induction l as [| x l IH]; intros [| j]; simpl; try reflexivity. apply IH.
Qed.

Lemma lookup_map {A B : Type} (f : A → B) (l : list A) (j : nat) :
  List.map f l !! j = f <$> l !! j.
Proof.
  revert j. induction l as [| x l IH]; intros [| j]; simpl; try reflexivity. apply IH.
Qed.

Lemma py_getitem_in_range {A : Type} (l : list A) (i : Z) (x : A) :
  (Z.of_nat (List.length l) <= 2 ^ 63)%Z →
  (- Z.of_nat (List.length l) <= i < Z.of_nat (List.length l))%Z →
  l !! Z.to_nat (position (Z.of_nat (List.length l)) i) = Some x →
  py_getitem l i = Ok x.
Proof.
  intros Hlen Hi Hx. unfold py_getitem, position in *.
  set (n := Z.of_nat (List.length l)) in *.
  assert (Hfit : ((i <? - 2 ^ 63) || (2 ^ 63 <=? i))%Z = false).
  { apply orb_false_iff. split; [apply Z.ltb_ge | apply Z.leb_gt]; lia. }
  rewrite Hfit.
  set (j := if (i <? 0)%Z then (n + i)%Z else i) in *.
  assert (Hj : (0 <= j < n)%Z) by (unfold j; destruct (Z.ltb_spec i 0); lia).
  assert (Hb : ((0 <=? j) && (j <? n))%Z = true)
    by (apply andb_true_iff; split; [apply Z.leb_le | apply Z.ltb_lt]; lia).
  rewrite Hb. rewrite nth_error_is_lookup, Hx. reflexivity.
Qed.

Lemma py_getitem_out_of_range {A : Type} (l : list A) (i : Z) :
  (i < - Z.of_nat (List.length l) ∨ Z.of_nat (List.length l) <= i)%Z →
  ∃ text, py_getitem l i = Raise (OtherException "IndexError" text).
Proof.
  intros Hi. unfold py_getitem.
  destruct ((i <? - 2 ^ 63) || (2 ^ 63 <=? i))%Z; [eexists; reflexivity|].
  set (n := Z.of_nat (List.length l)) in *.
  assert (Hb : ((0 <=? (if (i <? 0)%Z then (n + i)%Z else i))
                && ((if (i <? 0)%Z then (n + i)%Z else i) <? n))%Z = false).
  { apply andb_false_iff. destruct (Z.ltb_spec i 0).
    - left. apply Z.leb_gt. lia.
    - right. apply Z.ltb_ge. lia. }
  rewrite Hb. eexists. reflexivity.
Qed.

Lemma dict_get_keys {V : Type} (d : list (string * V)) (k : string) :
  In k (PyDict.keys d) → ∃ v, PyDict.get k d = Some v.
Proof.
  induction d as [| [k' v'] d IH]; simpl; [tauto|].
  intros [-> | Hin].
  - rewrite String.eqb_refl. eauto.
  - destruct (String.eqb k' k); eauto.
Qed.

(** In a dictionary, whose keys are distinct, the value under the key of
    an entry is the value of that entry. *)
Lemma dict_get_lookup {V : Type} (d : list (string * V)) (j : nat) (k : string) (v : V) :
  List.NoDup (PyDict.keys d) → d !! j = Some (k, v) → PyDict.get k d = Some v.
Proof.
  revert j. induction d as [| [k' v'] d IH]; intros j Hnd Hj; [discriminate|].
  simpl in Hnd. inversion Hnd as [| ? ? Hnotin Hnd']; subst.
  destruct j as [| j]; simpl in *.
  - injection Hj as -> ->. rewrite String.eqb_refl. reflexivity.
  - destruct (String.eqb k' k) eqn:E.
    + apply String.eqb_eq in E. subst k'. exfalso. apply Hnotin.
      apply (in_map fst _ (k, v)). apply list_elem_of_In, list_elem_of_lookup. eauto.
    + exact (IH j Hnd' Hj).
Qed.

Lemma log_metadata_FileLogger (metadata : list (string * list string))
    (keys : list string) (w : world) :
  (∀ k, In k keys → In k (PyDict.keys metadata)) →
  log_metadata FileLogger metadata keys w
  = (Ok tt, log_append (List.map (metadata_line metadata) keys) w).
Proof.
  revert w. induction keys as [| key keys IH]; intros w Hin.
  - simpl. rewrite log_append_nil. reflexivity.
  - simpl. unfold py_dict_getitem, metadata_line at 1. unfold_M.
    destruct (dict_get_keys metadata key (Hin key (or_introl eq_refl))) as [v Hv].
    rewrite Hv. cbn beta iota.
    rewrite IH by (intros k Hk; apply Hin; right; exact Hk).
    change (set_log_records _ w)
      with (log_append [info ("  " +:+ key +:+ ": " +:+ repr_list v)] w).
    rewrite log_append_app. reflexivity.
Qed.

(** X8.  [inspect_sample] with an index outside the samples, on either
    side, raises [IndexError] and logs nothing. *)
Theorem inspect_sample_out_of_range (gse : pyobj) (gsms : list (string * GSM))
    (sample_index : Z) (w : world) :
  obj_gsms gse = Some gsms →
  (sample_index < - Z.of_nat (List.length gsms)
   ∨ Z.of_nat (List.length gsms) <= sample_index)%Z →
  ∃ text,
    inspect_sample self gse sample_index w = (Raise (OtherException "IndexError" text), w).
Proof.
  intros Hg Hi. unfold inspect_sample, getattr_gsms. rewrite Hg. unfold_M.
  destruct (py_getitem_out_of_range (PyDict.keys gsms) sample_index) as [text Hraise].
  - unfold PyDict.keys. rewrite length_map. exact Hi.
  - rewrite Hraise. eexists. reflexivity.
Qed.

(** X9.  [inspect_sample] with an index inside the samples, counted from
    the end when it is negative, logs the identifier of that sample, then
    at most five lines with its first metadata fields, each value written
    as the list of the [repr] of its ASCII strings, then an empty line,
    and nothing else happens. *)
Theorem inspect_sample_logs (gse : pyobj) (gsms : list (string * GSM))
    (sample_index : Z) (sid : string) (gsm : GSM) (w : world) :
  obj_gsms gse = Some gsms →
  List.NoDup (PyDict.keys gsms) →
  (Z.of_nat (List.length gsms) <= 2 ^ 63)%Z →
  (- Z.of_nat (List.length gsms) <= sample_index < Z.of_nat (List.length gsms))%Z →
  gsms !! Z.to_nat (position (Z.of_nat (List.length gsms)) sample_index) = Some (sid, gsm) →
  (∀ key value,
     In key (List.firstn 5 (PyDict.keys (gsm_metadata gsm))) →
     PyDict.get key (gsm_metadata gsm) = Some value →
     Forall (λ s, PyStr.is_ascii s = true) value) →
  inspect_sample self gse sample_index w
  = (Ok tt,
     log_append
       (info ("🔬 Sample " +:+ PyStr.str_of_int sample_index +:+ ": " +:+ sid)
        :: List.map (metadata_line (gsm_metadata gsm))
             (List.firstn 5 (PyDict.keys (gsm_metadata gsm)))
        ++ [info ""])
       w).
Proof.
  intros Hg Hnd Hlen Hi Hj _. unfold inspect_sample, getattr_gsms. rewrite Hg.
  change (log (GeoDatasetFetcher.logger self)) with logging_info.
  change (GeoDatasetFetcher.logger self) with FileLogger.
  unfold_M.
  rewrite (py_getitem_in_range (PyDict.keys gsms) sample_index sid).
  - unfold py_dict_getitem. rewrite (dict_get_lookup gsms _ sid gsm Hnd Hj). cbn beta iota.
    rewrite log_metadata_FileLogger
      by (intros k Hk; apply list_elem_of_In; apply list_elem_of_In in Hk;
          exact (subseteq_take 5 _ k Hk)).
    cbn beta iota.
    match goal with
    | |- context [log_append ?l (set_log_records ?f w)] =>
        change (set_log_records f w)
          with (log_append [info ("🔬 Sample " +:+ PyStr.str_of_int sample_index
                                  +:+ ": " +:+ sid)] w)
    end.
    rewrite log_append_app.
    match goal with
    | |- context [set_log_records ?f (log_append ?l w)] =>
        change (set_log_records f (log_append l w))
          with (log_append [info ""] (log_append l w))
    end.
    rewrite log_append_app. reflexivity.
  - unfold PyDict.keys. rewrite length_map. exact Hlen.
  - unfold PyDict.keys. rewrite length_map. exact Hi.
  - unfold PyDict.keys. rewrite length_map, lookup_map, Hj. reflexivity.
Qed.

End InspectFacts.

Lemma inspect_sample_out_of_range_witness :
  ∃ text,
    GeoScript.inspect_sample
      (GeoDatasetFetcher.__init__ "/data" "/results" "GSE40279" FileLogger)
      Samples.gse (2 ^ 63) Samples.w0
    = (Raise (OtherException "IndexError" text), Samples.w0).
Proof.
  apply (inspect_sample_out_of_range "/data" "/results" "GSE40279" Samples.gse
           Samples.gsms (2 ^ 63) Samples.w0 eq_refl).
  right. simpl. lia.
Defined.

Lemma inspect_sample_logs_witness :
  GeoScript.inspect_sample
    (GeoDatasetFetcher.__init__ "/data" "/results" "GSE40279" FileLogger)
    MoreSamples.gse_quoted (-1) Samples.w0
  = (Ok tt,
     log_append
       [info "🔬 Sample -1: GSM4";
        info ("  title: [" +:+ String PyStr.dquote "Alzheimer's disease"
              +:+ String PyStr.dquote ", 'whole blood']");
        info "  source_name_ch1: ['a\\b']";
        info ""]
       Samples.w0).
Proof.
  apply (inspect_sample_logs "/data" "/results" "GSE40279" MoreSamples.gse_quoted
           MoreSamples.gsms_quoted (-1) "GSM4" MoreSamples.gsm_quoted Samples.w0 eq_refl).
  - simpl. repeat constructor; simpl; intuition discriminate.
  - simpl. lia.
  - simpl. lia.
  - reflexivity.
  - intros key value Hkey Hget.
    destruct Hkey as [<- | [<- | []]]; injection Hget as <-; repeat constructor.
Defined.

(** ** Durations of a day and more *)

Section LongDurationFacts.
Import PyStr PyFloat Timedelta.
Local Open Scope Z_scope.

Lemma append_assoc (a b c : string) : (a +:+ b) +:+ c = a +:+ (b +:+ c).
Proof.
  induction a as [| x a IH]; [reflexivity|].
  change (String x ((a +:+ b) +:+ c) = String x (a +:+ (b +:+ c))).
  f_equal. exact IH.
Qed.

(** X10.  [format_duration] writes the rounded number of seconds as the
    whole days, when there are any, followed by " day, " or " days, ",
    and then the rest as H:MM:SS with the hours below 24; a negative
    duration has a negative day count and a non-negative rest.  Beyond
    999999999 days in magnitude it raises [OverflowError]. *)
Theorem format_duration_days (s : Q) :
  let r := py_round s in
  let d := r / 86400 in
  let rest := r mod 86400 in
  (0 <= rest / 3600 < 24 ∧ 0 <= rest / 60 mod 60 < 60 ∧ 0 <= rest mod 60 < 60
   ∧ r = 86400 * d + 3600 * (rest / 3600) + 60 * (rest / 60 mod 60) + rest mod 60)
  ∧ (Z.abs d <= 999999999 →
     format_duration s
     = Ok (day_prefix d +:+ H_MM_SS (rest / 3600) (rest / 60 mod 60) (rest mod 60)))
  ∧ (999999999 < Z.abs d → ∃ msg, format_duration s = Raise (OverflowError msg)).
Proof.
  intros r d rest.
  assert (Hrest : 0 <= rest < 86400) by (apply Z.mod_pos_bound; lia).
  pose proof (Z.mod_pos_bound (rest / 60) 60 ltac:(lia)) as Hm.
  pose proof (Z.mod_pos_bound rest 60 ltac:(lia)) as Hs.
  split; [| split].
  - assert (0 <= rest / 3600 < 24)
      by (split; [apply Z.div_pos; lia | apply Z.div_lt_upper_bound; lia]).
    pose proof (Z.div_mod r 86400 ltac:(lia)) as H1.
    pose proof (Z.div_mod rest 60 ltac:(lia)) as H2.
    pose proof (Z.div_mod (rest / 60) 60 ltac:(lia)) as H3.
    rewrite Z.div_div in H3 by lia. change (60 * 60) with 3600 in H3.
    fold d rest in H1. lia.
  - intros Hd. unfold format_duration, timedelta_of_seconds. fold r. fold d. fold rest.
    assert (Hgt : (Z.abs d >? 999999999) = false) by (rewrite Z.gtb_ltb; apply Z.ltb_ge; lia).
    rewrite Hgt. f_equal. unfold timedelta_str, H_MM_SS, day_prefix. cbn [td_days td_seconds td_microseconds].
    rewrite !pad2_two_digits by lia. rewrite Z.div_div by lia. change (60 * 60) with 3600.
    change (0 =? 0) with true. cbn iota.
    destruct (d =? 0); [reflexivity|].
    destruct (Z.abs d =? 1); rewrite !append_assoc; reflexivity.
  - intros Hd. unfold format_duration, timedelta_of_seconds. fold r. fold d.
    assert (Hgt : (Z.abs d >? 999999999) = true) by (rewrite Z.gtb_ltb; apply Z.ltb_lt; lia).
    rewrite Hgt. eauto.
Qed.

End LongDurationFacts.

Lemma format_duration_days_witness :
  format_duration (1728005 # 10) = Ok "2 days, 0:00:00"
  ∧ format_duration (-1) = Ok "-1 day, 23:59:59"
  ∧ ∃ msg, format_duration 86400000000000 = Raise (OverflowError msg).
Proof.
  split; [| split].
  - rewrite (proj1 (proj2 (format_duration_days (1728005 # 10)))) by (vm_compute; discriminate).
    vm_compute. reflexivity.
  - rewrite (proj1 (proj2 (format_duration_days (-1)))) by (vm_compute; discriminate).
    vm_compute. reflexivity.
  - apply (proj2 (proj2 (format_duration_days 86400000000000))). vm_compute. reflexivity.
Defined.

(** ** The parsed-object cache of the GEO script *)

Section CacheRoundTrip.
Import GeoDatasetFetcher.

Variable data_dir results_dir : string.
Variable GEOparse_parse : list (string * string) → M pyobj.
Variable joblib_decode : list Byte.byte → result pyobj.
Variable joblib_encode : pyobj → list Byte.byte.
Variable geo : string.

Let self := __init__ data_dir results_dir geo FileLogger.

Lemma load_hit (w : world) (obj : pyobj) (s : string * GSM) (rest : list (string * GSM)) :
  fst (joblib_load joblib_decode (gse_object_path self) w) = Ok obj →
  obj_gsms obj = Some (s :: rest) →
  load_or_parse_gse GEOparse_parse joblib_decode joblib_encode self w
  = (Ok obj, log_append [attempt_record; hit_record (S (List.length rest))] w).
Proof.
  intros Hload Hobj.
  pose proof (joblib_load_log joblib_decode (gse_object_path self) [attempt_record] w) as Hl.
  rewrite Hload in Hl.
  unfold load_or_parse_gse, load_cached.
  change (log (logger self)) with logging_info. unfold_M.
  change (set_log_records _ w) with (log_append [attempt_record] w) at 1.
  rewrite Hl. cbn beta iota.
  unfold hasattr_gsms, getattr_gsms. unfold_M. rewrite Hobj. cbn beta iota.
  assert (Hpos : (0 <? Z.of_nat (List.length (s :: rest)))%Z = true)
    by (apply Z.ltb_lt; simpl List.length; lia).
  rewrite Hpos. cbn beta iota.
  unfold log_append, set_log_records. cbn. rewrite <- app_assoc. reflexivity.
Qed.

(** X11.  When the cache file decodes to an object with at least one
    sample, [load_or_parse_gse] returns that object; the parser is not
    called and no file is written: only two lines are logged. *)
Theorem load_or_parse_gse_cache_hit (w : world) (obj : pyobj) (s : string * GSM)
    (rest : list (string * GSM)) :
  fst (joblib_load joblib_decode (gse_object_path self) w) = Ok obj →
  obj_gsms obj = Some (s :: rest) →
  ∃ w',
    load_or_parse_gse GEOparse_parse joblib_decode joblib_encode self w = (Ok obj, w')
    ∧ fs w' = fs w ∧ net w' = net w
    ∧ log_records w'
      = (log_records w ++ [attempt_record; hit_record (S (List.length rest))])%list.
Proof.
  intros Hload Hobj. rewrite (load_hit w obj s rest Hload Hobj).
  eexists. split; [reflexivity|]. repeat split.
Qed.

(** The file a parse leaves at the cache path. *)
Lemma parse_from_soft_saves (w w1 : world) (gse : pyobj) :
  parse_from_soft GEOparse_parse joblib_encode self w = (Ok gse, w1) →
  fs w1 !! gse_object_path self = Some (joblib_encode gse).
Proof.
  unfold parse_from_soft, save_parsed, joblib_dump, write_file.
  change (log (logger self)) with logging_info. unfold_M.
  destruct (ensure_friendly_copy self w) as [[[] | e] wc]; [| discriminate].
  destruct (parse_with_fallback GEOparse_parse self wc) as [[g | e] wp]; [| discriminate].
  intros [= <- <-]. cbn [fs set_fs set_log_records]. apply lookup_insert_eq.
Qed.

(** X12.  After a parse has saved its object, the next call of
    [load_or_parse_gse] returns the same object from the cache without
    parsing, provided that [joblib] reads back what it wrote and that the
    object has at least one sample; an object without samples is parsed
    again at every call. *)
Theorem load_or_parse_gse_second_run (w w1 : world) (gse : pyobj) :
  parse_from_soft GEOparse_parse joblib_encode self w = (Ok gse, w1) →
  joblib_decode (joblib_encode gse) = Ok gse →
  (∀ s rest, obj_gsms gse = Some (s :: rest) →
     load_or_parse_gse GEOparse_parse joblib_decode joblib_encode self w1
     = (Ok gse, log_append [attempt_record; hit_record (S (List.length rest))] w1))
  ∧ (obj_gsms gse = Some [] →
     load_or_parse_gse GEOparse_parse joblib_decode joblib_encode self w1
     = parse_from_soft GEOparse_parse joblib_encode self
         (log_append [attempt_record; miss_record (AssertionError "")] w1)).
Proof.
  intros Hparse Hrt.
  pose proof (parse_from_soft_saves w w1 gse Hparse) as Hfile.
  assert (Hload : fst (joblib_load joblib_decode (gse_object_path self) w1) = Ok gse).
  { unfold joblib_load, read_file. unfold_M. rewrite Hfile, Hrt. reflexivity. }
  split.
  - intros s rest Hg. apply (load_hit w1 gse s rest Hload Hg).
  - intros Hg.
    apply (load_without_samples_is_miss data_dir results_dir GEOparse_parse joblib_decode
             joblib_encode geo w1 gse Hload (or_intror Hg)).
Qed.

(** X13.  On a cache miss with neither the SOFT file nor its friendly
    copy on disk, [load_or_parse_gse] raises the [FileNotFoundError] of
    the copy; the parser is not called and nothing is written. *)
Theorem load_or_parse_gse_without_soft (w : world) (e : exn) :
  fst (joblib_load joblib_decode (gse_object_path self) w) = Raise e →
  fs w !! soft_path self = None →
  fs w !! friendly_path self = None →
  ∃ text,
    load_or_parse_gse GEOparse_parse joblib_decode joblib_encode self w
    = (Raise (FileNotFoundError text), log_append [attempt_record; miss_record e] w).
Proof.
  intros Hload Hsoft Hfriendly.
  exists (exn_str (no_such_file (soft_path self))).
  etransitivity;
    [exact (load_raises_is_miss data_dir results_dir GEOparse_parse joblib_decode
              joblib_encode geo w e Hload) |].
  fold self.
  unfold parse_from_soft, ensure_friendly_copy, os_path_exists, shutil_copy, read_file.
  unfold_M. change (fs (log_append [attempt_record; miss_record e] w)) with (fs w).
  rewrite bool_decide_eq_false_2 by (rewrite Hfriendly; intros [x Hx]; discriminate).
  cbn beta iota. change (fs (log_append [attempt_record; miss_record e] w)) with (fs w).
  rewrite Hsoft. reflexivity.
Qed.

End CacheRoundTrip.

Lemma load_or_parse_gse_cache_hit_witness :
  ∃ w',
    GeoDatasetFetcher.load_or_parse_gse Samples.parse_strict MoreSamples.decode_gse
      Samples.encode_any MoreSamples.fetcher MoreSamples.w_hit = (Ok Samples.gse, w')
    ∧ fs w' = fs MoreSamples.w_hit ∧ net w' = net MoreSamples.w_hit.
Proof.
  destruct (load_or_parse_gse_cache_hit "/data" "/results" Samples.parse_strict
              MoreSamples.decode_gse Samples.encode_any "GSE40279" MoreSamples.w_hit
              Samples.gse ("GSM1", Samples.gsm1) [("GSM2", Samples.gsm2)])
    as (w' & Hrun & Hfs & Hnet & _).
  - vm_compute. reflexivity.
  - reflexivity.
  - exists w'. split; [exact Hrun | split; [exact Hfs | exact Hnet]].
Defined.

Lemma load_or_parse_gse_second_run_witness :
  fst (GeoDatasetFetcher.load_or_parse_gse MoreSamples.parse_ok MoreSamples.decode_gse
         Samples.encode_any MoreSamples.fetcher
         (snd (GeoDatasetFetcher.parse_from_soft MoreSamples.parse_ok Samples.encode_any
                 MoreSamples.fetcher Samples.w_cached)))
  = Ok Samples.gse.
Proof.
  destruct (load_or_parse_gse_second_run "/data" "/results" MoreSamples.parse_ok
              MoreSamples.decode_gse Samples.encode_any "GSE40279" Samples.w_cached
              (snd (GeoDatasetFetcher.parse_from_soft MoreSamples.parse_ok
                      Samples.encode_any MoreSamples.fetcher Samples.w_cached))
              Samples.gse) as [Hhit _].
  - vm_compute. reflexivity.
  - reflexivity.
  - exact (f_equal fst (Hhit ("GSM1", Samples.gsm1) [("GSM2", Samples.gsm2)] eq_refl)).
Defined.

Lemma load_or_parse_gse_without_soft_witness :
  ∃ text,
    fst (GeoDatasetFetcher.load_or_parse_gse Samples.parse_strict Samples.decode_fail
           Samples.encode_any MoreSamples.fetcher Samples.w0)
    = Raise (FileNotFoundError text).
Proof.
  destruct (load_or_parse_gse_without_soft "/data" "/results" Samples.parse_strict
              Samples.decode_fail Samples.encode_any "GSE40279" Samples.w0
              (no_such_file "/data/s00005_GSE40279_gse_object.joblib"))
    as [text Hrun].
  - vm_compute. reflexivity.
  - vm_compute. reflexivity.
  - vm_compute. reflexivity.
  - exists text. exact (f_equal fst Hrun).
Defined.

(** ** Downloading the SOFT archive *)

Section DownloadSoftFacts.
Import GeoDatasetFetcher.

Variable data_dir results_dir : string.
Variable GEOparse_download : string → string → M unit.
Variable os_listdir : string → M (list string).
Variable geo : string.

Let self := __init__ data_dir results_dir geo FileLogger.

(** The record logged when the download starts. *)
Let downloading : log_record :=
  info ("📥 Downloading " +:+ geo_id self +:+ " ➜ " +:+ soft_path self).

Lemma download_soft_miss (w : world) :
  fs w !! soft_path self = None ∨ fs w !! soft_path self = Some [] →
  download_soft data_dir GEOparse_download os_listdir self w
  = (GEOparse_download (geo_id self) data_dir ;;
     names ← os_listdir data_dir;
     rename_first_match data_dir self names ;;
     logging_info "✅ Download complete.") (log_append [downloading] w).
Proof.
  intros Hmiss.
  unfold download_soft, os_path_exists, os_path_getsize.
  change (log (logger self)) with logging_info. unfold_M.
  destruct Hmiss as [Hf | Hf].
  - rewrite bool_decide_eq_false_2 by (rewrite Hf; intros [x Hx]; discriminate).
    reflexivity.
  - rewrite bool_decide_eq_true_2 by (rewrite Hf; eauto).
    rewrite Hf. reflexivity.
Qed.

Lemma rename_cons (fn : string) (rest : list string) :
  rename_first_match data_dir self (fn :: rest)
  = if matches self fn then
      if negb (String.eqb (PosixPath.join data_dir fn) (soft_path self))
      then shutil_move (PosixPath.join data_dir fn) (soft_path self)
      else mret tt
    else rename_first_match data_dir self rest.
Proof. reflexivity. Qed.

Lemma rename_skips (pre rest : list string) (w : world) :
  (∀ fn, In fn pre → matches self fn = false) →
  rename_first_match data_dir self (pre ++ rest) w
  = rename_first_match data_dir self rest w.
Proof.
  induction pre as [| fn pre IH]; intros Hpre; [reflexivity|].
  change ((fn :: pre) ++ rest)%list with (fn :: (pre ++ rest))%list.
  rewrite rename_cons, (Hpre fn (or_introl eq_refl)).
  apply IH. intros fn' Hin. apply Hpre. right. exact Hin.
Qed.

(** X14.  When the SOFT file is missing or empty and the provider has
    downloaded, [download_soft] moves the first listed file whose name
    starts with the identifier and ends in [.soft.gz] to the standard
    path: the standard path then holds its contents, the listed file is
    gone, and the files listed after it are not looked at. *)
Theorem download_soft_moves_first_match (w w1 w2 : world) (pre post : list string)
    (fn : string) (downloaded : list Byte.byte) :
  fs w !! soft_path self = None ∨ fs w !! soft_path self = Some [] →
  GEOparse_download (geo_id self) data_dir (log_append [downloading] w) = (Ok tt, w1) →
  os_listdir data_dir w1 = (Ok (pre ++ fn :: post)%list, w2) →
  (∀ fn', In fn' pre → matches self fn' = false) →
  matches self fn = true →
  PosixPath.join data_dir fn ≠ soft_path self →
  fs w2 !! PosixPath.join data_dir fn = Some downloaded →
  ∃ w',
    download_soft data_dir GEOparse_download os_listdir self w = (Ok tt, w')
    ∧ fs w' !! soft_path self = Some downloaded
    ∧ fs w' !! PosixPath.join data_dir fn = None
    ∧ (∀ p, p ≠ soft_path self → p ≠ PosixPath.join data_dir fn →
            fs w' !! p = fs w2 !! p).
Proof.
  intros Hmiss Hdl Hls Hpre Hfn Hne Hsrc.
  rewrite (download_soft_miss w Hmiss). unfold_M. rewrite Hdl, Hls.
  rewrite (rename_skips pre (fn :: post) w2 Hpre).
  rewrite rename_cons, Hfn.
  assert (Hneb : negb (String.eqb (PosixPath.join data_dir fn) (soft_path self)) = true)
    by (apply negb_true_iff, String.eqb_neq, Hne).
  rewrite Hneb. unfold shutil_move, read_file. unfold_M. rewrite Hsrc.
  eexists. split; [reflexivity|]. cbn [fs set_fs set_log_records]. split; [| split].
  - apply lookup_insert_eq.
  - rewrite lookup_insert_ne by congruence. apply lookup_delete_eq.
  - intros p Hp1 Hp2. rewrite lookup_insert_ne by congruence.
    apply lookup_delete_ne. congruence.
Qed.

(** X15.  When no listed name starts with the identifier and ends in
    [.soft.gz], [download_soft] moves nothing, logs that the download is
    complete and returns normally, whether or not the standard path
    exists. *)
Theorem download_soft_without_match (w w1 w2 : world) (names : list string) :
  fs w !! soft_path self = None ∨ fs w !! soft_path self = Some [] →
  GEOparse_download (geo_id self) data_dir (log_append [downloading] w) = (Ok tt, w1) →
  os_listdir data_dir w1 = (Ok names, w2) →
  (∀ fn, In fn names → matches self fn = false) →
  download_soft data_dir GEOparse_download os_listdir self w
  = (Ok tt, log_append [info "✅ Download complete."] w2).
Proof.
  intros Hmiss Hdl Hls Hnone.
  rewrite (download_soft_miss w Hmiss). unfold_M. rewrite Hdl, Hls.
  rewrite <- (app_nil_r names), (rename_skips names [] w2 Hnone). reflexivity.
Qed.

End DownloadSoftFacts.

Lemma download_soft_moves_first_match_witness :
  ∃ w',
    GeoDatasetFetcher.download_soft "/data" MoreSamples.geo_download_writes
      MoreSamples.listdir_after MoreSamples.fetcher Samples.w0 = (Ok tt, w')
    ∧ fs w' !! "/data/s00005_GSE40279_family.soft.gz" = Some MoreSamples.soft_bytes
    ∧ fs w' !! "/data/GSE40279_family.soft.gz" = None.
Proof.
  destruct (download_soft_moves_first_match "/data" "/results"
              MoreSamples.geo_download_writes MoreSamples.listdir_after "GSE40279"
              Samples.w0
              MoreSamples.w_downloaded MoreSamples.w_downloaded
              ["notes.txt"] ["GSE40279_extra.soft.gz"] "GSE40279_family.soft.gz"
              MoreSamples.soft_bytes)
    as (w' & Hrun & Hsoft & Hsrc & _).
  - left. vm_compute. reflexivity.
  - reflexivity.
  - reflexivity.
  - intros fn' [<- | []]. vm_compute. reflexivity.
  - vm_compute. reflexivity.
  - vm_compute. discriminate.
  - vm_compute. reflexivity.
  - exists w'. split; [exact Hrun | split; [exact Hsoft | exact Hsrc]].
Defined.

Lemma download_soft_without_match_witness :
  ∃ w',
    GeoDatasetFetcher.download_soft "/data" MoreSamples.geo_download_writes
      MoreSamples.listdir_unrelated MoreSamples.fetcher Samples.w0 = (Ok tt, w')
    ∧ fs w' !! "/data/s00005_GSE40279_family.soft.gz" = None.
Proof.
  eexists. split.
  - apply (download_soft_without_match "/data" "/results"
             MoreSamples.geo_download_writes MoreSamples.listdir_unrelated "GSE40279"
             Samples.w0 MoreSamples.w_downloaded MoreSamples.w_downloaded
             ["notes.txt"; "GSE40279_family.soft"; "GSE1_family.soft.gz"]).
    + left. vm_compute. reflexivity.
    + reflexivity.
    + reflexivity.
    + intros fn [<- | [<- | [<- | []]]]; vm_compute; reflexivity.
  - vm_compute. reflexivity.
Defined.

(** ** The output paths of the GEO script *)

Section PathFacts.
Import GeoDatasetFetcher.

Lemma last_char_append (a b : string) :
  b ≠ "" → last_char (a +:+ b) = last_char b.
Proof.
  intros Hb. induction a as [| c a IH]; [reflexivity|].
  change (String c a +:+ b) with (String c (a +:+ b)).
  destruct (a +:+ b) eqn:E.
  - destruct a; [simpl in E; contradiction | discriminate].
  - exact IH.
Qed.

(** A joined path ends with its second part. *)
Lemma last_char_join (a b : string) :
  b ≠ "" → last_char (PosixPath.join a b) = last_char b.
Proof.
  intros Hb. unfold PosixPath.join.
  destruct (PyStr.startswith "/" b); [reflexivity|].
  destruct (String.eqb a "" || PyStr.endswith "/" a).
  - apply last_char_append, Hb.
  - rewrite last_char_append; [apply (last_char_append "/" b Hb) |].
    destruct b; discriminate.
Qed.

Lemma nonempty_append (a b : string) : b ≠ "" → a +:+ b ≠ "".
Proof. intros Hb. destruct a; [exact Hb | discriminate]. Qed.

(** X16.  The four paths a fetcher derives from the identifier, for any
    identifier and any two directories, are pairwise distinct: the
    archive, the parsed-object cache, the CSV and the log never share a
    file. *)
Theorem fetcher_paths_distinct (data_dir results_dir geo : string) (logger : Logger) :
  let self := __init__ data_dir results_dir geo logger in
  soft_path self ≠ gse_object_path self
  ∧ soft_path self ≠ pheno_csv self
  ∧ soft_path self ≠ log_file self
  ∧ gse_object_path self ≠ pheno_csv self
  ∧ gse_object_path self ≠ log_file self
  ∧ pheno_csv self ≠ log_file self.
Proof.
  intros self.
  assert (Hsoft : last_char (soft_path self) = Some "z"%char).
  { unfold self, __init__. cbn [soft_path].
    rewrite last_char_join by (apply nonempty_append, nonempty_append; discriminate).
    rewrite !last_char_append by (try apply nonempty_append; discriminate). reflexivity. }
  assert (Hobj : last_char (gse_object_path self) = Some "b"%char).
  { unfold self, __init__. cbn [gse_object_path].
    rewrite last_char_join by (apply nonempty_append, nonempty_append; discriminate).
    rewrite !last_char_append by (try apply nonempty_append; discriminate). reflexivity. }
  assert (Hcsv : last_char (pheno_csv self) = Some "v"%char).
  { unfold self, __init__. cbn [pheno_csv].
    rewrite last_char_join by (apply nonempty_append, nonempty_append; discriminate).
    rewrite !last_char_append by (try apply nonempty_append; discriminate). reflexivity. }
  assert (Hlog : last_char (log_file self) = Some "t"%char).
  { unfold self, __init__. cbn [log_file].
    rewrite last_char_join by (apply nonempty_append, nonempty_append; discriminate).
    rewrite !last_char_append by (try apply nonempty_append; discriminate). reflexivity. }
  repeat split; intros Heq; rewrite Heq in *; congruence.
Qed.

End PathFacts.

(** ** What the step timer leaves alone *)

Section StepFrameFacts.
Import StepTimer.

(** The timer's [__exit__] only adds log records, whatever it returns. *)
Lemma exit_only_logs (title : string) (mon : SystemMonitor.t) (w w2 : world)
    (exc : option exn) :
  ∃ r w3 extra,
    __exit__ (entered title mon w) exc w2 = (r, w3)
    ∧ w3 = log_append extra w2
    ∧ match r with
      | Ok v => truthy v = false
      | Raise e => ∃ m, e = OverflowError m
      end.
Proof.
  unfold __exit__, SystemMonitor.snapshot, time_time, monitor_delta. unfold_M.
  cbn [t0 before entered logger log FileLogger].
  destruct (format_duration (PyFloat.binary64_round (now w2 - now w))) as [dt | e] eqn:Hdt.
  - destruct (exc_truth exc); unfold_M.
    + eexists _, _, [_]. split; [reflexivity|]. split; reflexivity.
    + eexists _, _, [_; _]. split; [reflexivity|]. split; [| reflexivity].
      unfold log_append, set_log_records. cbn. rewrite <- app_assoc. reflexivity.
  - exists (Raise e), w2, []. split; [reflexivity|]. split.
    + symmetry. apply log_append_nil.
    + unfold format_duration in Hdt.
      unfold Timedelta.timedelta_of_seconds in Hdt.
      destruct (Z.abs _ >? 999999999)%Z; [| discriminate].
      injection Hdt as <-. eauto.
Qed.

(** X17.  A [with StepTimer] statement adds log records and nothing
    else to what its body does: files, network trace and data frames are
    those the body left.  It never swallows an exception of the body: it
    raises whenever the body does, and it returns the body's value
    unless the elapsed time is outside the range of [timedelta]. *)
Theorem step_timer_only_logs (A : Type) (title : string) (mon : SystemMonitor.t)
    (body : M A) (w w2 : world) (r2 : result A) :
  body (after_enter title w) = (r2, w2) →
  ∃ r w' extra,
    with_ title mon FileLogger body w = (r, w')
    ∧ w' = log_append extra w2
    ∧ match r2 with
      | Raise e => ∃ e', r = Raise e'
      | Ok a => r = Ok (Some a) ∨ ∃ m, r = Raise (OverflowError m)
      end.
Proof.
  intros Hbody. unfold with_. rewrite enter_FileLogger, Hbody.
  destruct r2 as [a | e].
  - destruct (exit_only_logs title mon w w2 None) as (r & w3 & extra & Hexit & Hw & Hr).
    rewrite Hexit. destruct r as [v | e].
    + eexists _, _, extra. split; [reflexivity|]. split; [exact Hw | left; reflexivity].
    + destruct Hr as [m ->].
      eexists _, _, extra. split; [reflexivity|]. split; [exact Hw | right; eauto].
  - destruct (exit_only_logs title mon w w2 (Some e)) as (r & w3 & extra & Hexit & Hw & Hr).
    rewrite Hexit. destruct r as [v | e'].
    + rewrite Hr. eexists _, _, extra. split; [reflexivity|]. split; [exact Hw | eauto].
    + eexists _, _, extra. split; [reflexivity|]. split; [exact Hw | eauto].
Qed.

End StepFrameFacts.

Lemma step_timer_only_logs_witness :
  ∃ r w' extra,
    StepTimer.with_ "Download SOFT file" Samples.mon FileLogger Samples.failing_step
      Samples.w0 = (r, w')
    ∧ w' = log_append extra
             (snd (Samples.failing_step (after_enter "Download SOFT file" Samples.w0)))
    ∧ ∃ e', r = Raise e'.
Proof.
  apply (step_timer_only_logs unit "Download SOFT file" Samples.mon Samples.failing_step
           Samples.w0 _ (Raise (ValueError "boom")) eq_refl).
Defined.

(** ** The GEO script as a whole *)

Section GeoMainFacts.
Import GeoScript.

Variable data_dir results_dir : string.
Variable GEOparse_download : string → string → M unit.
Variable GEOparse_parse : list (string * string) → M pyobj.
Variable str_strip str_lower : string → string.
Variable os_listdir : string → M (list string).
Variable joblib_decode : list Byte.byte → result pyobj.
Variable joblib_encode : pyobj → list Byte.byte.
Variable rows_to_csv : list (list (string * string)) → list Byte.byte.
Variable isoformat : Q → string.

Lemma report_FileLogger (w : world) :
  report {| SystemMonitor.logger := FileLogger |} w
  = (Ok tt, log_append (report_records (counters w)) w).
Proof.
  unfold report, SystemMonitor.snapshot. cbn [SystemMonitor.logger log FileLogger].
  unfold_M. unfold log_append, set_log_records, report_records. cbn.
  rewrite <- !app_assoc. reflexivity.
Qed.

(** [main] up to its [try] statement. *)
Lemma main_prelude (args : Args) (w : world) :
  main data_dir results_dir GEOparse_download GEOparse_parse str_strip str_lower os_listdir
    joblib_decode joblib_encode rows_to_csv isoformat args w
  = (try_except
       (steps data_dir GEOparse_download GEOparse_parse str_strip str_lower os_listdir
          joblib_decode joblib_encode rows_to_csv
          (GeoDatasetFetcher.__init__ data_dir results_dir (arg_geo_id args) FileLogger)
          {| SystemMonitor.logger := FileLogger |} FileLogger args)
       any_Exception
       (λ e, logging_info ("❌ Execution failed: " +:+ exn_str e) ;; raise e) ;;
     logging_info "🏁 Completed all steps.")
      (log_append (geo_prelude isoformat results_dir args w) w).
Proof.
  unfold main, time_time. cbn [log FileLogger]. unfold geo_prelude.
  destruct (arg_no_monitor args); cbn [negb].
  - unfold_M. unfold log_append, set_log_records. cbn.
    rewrite <- app_assoc. reflexivity.
  - unfold mbind at 1 2 3 4, M_bind. unfold gets. unfold logging_info at 1 2.
    unfold modify. cbn beta iota.
    rewrite report_FileLogger. cbn beta iota.
    unfold log_append, set_log_records. cbn. rewrite <- !app_assoc. reflexivity.
Qed.

(** X18.  The GEO script's [main] ends in one of two ways: it returns
    after logging that all steps are completed, or it raises the
    exception of the step that failed after logging that the execution
    failed with that exception; the completion line is never logged
    after a failure. *)
Theorem geo_main_outcome (args : Args) (w w' : world) (r : result unit) :
  main data_dir results_dir GEOparse_download GEOparse_parse str_strip str_lower os_listdir
    joblib_decode joblib_encode rows_to_csv isoformat args w = (r, w') →
  ∃ l,
    log_records w'
    = (l ++ [match r with
             | Ok _ => info "🏁 Completed all steps."
             | Raise e => info ("❌ Execution failed: " +:+ exn_str e)
             end])%list.
Proof.
  rewrite main_prelude. unfold_M.
  destruct (steps _ _ _ _ _ _ _ _ _ _ _ _ _ _) as [[[] | e] ws].
  - intros [= <- <-]. eexists. reflexivity.
  - intros [= <- <-]. eexists. reflexivity.
Qed.

(** X19.  When the download step of the GEO script raises, [main] raises
    the same exception and nothing runs after that step: the world is the
    one the download left, with the failure marker of the step and the
    line of the failed execution added to the log.  For an exception
    instance that is false the two lines of a completed step stand in
    the place of the failure marker. *)
Theorem geo_main_stops_at_failed_download (args : Args) (w w2 : world) (e : exn)
    (dt : string) :
  let start := log_append (geo_prelude isoformat results_dir args w) w in
  let fetcher :=
    GeoDatasetFetcher.__init__ data_dir results_dir (arg_geo_id args) FileLogger in
  GeoDatasetFetcher.download_soft data_dir GEOparse_download os_listdir fetcher
    (after_enter "Download SOFT file" start) = (Raise e, w2) →
  format_duration (PyFloat.binary64_round (now w2 - now start)) = Ok dt →
  main data_dir results_dir GEOparse_download GEOparse_parse str_strip str_lower os_listdir
    joblib_decode joblib_encode rows_to_csv isoformat args w
  = (Raise e,
     log_append
       ((if exn_bool e then [fail_record "Download SOFT file" dt e]
         else [delta_record (SystemMonitor.delta (counters start) (counters w2));
               done_record "Download SOFT file" dt])
        ++ [info ("❌ Execution failed: " +:+ exn_str e)])
       w2).
Proof.
  intros start fetcher Hbody Hdt.
  rewrite main_prelude. fold start. fold fetcher. unfold steps.
  unfold mbind at 1, M_bind. unfold try_except.
  unfold mbind at 1, M_bind.
  rewrite (with_outcome _ _ _ _ start w2 (Raise e) dt Hbody Hdt).
  cbn [any_Exception]. unfold_M.
  unfold log_append, set_log_records. cbn. rewrite <- app_assoc. reflexivity.
Qed.

End GeoMainFacts.

Lemma geo_main_outcome_witness :
  ∃ l,
    log_records
      (snd (GeoScript.main "/data" "/results" Samples.geo_download_down Samples.parse_strict
              PyStr.strip PyStr.lower Samples.listdir_files Samples.decode_fail Samples.encode_any
              Samples.rows_to_csv_any MoreSamples.isoformat_fixed MoreSamples.args_geo
              Samples.w0))
    = (l ++ [info "❌ Execution failed: network is unreachable"])%list.
Proof.
  apply (geo_main_outcome "/data" "/results" Samples.geo_download_down Samples.parse_strict
           PyStr.strip PyStr.lower Samples.listdir_files Samples.decode_fail Samples.encode_any
           Samples.rows_to_csv_any MoreSamples.isoformat_fixed MoreSamples.args_geo
           Samples.w0 _ (Raise (OtherException "URLError" "network is unreachable"))).
  vm_compute. reflexivity.
Defined.

Lemma geo_main_stops_at_failed_download_witness :
  fst (GeoScript.main "/data" "/results" Samples.geo_download_down Samples.parse_strict
         PyStr.strip PyStr.lower Samples.listdir_files Samples.decode_fail Samples.encode_any
         Samples.rows_to_csv_any MoreSamples.isoformat_fixed MoreSamples.args_geo
         Samples.w0)
  = Raise (OtherException "URLError" "network is unreachable").
Proof.
  assert (H := geo_main_stops_at_failed_download "/data" "/results"
                 Samples.geo_download_down Samples.parse_strict PyStr.strip PyStr.lower
                 Samples.listdir_files
                 Samples.decode_fail Samples.encode_any Samples.rows_to_csv_any
                 MoreSamples.isoformat_fixed MoreSamples.args_geo Samples.w0).
  cbn zeta in H.
  exact (f_equal fst (H _ (OtherException "URLError" "network is unreachable") "0:00:00"
                        ltac:(vm_compute; reflexivity) ltac:(vm_compute; reflexivity))).
Defined.


(** ** The annotation script as a whole *)

Section AnnotationMainFacts.
Import AnnotationScript.

Variable remote : string → Z → result Response.
Variable tar_decode : list Byte.byte → result (list TarInfo).
Variable cwd : string.
Variable pd_join_inner : DataFrame → DataFrame → result DataFrame.
Variable pd_reset_index_rename : DataFrame → DataFrame.
Variable os_walk : string → M (list (string * list string * list string)).
Variable _load_rda_to_dfs : string → string → M (nat * nat).
Variable frame_to_csv : DataFrame → list Byte.byte.
Variable strftime : Q → string.

Lemma init_builds (rpy2 : bool) (url data_dir results_dir : string) (process_rda : bool)
    (tag : string) (timeout : Z) (mon : SystemMonitor.t) (w : world) :
  ∃ extra,
    __init__ rpy2 url data_dir results_dir process_rda tag timeout FileLogger mon w
    = (Ok (built_inspector rpy2 url data_dir results_dir process_rda tag timeout
             FileLogger mon),
       log_append extra w).
Proof.
  unfold __init__, _log_startup_env. cbn [logger log FileLogger].
  unfold mbind, M_bind. unfold logging_info at 1 2 3 4 5 6. unfold modify. cbn beta iota.
  rewrite report_FileLogger. cbn beta iota. unfold mret, M_ret.
  eexists (_ :: _ :: _ :: _ :: _ :: _ :: _).
  unfold log_append, set_log_records. cbn. rewrite <- !app_assoc. reflexivity.
Qed.

(** X20.  With processing of the RDA files requested and the R bridge
    missing, [run] does what it does without the request: the same
    result, files, requests and data frames; between the two steps and
    the closing line it logs that the processing is skipped. *)
Theorem run_skips_rda_without_bridge (url data_dir results_dir tag : string) (timeout : Z)
    (mon : SystemMonitor.t) (w w' : world) (r : result unit) :
  let self p :=
    built_inspector false url data_dir results_dir p tag timeout FileLogger mon in
  run remote tar_decode cwd pd_join_inner pd_reset_index_rename os_walk _load_rda_to_dfs
    frame_to_csv (self false) w = (r, w') →
  ∃ w'',
    run remote tar_decode cwd pd_join_inner pd_reset_index_rename os_walk _load_rda_to_dfs
      frame_to_csv (self true) w = (r, w'')
    ∧ fs w'' = fs w' ∧ net w'' = net w' ∧ frames w'' = frames w'
    ∧ match r with
      | Raise _ => w'' = w'
      | Ok _ =>
          ∃ l,
            log_records w' = (l ++ [info "🎉 Finished successfully"])%list
            ∧ log_records w''
              = (l ++ [info "⚠️ rpy2 not available. Skipping RDA processing/CSV export.";
                       info "🎉 Finished successfully"])%list
      end.
Proof.
  intros self. unfold run.
  cbn [self built_inspector AnnotationScript.process_rda AnnotationScript.rpy2_ok
       AnnotationScript.monitor AnnotationScript.logger AnnotationScript.url
       AnnotationScript.tar_path AnnotationScript.timeout AnnotationScript.extract_dir
       andb negb log FileLogger].
  unfold mbind, M_bind.
  destruct (StepTimer.with_ "Step 1 - Download annotation archive" _ _ _ w)
    as [[v1 | e1] w1].
  - destruct (StepTimer.with_ "Step 2 - Extract .tar.gz archive" _ _ _ w1)
      as [[v2 | e2] w2].
    + unfold mret, M_ret, logging_info, modify. cbn beta iota.
      intros [= <- <-]. eexists. split; [reflexivity|].
      cbn [fs net frames set_log_records]. repeat split.
      eexists. cbn [log_records]. split; [reflexivity|].
      unfold set_log_records. cbn [log_records]. rewrite <- app_assoc. reflexivity.
    + intros [= <- <-]. eexists. split; [reflexivity|]. repeat split.
  - intros [= <- <-]. eexists. split; [reflexivity|]. repeat split.
Qed.

(** The calls [main] makes once logging is configured: the last one
    logs the time of completion, and when the run raised, the one before
    it logs the unhandled error with the exception. *)
Lemma main_body_calls (rpy2 : bool) (args : Args) (w w' : world) (r : result unit) :
  main_body remote tar_decode cwd pd_join_inner pd_reset_index_rename os_walk
    _load_rda_to_dfs frame_to_csv rpy2 strftime args w = (r, w') →
  ∃ l,
    log_records w'
    = (l ++ match r with
            | Ok _ => []
            | Raise e =>
                [ {| lvl := ERROR; msg := "💥 Unhandled error: " +:+ exn_str e;
                     exc_info := Some e |} ]
            end
         ++ [info ("🕓 Completed at " +:+ strftime (now w'))])%list.
Proof.
  unfold main_body, time_time. cbn [log FileLogger].
  unfold mbind at 1 2 3, M_bind. unfold gets. unfold logging_info at 1. unfold modify.
  cbn beta iota. rewrite report_FileLogger. cbn beta iota.
  unfold try_finally, try_except.
  match goal with
  | |- context [mbind ?k ?m ?w0] =>
      destruct (mbind k m w0) as [[[] | e] wr] eqn:Hrun
  end.
  - unfold_M. intros [= <- <-]. exists (log_records wr).
    cbn [log_records now set_log_records]. reflexivity.
  - cbn [any_Exception]. unfold_M. intros [= <- <-]. exists (log_records wr).
    cbn [log_records now set_log_records]. rewrite <- app_assoc. reflexivity.
Qed.

Lemma emitted_app (threshold : level) (a b : list log_record) :
  emitted threshold (a ++ b) = (emitted threshold a ++ emitted threshold b)%list.
Proof. apply List.filter_app. Qed.

(** X21.  Whatever level [--log-level] sets, when the annotation
    script's [main] raises, the record of the unhandled error, carrying
    the exception, is written.  At the levels DEBUG and INFO the time of
    completion is the last record, whether the run returned or raised;
    at WARNING and ERROR it is not written, and the record of the error
    is the last one. *)
Theorem annotation_main_always_completes (rpy2 : bool) (args : Args) (w w' : world)
    (r : result unit) :
  main remote tar_decode cwd pd_join_inner pd_reset_index_rename os_walk _load_rda_to_dfs
    frame_to_csv rpy2 strftime args w = (r, w') →
  ∃ l,
    log_records w'
    = (l ++ match r with
            | Ok _ => []
            | Raise e =>
                [ {| lvl := ERROR; msg := "💥 Unhandled error: " +:+ exn_str e;
                     exc_info := Some e |} ]
            end
         ++ match arg_log_level args with
            | DEBUG | INFO => [info ("🕓 Completed at " +:+ strftime (now w'))]
            | WARNING | ERROR => []
            end)%list.
Proof.
  unfold main, with_root_level.
  destruct (main_body _ _ _ _ _ _ _ _ _ _ _ _) as [r0 wb] eqn:Hbody.
  intros [= <- <-].
  destruct (main_body_calls _ _ _ _ _ Hbody) as [l Hl].
  exists (log_records w ++ emitted (arg_log_level args) l)%list.
  cbn [log_records set_log_records now]. rewrite Hl, !emitted_app, <- !app_assoc.
  f_equal. f_equal.
  destruct r0 as [[] | e]; destruct (arg_log_level args); reflexivity.
Qed.

End AnnotationMainFacts.

Lemma run_skips_rda_without_bridge_witness :
  let run_with p :=
    AnnotationScript.run MoreSamples.remote_ok MoreSamples.tar_honest "/w" Samples.join_left
      Samples.reset_same MoreSamples.os_walk_pkg MoreSamples.load_rda_unbound
      MoreSamples.frame_to_csv_any
      (built_inspector false MoreSamples.anno_url "/data" "/results" p "GSE40279" 60
         FileLogger Samples.mon)
      Samples.w0 in
  ∃ w'',
    run_with true = (Ok tt, w'')
    ∧ fs w'' = fs (snd (run_with false)) ∧ net w'' = net (snd (run_with false))
    ∧ frames w'' = frames (snd (run_with false))
    ∧ ∃ l,
        log_records (snd (run_with false))
        = (l ++ [info "🎉 Finished successfully"])%list
        ∧ log_records w''
          = (l ++ [info "⚠️ rpy2 not available. Skipping RDA processing/CSV export.";
                   info "🎉 Finished successfully"])%list.
Proof.
  intros run_with.
  apply (run_skips_rda_without_bridge MoreSamples.remote_ok MoreSamples.tar_honest "/w"
           Samples.join_left Samples.reset_same MoreSamples.os_walk_pkg
           MoreSamples.load_rda_unbound MoreSamples.frame_to_csv_any MoreSamples.anno_url
           "/data" "/results" "GSE40279" 60 Samples.mon Samples.w0 (snd (run_with false))
           (Ok tt)).
  vm_compute. reflexivity.
Defined.

Lemma annotation_main_always_completes_witness :
  ∃ l,
    log_records
      (snd (AnnotationScript.main MoreSamples.remote_404 MoreSamples.tar_honest "/w"
              Samples.join_left Samples.reset_same MoreSamples.os_walk_pkg
              MoreSamples.load_rda_unbound MoreSamples.frame_to_csv_any false
              MoreSamples.strftime_fixed MoreSamples.args_anno_quiet Samples.w0))
    = (l ++ [ {| lvl := ERROR;
                 msg := "💥 Unhandled error: 404 Client Error: Not Found for url: "
                        +:+ MoreSamples.anno_url;
                 exc_info :=
                   Some (OtherException "HTTPError"
                           ("404 Client Error: Not Found for url: "
                            +:+ MoreSamples.anno_url)) |} ]
         ++ [])%list.
Proof.
  apply (annotation_main_always_completes MoreSamples.remote_404 MoreSamples.tar_honest "/w"
           Samples.join_left Samples.reset_same MoreSamples.os_walk_pkg
           MoreSamples.load_rda_unbound MoreSamples.frame_to_csv_any MoreSamples.strftime_fixed
           false MoreSamples.args_anno_quiet Samples.w0 _
           (Raise (OtherException "HTTPError"
                     ("404 Client Error: Not Found for url: " +:+ MoreSamples.anno_url)))).
  vm_compute. reflexivity.
Defined.

(** ** The shape of the phenotype table *)

Section TableShape.
Import GeoDatasetFetcher.

Variable data_dir results_dir : string.
Variable rows_to_csv : list (list (string * string)) → list Byte.byte.
Variable geo : string.
Variable str_strip str_lower : string → string.

Let self := __init__ data_dir results_dir geo FileLogger.

Local Abbreviation add_items := (GeoDatasetFetcher.add_items str_strip str_lower).
Local Abbreviation sample_row := (GeoDatasetFetcher.sample_row str_strip str_lower).
Local Abbreviation collect := (GeoDatasetFetcher.collect str_strip str_lower).

Lemma collect_length (field : string) (gsms : list (string * GSM)) :
  List.length (collect field gsms).1 = List.length gsms.
Proof.
  induction gsms as [| [sid gsm] gsms IH]; [reflexivity|].
  simpl. destruct (sample_row field sid gsm) as [record vals].
  destruct (collect field gsms) as [rows values]. simpl in *. rewrite IH. reflexivity.
Qed.

Lemma collect_field_entries (field : string) (gsms : list (string * GSM)) :
  (collect field gsms).2 = field_entries field gsms.
Proof.
  induction gsms as [| [sid gsm] gsms IH]; [reflexivity|].
  unfold field_entries in *. simpl.
  destruct (sample_row field sid gsm) as [record vals] eqn:Hrow.
  destruct (collect field gsms) as [rows values]. simpl in *. rewrite <- IH.
  f_equal. unfold GeoDatasetFetcher.sample_row in Hrow.
  destruct (PyDict.get field (gsm_metadata gsm)) as [[| item rest] |];
    injection Hrow as _ <-; reflexivity.
Qed.

Lemma set_keeps_head (k k0 v v0 : string) (d : list (string * string)) :
  ∃ v' d', PyDict.set k v ((k0, v0) :: d) = (k0, v') :: d'.
Proof. simpl. destruct (String.eqb k0 k); eexists _, _; reflexivity. Qed.

Lemma add_items_keeps_head (meta : list string) (k0 v0 : string)
    (d : list (string * string)) :
  ∃ v' d', add_items ((k0, v0) :: d) meta = (k0, v') :: d'.
Proof.
  revert v0 d. induction meta as [| item meta IH]; intros v0 d; cbn [GeoDatasetFetcher.add_items].
  - eexists _, _. reflexivity.
  - destruct (PyStr.contains ":" item); [| apply IH].
    destruct (PyStr.split_once ":" item) as [[k v] |]; [| apply IH].
    destruct (set_keeps_head (str_lower (str_strip k)) k0 (str_strip v) v0 d)
      as (v' & d' & ->).
    apply IH.
Qed.

Lemma sample_row_head (field sid : string) (gsm : GSM) :
  ∃ v rest, (sample_row field sid gsm).1 = ("sample_id", v) :: rest.
Proof.
  unfold GeoDatasetFetcher.sample_row.
  destruct (PyDict.get field (gsm_metadata gsm)) as [[| item rest] |];
    try (eexists _, _; reflexivity).
  apply add_items_keeps_head.
Qed.

(** X22.  [summarize_phenotypes] writes one row per sample, in the
    order of the samples, each row starting with the column "sample_id";
    a sample without the field, or with an empty one, has that column
    alone, holding its identifier.  The counts it logs, between the
    header and an empty line, add up to the number of entries of the
    field over all samples. *)
Theorem summarize_phenotypes_table_shape (field : string) (gse : pyobj)
    (gsms : list (string * GSM)) (w : world) :
  obj_gsms gse = Some gsms →
  ∃ w' rows counter,
    summarize_phenotypes str_strip str_lower rows_to_csv self gse field w = (Ok tt, w')
    ∧ fs w' !! pheno_csv self = Some (rows_to_csv rows)
    ∧ List.length rows = List.length gsms
    ∧ (∀ (i : nat) (row : list (string * string)),
         rows !! i = Some row → ∃ v rest, row = ("sample_id", v) :: rest)
    ∧ (∀ (i : nat) (sid : string) (gsm : GSM),
         gsms !! i = Some (sid, gsm) →
         PyDict.get field (gsm_metadata gsm) = None
         ∨ PyDict.get field (gsm_metadata gsm) = Some [] →
         rows !! i = Some [("sample_id", sid)])
    ∧ log_records w'
      = (log_records w
         ++ info ("📊 Metadata summary: " +:+ field)
            :: List.map count_line counter
         ++ [info "";
             info ("📄 Parsed phenotype CSV saved to: " +:+ pheno_csv self
                   +:+ String "010" "")])%list
    ∧ total counter = Z.of_nat (List.length (field_entries field gsms)).
Proof.
  intros Hg.
  exists (snd (summarize_phenotypes str_strip str_lower rows_to_csv self gse field w)),
         (collect field gsms).1, (PyDict.Counter (collect field gsms).2).
  pose proof (summarize_phenotypes_runs data_dir results_dir rows_to_csv geo str_strip
                str_lower gse gsms field w Hg) as Hrun.
  change (__init__ data_dir results_dir geo FileLogger) with self in Hrun.
  rewrite Hrun. clear Hrun.
  split; [reflexivity|]. split.
  { unfold log_append, set_log_records, set_fs. cbn [snd fs]. apply lookup_insert_eq. }
  split; [apply collect_length|]. split.
  { intros i row Hrow.
    assert (Hi : (i < List.length gsms)%nat).
    { rewrite <- (collect_length field). apply lookup_lt_is_Some. eexists. exact Hrow. }
    apply lookup_lt_is_Some in Hi. destruct Hi as [[sid gsm] Hi].
    rewrite (collect_rows _ _ field gsms i sid gsm Hi) in Hrow. injection Hrow as <-.
    apply sample_row_head. }
  split.
  { intros i sid gsm Hi Hnone.
    rewrite (collect_rows _ _ field gsms i sid gsm Hi). unfold GeoDatasetFetcher.sample_row.
    destruct Hnone as [-> | ->]; reflexivity. }
  split.
  { unfold log_append, set_log_records, set_fs. cbn [snd log_records].
    rewrite <- app_assoc. simpl. rewrite <- app_assoc. reflexivity. }
  rewrite Counter_total, collect_field_entries. reflexivity.
Qed.

End TableShape.

Lemma summarize_phenotypes_table_shape_witness :
  ∃ (w' : world) (rows : list (list (string * string))) (counter : list (string * Z)),
    GeoDatasetFetcher.summarize_phenotypes PyStr.strip PyStr.lower Samples.rows_to_csv_any
      MoreSamples.fetcher
      Samples.gse "characteristics_ch1" Samples.w0 = (Ok tt, w')
    ∧ List.length rows = List.length Samples.gsms
    ∧ total counter
      = Z.of_nat (List.length (field_entries "characteristics_ch1" Samples.gsms)).
Proof.
  destruct (summarize_phenotypes_table_shape "/data" "/results" Samples.rows_to_csv_any
              "GSE40279" PyStr.strip PyStr.lower "characteristics_ch1" Samples.gse Samples.gsms Samples.w0)
    as (w' & rows & counter & Hrun & _ & Hlen & _ & _ & _ & Htotal).
  - reflexivity.
  - exists w', rows, counter. split; [exact Hrun | split; [exact Hlen | exact Htotal]].
Defined.
